(** * Phoenix Nexus Router: control-plane engine

    A shallow embedding of the health monitor
    ([src/watchdog/health_monitor.py]), of the connection tracker
    ([src/routing/connection_tracker.py]) and of the weight suggestion of
    the interface detector ([src/routing/interface_detector.py]), with the
    properties of the specification proved or refuted on it.

    Conventions.
    - A Python [dict] is an insertion-ordered association list with unique
      keys (module [PyDict]): the order of iteration is observable, in the
      route command and in the clean-up pass.
    - A Python [set] of strings is a [gset string].
    - Python [int] is [Z]; a finite Python [float] is the rational it
      denotes, in [Q]: the code only compares floats and counts with them.
    - A method that mutates [self] is a function from the object to an
      outcome and the object it leaves behind; an exception leaves the
      mutations made before it in place.
    - [time.time()], the ping utility, [ethtool] and the kernel are the
      environment: their answers are arguments. *)

From Stdlib Require Import ZArith QArith Lia Lqa List.
From Stdlib Require Import Ascii String DecimalString DecimalZ.
From Stdlib Require Import Sorted.
From stdpp Require Import base gmap strings.
Import ListNotations.

#[local] Set Warnings "-clear-no-such-hyp".
#[local] Open Scope string_scope.
#[local] Open Scope list_scope.
#[local] Open Scope Z_scope.

(** ** Python values *)

(** [str(n)] for an [int]. *)
Definition str (n : Z) : string := NilZero.string_of_int (Z.to_int n).

(** Outcome of a call: a value, or the exception raised. *)
Inductive exn : Type :=
| KeyError (key : string)
| ZeroDivisionError
| CalledProcessError (cmd : list string) (returncode : Z)
| FileNotFoundError (cmd : list string).

Inductive outcome (A : Type) : Type :=
| Return (a : A)
| Raise (e : exn).
Arguments Return {A} a.
Arguments Raise {A} e.

(** Comparisons of floats, on the rationals they denote. *)
Definition Qgt_bool (x y : Q) : bool := negb (Qle_bool x y).
Definition Qlt_bool (x y : Q) : bool := negb (Qle_bool y x).
Definition Qge_bool (x y : Q) : bool := Qle_bool y x.

(** [c in s] for a character; [str.isdigit] on ASCII. *)
Fixpoint has_char (c : ascii) (s : string) : bool :=
  match s with
  | EmptyString => false
  | String a s' => Ascii.eqb a c || has_char c s'
  end.

Definition is_digit (c : ascii) : bool :=
  match c with
  | "0" | "1" | "2" | "3" | "4" | "5" | "6" | "7" | "8" | "9" => true
  | _ => false
  end%char.

Fixpoint all_digits (s : string) : bool :=
  match s with
  | EmptyString => true
  | String a s' => is_digit a && all_digits s'
  end.

(** ** Insertion-ordered dictionaries *)

Module PyDict.
Section Dict.
Context {V : Type}.

Definition t := list (string * V).

Definition keys (d : t) : list string := map fst d.

Fixpoint get (d : t) (k : string) : option V :=
  match d with
  | [] => None
  | (k', v) :: d' => if String.eqb k k' then Some v else get d' k
  end.

Definition mem (d : t) (k : string) : bool :=
  match get d k with Some _ => true | None => false end.

(** [d[k] = v]: an existing key keeps its position, a new key goes
    last. *)
Fixpoint set (d : t) (k : string) (v : V) : t :=
  match d with
  | [] => [(k, v)]
  | (k', v') :: d' =>
      if String.eqb k k' then (k', v) :: d' else (k', v') :: set d' k v
  end.

(** What [del d[k]] leaves when [k] is present. *)
Fixpoint remove (d : t) (k : string) : t :=
  match d with
  | [] => []
  | (k', v') :: d' =>
      if String.eqb k k' then d' else (k', v') :: remove d' k
  end.

(** [del d[k]]: raises [KeyError] when [k] is absent. *)
Definition del (d : t) (k : string) : outcome t :=
  if mem d k then Return (remove d k) else Raise (KeyError k).
End Dict.
Arguments t V : clear implicits.
End PyDict.

(** * Connection tracker *)

Module Tracker.

Inductive ConnectionState := NEW | ESTABLISHED | RELATED | INVALID.

Inductive TrafficType := GENERAL | VOIP | GAMING | STREAMING | BANKING.

#[export] Instance TrafficType_eq_dec : EqDecision TrafficType.
Proof. solve_decision. Defined.

#[export] Instance ConnectionState_eq_dec : EqDecision ConnectionState.
Proof. solve_decision. Defined.

Record Connection := mkConnection {
  src_ip : string;
  dst_ip : string;
  src_port : Z;
  dst_port : Z;
  protocol : string;
  state : ConnectionState;
  interface : string;
  mark : Z;
  traffic_type : TrafficType;
  created_at : Q;
  last_seen : Q;
  packets : Z;
  bytes : Z
}.

(** One entry of [traffic_rules]: [rules.get('ports', [])] and
    [rules.get('protocols', [])]. *)
Record Rule := mkRule {
  ports : list Z;
  protocols : list string
}.

Record ConnectionTracker := mkTracker {
  traffic_rules : list (TrafficType * Rule);
  connections : PyDict.t Connection;
  sticky_sessions : gset string
}.

(** The table built by [__init__], in the order of the dict literal. *)
Definition default_traffic_rules : list (TrafficType * Rule) :=
  [ (VOIP, mkRule [5060; 5061; 5062; 16384; 16385; 16386] ["udp"; "tcp"]);
    (GAMING, mkRule [27015; 27016; 27017; 27018; 27019; 27020;
                     80; 443; 8080; 8443] ["udp"; "tcp"]);
    (STREAMING, mkRule [1935; 1936; 8080; 8081; 8082; 8083;
                        554; 8554; 8555] ["tcp"; "udp"]);
    (BANKING, mkRule [443; 8443; 9443] ["tcp"]) ].

(** [__init__], with the rule table left by [_load_rules]. *)
Definition init (rules : list (TrafficType * Rule)) : ConnectionTracker :=
  mkTracker rules [] ∅.

Definition in_ports (p : Z) (l : list Z) : bool := existsb (Z.eqb p) l.
Definition in_protocols (p : string) (l : list string) : bool :=
  existsb (String.eqb p) l.

(** [classify_traffic]: the first rule, in table order, whose protocols
    hold the protocol and whose ports hold one of the two ports. *)
Fixpoint classify_rules (rules : list (TrafficType * Rule))
    (sport dport : Z) (proto : string) : TrafficType :=
  match rules with
  | [] => GENERAL
  | (ty, r) :: rest =>
      if in_protocols proto (protocols r)
         && (in_ports sport (ports r) || in_ports dport (ports r))
      then ty
      else classify_rules rest sport dport proto
  end.

Definition classify_traffic (self : ConnectionTracker)
    (sport dport : Z) (proto : string) : TrafficType :=
  classify_rules (traffic_rules self) sport dport proto.

(** [get_connection_key]. *)
Definition get_connection_key (src dst : string) (sport dport : Z)
    (proto : string) : string :=
  if sport <? dport
  then src +:+ ":" +:+ str sport +:+ "-" +:+ dst +:+ ":" +:+ str dport
           +:+ "-" +:+ proto
  else dst +:+ ":" +:+ str dport +:+ "-" +:+ src +:+ ":" +:+ str sport
           +:+ "-" +:+ proto.

Definition key_of (c : Connection) : string :=
  get_connection_key (src_ip c) (dst_ip c) (src_port c) (dst_port c)
    (protocol c).

Definition with_traffic_type (c : Connection) (ty : TrafficType) :=
  mkConnection (src_ip c) (dst_ip c) (src_port c) (dst_port c) (protocol c)
    (state c) (interface c) (mark c) ty (created_at c) (last_seen c)
    (packets c) (bytes c).

Definition with_times (c : Connection) (created seen : Q) :=
  mkConnection (src_ip c) (dst_ip c) (src_port c) (dst_port c) (protocol c)
    (state c) (interface c) (mark c) (traffic_type c) created seen
    (packets c) (bytes c).

Definition is_sticky_class (ty : TrafficType) : bool :=
  match ty with BANKING | VOIP => true | _ => false end.

(** [track_connection]; [t1] and [t2] are the two clock readings. The
    stored object is the argument itself, so the stored value carries the
    class and the time stamps written after the store. *)
Definition track_connection (self : ConnectionTracker) (c : Connection)
    (t1 t2 : Q) : bool * ConnectionTracker :=
  let conn_key := key_of c in
  let ty := classify_traffic self (src_port c) (dst_port c) (protocol c) in
  let c1 := with_traffic_type c ty in
  let sticky :=
    if is_sticky_class ty then {[conn_key]} ∪ sticky_sessions self
    else sticky_sessions self in
  let conns := PyDict.set (connections self) conn_key (with_times c1 t1 t2) in
  (bool_decide (conn_key ∈ sticky),
   mkTracker (traffic_rules self) conns sticky).

(** [update_connection]; [interface] is [None] or a string, and
    [if interface:] takes a non-empty string only. *)
Definition update_connection (self : ConnectionTracker) (conn_key : string)
    (pkts byts : Z) (iface : option string) (now : Q) : ConnectionTracker :=
  match PyDict.get (connections self) conn_key with
  | None => self
  | Some c =>
      let iface' :=
        match iface with
        | Some i => if String.eqb i "" then interface c else i
        | None => interface c
        end in
      let c' :=
        mkConnection (src_ip c) (dst_ip c) (src_port c) (dst_port c)
          (protocol c) (state c) iface' (mark c) (traffic_type c)
          (created_at c) now (packets c + pkts) (bytes c + byts) in
      mkTracker (traffic_rules self)
        (PyDict.set (connections self) conn_key c') (sticky_sessions self)
  end.

(** [get_sticky_interface]. *)
Definition get_sticky_interface (self : ConnectionTracker)
    (conn_key : string) : option string :=
  match PyDict.get (connections self) conn_key with
  | Some c => Some (interface c)
  | None => None
  end.

(** First loop of [cleanup_connections]: two independent [if]s, so a
    connection that is both too old and INVALID is listed twice. *)
Definition too_old (now : Q) (max_age : Z) (c : Connection) : bool :=
  Qgt_bool (now - last_seen c) (inject_Z max_age).

Definition is_invalid (c : Connection) : bool :=
  bool_decide (state c = INVALID).

Definition expired_of (now : Q) (max_age : Z) (kc : string * Connection)
    : list string :=
  (if too_old now max_age (snd kc) then [fst kc] else [])
  ++ (if is_invalid (snd kc) then [fst kc] else []).

Definition expired_keys (self : ConnectionTracker) (now : Q) (max_age : Z)
    : list string :=
  flat_map (expired_of now max_age) (connections self).

(** Second loop: [del self.connections[k]] then
    [self.sticky_sessions.discard(k)], for each listed key in order. *)
Fixpoint remove_expired (ks : list string) (self : ConnectionTracker)
    : outcome unit * ConnectionTracker :=
  match ks with
  | [] => (Return tt, self)
  | k :: ks' =>
      match PyDict.del (connections self) k with
      | Raise e => (Raise e, self)
      | Return conns =>
          remove_expired ks'
            (mkTracker (traffic_rules self) conns
               (sticky_sessions self ∖ {[k]}))
      end
  end.

Definition cleanup_connections (self : ConnectionTracker) (now : Q)
    (max_age : Z) : outcome unit * ConnectionTracker :=
  remove_expired (expired_keys self now max_age) self.

(** The states of a tracker whose tracked connections satisfy [P]: from
    [__init__], by the three mutating methods. The state an exception
    leaves behind is a state too. *)
Inductive reachable (P : Connection → Prop)
    (rules : list (TrafficType * Rule)) : ConnectionTracker → Prop :=
| reach_init : reachable P rules (init rules)
| reach_track self c t1 t2 :
    reachable P rules self → P c →
    reachable P rules (snd (track_connection self c t1 t2))
| reach_update self k pkts byts iface now :
    reachable P rules self →
    reachable P rules (update_connection self k pkts byts iface now)
| reach_cleanup self now max_age :
    reachable P rules self →
    reachable P rules (snd (cleanup_connections self now max_age)).

(** The sticky keys are keys of the connection table. *)
Definition sticky_tracked (self : ConnectionTracker) : Prop :=
  ∀ k, k ∈ sticky_sessions self → PyDict.mem (connections self) k = true.

(** A connection as the network has it: no hyphen in the two addresses
    (IPv4 or IPv6 text), ports not negative. *)
Definition wf_conn (c : Connection) : Prop :=
  has_char "-" (src_ip c) = false ∧ has_char "-" (dst_ip c) = false
  ∧ 0 <= src_port c ∧ 0 <= dst_port c.

(** One end of a key: [f"{ip}:{port}"]. *)
Definition endpoint (ip : string) (port : Z) : string :=
  ip +:+ ":" +:+ str port.

End Tracker.

(** * Health monitor *)

Module Monitor.

Inductive HealthStatus := HEALTHY | DEGRADED | FAILED | TESTING.

#[export] Instance HealthStatus_eq_dec : EqDecision HealthStatus.
Proof. solve_decision. Defined.

(** [status.value]. *)
Definition status_value (s : HealthStatus) : string :=
  match s with
  | HEALTHY => "healthy"
  | DEGRADED => "degraded"
  | FAILED => "failed"
  | TESTING => "testing"
  end.

(** An entry of [config['interfaces']]. *)
Record IfaceConfig := mkIfaceConfig {
  name : string;
  gateway : string;
  weight : Z
}.

Record Config := mkConfig {
  ping_target : string;
  timeout_seconds : Z;
  retry_count : Z;
  check_interval : Q;
  recovery_interval : Q;
  max_latency_ms : Q;
  max_packet_loss : Q;
  cfg_interfaces : list IfaceConfig
}.

(** The configuration of [__init__] before a file is merged into it. *)
Definition default_config : Config :=
  mkConfig "1.1.1.1" 2 3 5 30 2000 5
    [ mkIfaceConfig "eth0" "192.168.100.1" 2;
      mkIfaceConfig "eth1" "192.168.200.1" 1 ].

(** A value of [self.interfaces]. [last_recovery_check] is absent until
    [_check_recovery] writes it. *)
Record IfaceInfo := mkIfaceInfo {
  config : IfaceConfig;
  enabled : bool;
  last_check : Q;
  consecutive_failures : Z;
  total_checks : Z;
  successful_checks : Z;
  failed_checks : Z;
  last_recovery_check : option Q
}.

Record HealthCheckResult := mkResult {
  interface : string;
  status : HealthStatus;
  latency : Q;
  packet_loss : Q;
  timestamp : Q;
  hr_consecutive_failures : Z;
  last_success : Q;
  error_message : string
}.

(** What [_run_ping_test] returns: [(avg_latency, packet_loss,
    error_message)], the loss in percent. *)
Record Probe := mkProbe {
  probe_latency : Q;
  probe_loss : Q;
  probe_error : string
}.

(** The monitor, with what it has done to the outside: the commands it
    has run, oldest first, and the events it has logged. *)
Record HealthMonitor := mkMonitor {
  cfg : Config;
  interfaces : PyDict.t IfaceInfo;
  health_results : PyDict.t HealthCheckResult;
  commands : list (list string);
  events : list (string * string)
}.

Definition set_enabled (i : IfaceInfo) (b : bool) : IfaceInfo :=
  mkIfaceInfo (config i) b (last_check i) (consecutive_failures i)
    (total_checks i) (successful_checks i) (failed_checks i)
    (last_recovery_check i).

Definition set_last_recovery_check (i : IfaceInfo) (t : Q) : IfaceInfo :=
  mkIfaceInfo (config i) (enabled i) (last_check i) (consecutive_failures i)
    (total_checks i) (successful_checks i) (failed_checks i) (Some t).

Definition set_status (r : HealthCheckResult) (s : HealthStatus)
    : HealthCheckResult :=
  mkResult (interface r) s (latency r) (packet_loss r) (timestamp r)
    (hr_consecutive_failures r) (last_success r) (error_message r).

Definition set_interfaces (self : HealthMonitor) (d : PyDict.t IfaceInfo) :=
  mkMonitor (cfg self) d (health_results self) (commands self) (events self).

Definition set_health_results (self : HealthMonitor)
    (d : PyDict.t HealthCheckResult) :=
  mkMonitor (cfg self) (interfaces self) d (commands self) (events self).

(** [_log_event]: it catches its own errors. *)
Definition _log_event (self : HealthMonitor) (event_type message : string) :=
  mkMonitor (cfg self) (interfaces self) (health_results self)
    (commands self) (events self ++ [(event_type, message)]).

(** [_initialize_health_tracking]. *)
Definition initialize_one (now : Q) (self : HealthMonitor)
    (c : IfaceConfig) : HealthMonitor :=
  mkMonitor (cfg self)
    (PyDict.set (interfaces self) (name c)
       (mkIfaceInfo c true 0 0 0 0 0 None))
    (PyDict.set (health_results self) (name c)
       (mkResult (name c) TESTING 0 0 now 0 now ""))
    (commands self) (events self).

Definition _initialize_health_tracking (self : HealthMonitor) (now : Q) :=
  fold_left (initialize_one now) (cfg_interfaces (cfg self)) self.

(** [__init__], with the configuration left by [_load_config]. *)
Definition init (c : Config) (now : Q) : HealthMonitor :=
  _initialize_health_tracking (mkMonitor c [] [] [] []) now.

(** The three branches of [_check_interface_health], on the counters. *)
Definition verdict (c : Config) (p : Probe) : HealthStatus :=
  if Qge_bool (probe_loss p) 100 then FAILED
  else if Qgt_bool (probe_loss p) (max_packet_loss c)
          || Qgt_bool (probe_latency p) (max_latency_ms c)
  then DEGRADED
  else HEALTHY.

Definition count_check (i : IfaceInfo) (now : Q) : IfaceInfo :=
  mkIfaceInfo (config i) (enabled i) now (consecutive_failures i)
    (total_checks i + 1) (successful_checks i) (failed_checks i)
    (last_recovery_check i).

Definition count_verdict (i : IfaceInfo) (s : HealthStatus) : IfaceInfo :=
  match s with
  | HEALTHY =>
      mkIfaceInfo (config i) (enabled i) (last_check i) 0
        (total_checks i) (successful_checks i + 1) (failed_checks i)
        (last_recovery_check i)
  | _ =>
      mkIfaceInfo (config i) (enabled i) (last_check i)
        (consecutive_failures i + 1)
        (total_checks i) (successful_checks i) (failed_checks i + 1)
        (last_recovery_check i)
  end.

(** [_check_interface_health]; [now] is the clock reading and [p] the
    answer of [_run_ping_test]. The info dict never has a ['last_success']
    key, so [last_success] is the clock reading in both cases. *)
Definition _check_interface_health (self : HealthMonitor)
    (iface : string) (now : Q) (p : Probe)
    : outcome HealthCheckResult * HealthMonitor :=
  match PyDict.get (interfaces self) iface with
  | None => (Raise (KeyError iface), self)
  | Some info =>
      let info1 := count_check info now in
      let st := verdict (cfg self) p in
      let info2 := count_verdict info1 st in
      let error_msg :=
        match st with
        | FAILED => "Complete packet loss"
        | _ => probe_error p
        end in
      let r :=
        mkResult iface st (probe_latency p) (probe_loss p) now
          (consecutive_failures info2) now error_msg in
      (Return r,
       mkMonitor (cfg self)
         (PyDict.set (interfaces self) iface info2)
         (PyDict.set (health_results self) iface r)
         (commands self) (events self))
  end.

(** [_should_trigger_failover]. *)
Definition _should_trigger_failover (self : HealthMonitor) (iface : string)
    : outcome bool :=
  match PyDict.get (health_results self) iface with
  | None => Raise (KeyError iface)
  | Some r =>
      if hr_consecutive_failures r >=? retry_count (cfg self) then Return true
      else if bool_decide (status r = FAILED) then Return true
      else Return false
  end.

(** The list comprehension of [_reconfigure_routing]: [and] does not look
    up the health result of a disabled interface. *)
Fixpoint active_interfaces (items : PyDict.t IfaceInfo)
    (results : PyDict.t HealthCheckResult) : outcome (list string) :=
  match items with
  | [] => Return []
  | (iface, info) :: rest =>
      if enabled info then
        match PyDict.get results iface with
        | None => Raise (KeyError iface)
        | Some r =>
            match active_interfaces rest results with
            | Raise e => Raise e
            | Return l =>
                Return (if bool_decide (status r = HEALTHY)
                        then iface :: l else l)
            end
        end
      else active_interfaces rest results
  end.

(** The words one interface adds to [route_cmd]. *)
Definition nexthop_words (kv : string * IfaceInfo) : list string :=
  ["nexthop"; "via"; gateway (config (snd kv)); "dev"; fst kv;
   "weight"; str (weight (config (snd kv)))].

(** The arguments appended to [route_cmd] by the loop of
    [_update_routing_tables]. *)
Fixpoint nexthop_args (ifs : PyDict.t IfaceInfo) (active : list string)
    : outcome (list string) :=
  match active with
  | [] => Return []
  | iface :: rest =>
      match PyDict.get ifs iface with
      | None => Raise (KeyError iface)
      | Some info =>
          match nexthop_args ifs rest with
          | Raise e => Raise e
          | Return l => Return (nexthop_words (iface, info) ++ l)
          end
      end
  end.

(** [_check_recovery]; [now] is its clock reading, [now'] and [p] are the
    clock reading and the ping answer of the health check it runs. The
    info dict is shared with the health check, so the final
    [enabled = False] is written over the counters the check updated. *)
Definition _check_recovery (self : HealthMonitor) (iface : string)
    (now now' : Q) (p : Probe) : outcome bool * HealthMonitor :=
  match PyDict.get (interfaces self) iface with
  | None => (Raise (KeyError iface), self)
  | Some info =>
      if enabled info then (Return false, self)
      else
        let last :=
          match last_recovery_check info with Some t => t | None => 0%Q end in
        if Qlt_bool (now - last) (recovery_interval (cfg self))
        then (Return false, self)
        else
          let info1 := set_enabled (set_last_recovery_check info now) true in
          let self1 :=
            set_interfaces self (PyDict.set (interfaces self) iface info1) in
          match _check_interface_health self1 iface now' p with
          | (Raise e, self2) => (Raise e, self2)
          | (Return r, self2) =>
              if bool_decide (status r = HEALTHY)
              then (Return true,
                    _log_event self2 "RECOVERY"
                      ("Interface " +:+ iface +:+ " recovered"))
              else
                match PyDict.get (interfaces self2) iface with
                | None => (Raise (KeyError iface), self2)
                | Some info2 =>
                    (Return false,
                     set_interfaces self2
                       (PyDict.set (interfaces self2) iface
                          (set_enabled info2 false)))
                end
          end
  end.

(** [manual_interface_control]. *)
Definition manual_interface_control (self : HealthMonitor)
    (iface action : string) : outcome bool * HealthMonitor :=
  match PyDict.get (interfaces self) iface with
  | None => (Return false, self)
  | Some info =>
      let switch (b : bool) (s : HealthStatus) (ev : string) (what : string) :=
        let self1 :=
          set_interfaces self
            (PyDict.set (interfaces self) iface (set_enabled info b)) in
        match PyDict.get (health_results self1) iface with
        | None => (Raise (KeyError iface), self1)
        | Some r =>
            (Return true,
             _log_event
               (set_health_results self1
                  (PyDict.set (health_results self1) iface (set_status r s)))
               ev ("Interface " +:+ iface +:+ what))
        end in
      if String.eqb action "disable"
      then switch false FAILED "MANUAL_DISABLE" " manually disabled"
      else if String.eqb action "enable"
      then switch true TESTING "MANUAL_ENABLE" " manually enabled"
      else (Return false, self)
  end.

(** Python's [a / b] on two [int]s. *)
Definition truediv (a b : Z) : outcome Q :=
  if b =? 0 then Raise ZeroDivisionError
  else Return (inject_Z a / inject_Z b)%Q.

(** A value of the dict returned by [get_interface_stats] (the formatted
    date of the last check is left out). *)
Record Stats := mkStats {
  st_enabled : bool;
  st_total_checks : Z;
  st_successful_checks : Z;
  st_failed_checks : Z;
  st_consecutive_failures : Z;
  uptime_percentage : Q;
  current_status : string;
  current_latency : Q;
  current_packet_loss : Q
}.

Definition stats_of (info : IfaceInfo) (r : HealthCheckResult)
    : outcome Stats :=
  match truediv (successful_checks info) (Z.max (total_checks info) 1) with
  | Raise e => Raise e
  | Return ratio =>
      Return (mkStats (enabled info) (total_checks info)
                (successful_checks info) (failed_checks info)
                (hr_consecutive_failures r) (ratio * 100)%Q
                (status_value (status r)) (latency r) (packet_loss r))
  end.

Fixpoint stats_loop (items : PyDict.t IfaceInfo)
    (results : PyDict.t HealthCheckResult) (stats : PyDict.t Stats)
    : outcome (PyDict.t Stats) :=
  match items with
  | [] => Return stats
  | (iface, info) :: rest =>
      match PyDict.get results iface with
      | None => Raise (KeyError iface)
      | Some r =>
          match stats_of info r with
          | Raise e => Raise e
          | Return s => stats_loop rest results (PyDict.set stats iface s)
          end
      end
  end.

(** [get_interface_stats]. *)
Definition get_interface_stats (self : HealthMonitor)
    : outcome (PyDict.t Stats) :=
  stats_loop (interfaces self) (health_results self) [].

Definition flush_cmd : list string := ["ip"; "route"; "flush"; "table"; "main"].
Definition add_default : list string := ["ip"; "route"; "add"; "default"].

Section Host.
(** [subprocess.run] on the host: [None] when the call itself raises
    (no such executable), otherwise the return code. *)
Variable host : list string → option Z.

(** A command that ran is recorded. *)
Definition run (self : HealthMonitor) (cmd : list string)
    : option Z * HealthMonitor :=
  match host cmd with
  | None => (None, self)
  | Some rc =>
      (Some rc,
       mkMonitor (cfg self) (interfaces self) (health_results self)
         (commands self ++ [cmd]) (events self))
  end.

(** [_update_routing_tables]: everything is inside [try], so the method
    itself never raises; after an exception nothing more is run. *)
Definition _update_routing_tables (self : HealthMonitor)
    (active : list string) : HealthMonitor :=
  match run self flush_cmd with
  | (None, self1) => self1
  | (Some _, self1) =>
      match active with
      | [] => self1
      | _ =>
          match nexthop_args (interfaces self1) active with
          | Raise _ => self1
          | Return args => snd (run self1 (add_default ++ args))
          end
      end
  end.

(** [_reconfigure_routing]. *)
Definition _reconfigure_routing (self : HealthMonitor)
    : outcome unit * HealthMonitor :=
  match active_interfaces (interfaces self) (health_results self) with
  | Raise e => (Raise e, self)
  | Return active => (Return tt, _update_routing_tables self active)
  end.

(** What the attribute [_reconfigure_routing] of an instance holds when
    [_trigger_failover] calls it. It is the method of the class until a
    caller assigns to it; the watchdog assigns a function that first does
    work of its own outside the monitor and then calls the method of the
    class. [pre] says what that work raises, if anything, when it is called
    in a state of the monitor: the method of the class is the case where
    nothing is raised. *)
Definition bound_reconfigure_routing (pre : HealthMonitor → option exn)
    (self : HealthMonitor) : outcome unit * HealthMonitor :=
  match pre self with
  | Some e => (Raise e, self)
  | None => _reconfigure_routing self
  end.

(** [_trigger_failover]; [reconfigure] is what [self._reconfigure_routing]
    is bound to. *)
Definition _trigger_failover
    (reconfigure : HealthMonitor → outcome unit * HealthMonitor)
    (self : HealthMonitor) (iface : string)
    : outcome unit * HealthMonitor :=
  match PyDict.get (interfaces self) iface with
  | None => (Raise (KeyError iface), self)
  | Some info =>
      let self1 :=
        set_interfaces self
          (PyDict.set (interfaces self) iface (set_enabled info false)) in
      match PyDict.get (health_results self1) iface with
      | None => (Raise (KeyError iface), self1)
      | Some r =>
          let self2 :=
            set_health_results self1
              (PyDict.set (health_results self1) iface
                 (set_status r FAILED)) in
          match reconfigure self2 with
          | (Raise e, self3) => (Raise e, self3)
          | (Return _, self3) =>
              (Return tt,
               _log_event self3 "FAILOVER"
                 ("Interface " +:+ iface +:+ " failed over"))
          end
      end
  end.

(** The body of the [for] loop of [_monitoring_loop], for one
    interface; [now], [now'] and [p] are the clock readings and the ping
    answer it gets, [reconfigure] is what [self._reconfigure_routing] is
    bound to. *)
Definition monitor_interface
    (reconfigure : HealthMonitor → outcome unit * HealthMonitor)
    (self : HealthMonitor) (iface : string)
    (now now' : Q) (p : Probe) : outcome unit * HealthMonitor :=
  match PyDict.get (interfaces self) iface with
  | None => (Raise (KeyError iface), self)
  | Some info =>
      if negb (enabled info) then
        match _check_recovery self iface now now' p with
        | (Raise e, self1) => (Raise e, self1)
        | (Return _, self1) => (Return tt, self1)
        end
      else
        match _check_interface_health self iface now p with
        | (Raise e, self1) => (Raise e, self1)
        | (Return _, self1) =>
            match _should_trigger_failover self1 iface with
            | Raise e => (Raise e, self1)
            | Return true => _trigger_failover reconfigure self1 iface
            | Return false => (Return tt, self1)
            end
        end
  end.

(** One pass of the [for] loop over the interfaces; an exception ends
    the pass (it is caught and logged by the [while] loop).
    [reconfigure iface] is what [self._reconfigure_routing] does when the
    failover of [iface] calls it. *)
Fixpoint monitoring_pass
    (reconfigure : string → HealthMonitor → outcome unit * HealthMonitor)
    (ifaces : list string) (clock clock' : string → Q)
    (ping : string → Probe) (self : HealthMonitor) : HealthMonitor :=
  match ifaces with
  | [] => self
  | iface :: rest =>
      match monitor_interface (reconfigure iface) self iface (clock iface)
              (clock' iface) (ping iface) with
      | (Raise _, self1) => self1
      | (Return _, self1) =>
          monitoring_pass reconfigure rest clock clock' ping self1
      end
  end.
End Host.

(** The states of a monitor: from [__init__], by the methods that change
    it, whatever the host, the clock and the probes answer and whatever
    [_reconfigure_routing] is bound to. The state an exception leaves
    behind is a state too. *)
Inductive reachable : HealthMonitor → Prop :=
| reach_init c now : reachable (init c now)
| reach_check self iface now p :
    reachable self →
    reachable (snd (_check_interface_health self iface now p))
| reach_failover host pre self iface :
    reachable self →
    reachable
      (snd (_trigger_failover (bound_reconfigure_routing host pre) self
              iface))
| reach_reconfigure host self :
    reachable self → reachable (snd (_reconfigure_routing host self))
| reach_recovery self iface now now' p :
    reachable self → reachable (snd (_check_recovery self iface now now' p))
| reach_manual self iface action :
    reachable self →
    reachable (snd (manual_interface_control self iface action)).

(** The nexthops of a default-route command: the groups
    [nexthop via GW dev IF weight W] after [ip route add default]. *)
Fixpoint parse_nexthops (args : list string)
    : list (string * string * string) :=
  match args with
  | _ :: _ :: gw :: _ :: dev :: _ :: w :: rest =>
      (gw, dev, w) :: parse_nexthops rest
  | _ => []
  end.

Definition is_add_default (cmd : list string) : bool :=
  match cmd with
  | a :: b :: c :: d :: _ =>
      String.eqb a "ip" && String.eqb b "route" && String.eqb c "add"
      && String.eqb d "default"
  | _ => false
  end.

Definition nexthops_of (cmd : list string)
    : list (string * string * string) :=
  parse_nexthops (skipn 4 cmd).

(** The commands run by a call: those of the state after it that the
    state before it did not have. *)
Definition issued (before after : HealthMonitor) : list (list string) :=
  skipn (length (commands before)) (commands after).

(** The interfaces that are enabled and healthy, in dictionary order, and
    the nexthop each one stands for. *)
Definition is_healthy (results : PyDict.t HealthCheckResult)
    (iface : string) : bool :=
  match PyDict.get results iface with
  | Some r => bool_decide (status r = HEALTHY)
  | None => false
  end.

Definition healthy_enabled (self : HealthMonitor)
    : list (string * IfaceInfo) :=
  List.filter
    (λ kv, enabled (snd kv) && is_healthy (health_results self) (fst kv))
    (interfaces self).

Definition nexthop_of (kv : string * IfaceInfo) : string * string * string :=
  (gateway (config (snd kv)), fst kv, str (weight (config (snd kv)))).

(** The route follows the health: every default-route command run
    between [before] and [after] lists exactly the interfaces that are
    enabled and healthy in [after], each with its gateway and weight; none
    is run when there is no such interface, and one is when there is and
    the host runs the commands. *)
Definition routes_follow_health (host : list string → option Z)
    (before after : HealthMonitor) : Prop :=
  (∀ cmd, cmd ∈ issued before after → is_add_default cmd = true →
     nexthops_of cmd = map nexthop_of (healthy_enabled after)
     ∧ ∀ gw dev w,
         (gw, dev, w) ∈ nexthops_of cmd
         ↔ ∃ info r,
             PyDict.get (interfaces after) dev = Some info
             ∧ enabled info = true
             ∧ PyDict.get (health_results after) dev = Some r
             ∧ status r = HEALTHY
             ∧ gw = gateway (config info)
             ∧ w = str (weight (config info)))
  ∧ (healthy_enabled after = [] →
     ∀ cmd, cmd ∈ issued before after → is_add_default cmd = false)
  ∧ (healthy_enabled after ≠ [] → (∀ cmd, is_Some (host cmd)) →
     ∃ cmd, issued before after = [flush_cmd; cmd]
            ∧ is_add_default cmd = true).

(** The units of the specification: loss as a fraction of 1. *)
Definition loss_fraction (p : Probe) : Q := probe_loss p / 100.
Definition max_loss (c : Config) : Q := max_packet_loss c / 100.

(** What holds of the two dictionaries in every state. *)
Definition counters_ok (info : IfaceInfo) : Prop :=
  0 <= successful_checks info <= total_checks info.

Definition monitor_inv (self : HealthMonitor) : Prop :=
  NoDup (PyDict.keys (interfaces self))
  ∧ Forall (λ k, PyDict.mem (health_results self) k = true)
      (PyDict.keys (interfaces self))
  ∧ Forall (λ kv, counters_ok (snd kv)) (interfaces self).

(** The failover rule as the specification words it, for one lost sample:
    failover exactly when the failure count has reached [retry_count] or
    the interface was healthy before the sample. *)
Definition failover_rule_as_stated (self : HealthMonitor) (iface : string)
    (now : Q) (p : Probe) : Prop :=
  ∀ before r self1,
    PyDict.get (health_results self) iface = Some before →
    _check_interface_health self iface now p = (Return r, self1) →
    status r = FAILED →
    (_should_trigger_failover self1 iface = Return true
     ↔ retry_count (cfg self) <= hr_consecutive_failures r
       ∨ status before = HEALTHY).

End Monitor.

(** * Interface detector: speed and suggested weight *)

Module Detector.

(** ** The string operations the detector uses (ASCII) *)

(** [str.isspace] on one ASCII character. *)
Definition is_space (c : ascii) : bool :=
  let n := N_of_ascii c in
  ((9 <=? n) && (n <=? 13) || (28 <=? n) && (n <=? 32))%N.

(** The longest run of digits a string starts with. *)
Fixpoint take_digits (s : string) : string :=
  match s with
  | String c s' => if is_digit c then String c (take_digits s') else ""
  | EmptyString => ""
  end.

(** [re.search(r'(\d+)', s)]: the leftmost, longest run of digits. *)
Fixpoint search_digits (s : string) : option string :=
  match s with
  | EmptyString => None
  | String c s' =>
      if is_digit c then Some (String c (take_digits s'))
      else search_digits s'
  end.

(** [int(g)] on a string of digits. *)
Definition int_of_digits (g : string) : Z :=
  match NilEmpty.uint_of_string g with
  | Some d => Z.of_uint d
  | None => 0
  end.

(** [s.split(c)] for a one-character separator. *)
Fixpoint split_char (c : ascii) (s : string) : list string :=
  match s with
  | EmptyString => [""]
  | String a s' =>
      match split_char c s' with
      | [] => [String a ""]
      | w :: ws => if Ascii.eqb a c then "" :: w :: ws else String a w :: ws
      end
  end.

Fixpoint drop (n : nat) (s : string) : string :=
  match n, s with
  | S n', String _ s' => drop n' s'
  | _, _ => s
  end.

(** The text after the first occurrence of [sub], if there is one:
    [sub in s] is [is_Some (after sub s)]. *)
Fixpoint after (sub s : string) : option string :=
  if String.prefix sub s then Some (drop (String.length sub) s)
  else match s with
       | EmptyString => None
       | String _ s' => after sub s'
       end.

(** The text before the first occurrence of [sub], all of it when there
    is none. *)
Fixpoint before (sub s : string) : string :=
  if String.prefix sub s then ""
  else match s with
       | EmptyString => ""
       | String c s' => String c (before sub s')
       end.

Fixpoint lstrip (s : string) : string :=
  match s with
  | String c s' => if is_space c then lstrip s' else s
  | EmptyString => ""
  end.

Fixpoint rstrip (s : string) : string :=
  match s with
  | EmptyString => ""
  | String c s' =>
      match rstrip s' with
      | EmptyString => if is_space c then "" else String c ""
      | r => String c r
      end
  end.

Definition strip (s : string) : string := rstrip (lstrip s).

(** ** The detector *)

(** What running [ethtool] gives: its output, or a failure the code
    catches ([CalledProcessError], [FileNotFoundError]). *)
Inductive Ethtool :=
| EthtoolOut (stdout : string)
| EthtoolError.

(** What reading [/sys/class/net/IFACE/speed] gives: no such file, a
    content that is not a number or an I/O error, or the number read. *)
Inductive Sysfs :=
| SysAbsent
| SysUnreadable
| SysSpeed (speed_mbps : Z).

(** The loop over the lines of the [ethtool] output:
    [line.split('Speed:')[1].strip()] of the first line with ['Speed:']. *)
Fixpoint speed_line (lines : list string) : option string :=
  match lines with
  | [] => None
  | line :: rest =>
      match after "Speed:" line with
      | Some tl => Some (strip (before "Speed:" tl))
      | None => speed_line rest
      end
  end.

(** [_get_interface_speed]: the sysfs file is read only when [ethtool]
    failed. *)
Definition _get_interface_speed (e : Ethtool) (f : Sysfs) : option string :=
  match e with
  | EthtoolOut out => speed_line (split_char "010" out)
  | EthtoolError =>
      match f with
      | SysSpeed speed_mbps =>
          if speed_mbps >? 0 then Some (str speed_mbps +:+ "Mb/s") else None
      | _ => None
      end
  end.

(** [_suggest_weight_based_on_speed]. *)
Definition _suggest_weight_based_on_speed (speed : option string) : Z :=
  match speed with
  | None => 1
  | Some "" => 1
  | Some s =>
      match search_digits s with
      | Some g =>
          let speed_mbps := int_of_digits g in
          if speed_mbps >=? 1000 then 3
          else if speed_mbps >=? 100 then 2
          else 1
      | None => 1
      end
  end.

(** ** The rule of the specification *)

(** A speed with its unit, and the text that states it. *)
Inductive SpeedUnit := Mbps | Gbps.

Definition unit_suffix (u : SpeedUnit) : string :=
  match u with Mbps => "Mb/s" | Gbps => "Gb/s" end.

Definition speed_text (n : Z) (u : SpeedUnit) : string :=
  str n +:+ unit_suffix u.

Definition speed_in_mbps (n : Z) (u : SpeedUnit) : Z :=
  match u with Mbps => n | Gbps => 1000 * n end.

(** The weight the specification gives to a speed: 3 from 1 Gb/s, 2 from
    100 Mb/s, else 1. *)
Definition spec_weight (mbps : Z) : Z :=
  if 1000 <=? mbps then 3 else if 100 <=? mbps then 2 else 1.

Definition starts_with_digit (s : string) : bool :=
  match s with
  | String c _ => is_digit c
  | EmptyString => false
  end.

(** The rule as the specification words it, whatever the unit of the
    text. *)
Definition weight_rule_as_stated : Prop :=
  ∀ n u, 0 <= n →
    _suggest_weight_based_on_speed (Some (speed_text n u))
    = spec_weight (speed_in_mbps n u).

End Detector.

(** * Concrete data used by the examples *)

Module Examples.
Import Tracker.

(** A SIP exchange between two phones that both use port 5060. *)
Definition phone_a : string := "10.0.0.1".
Definition phone_b : string := "10.0.0.2".

(** A connection that is INVALID and will be too old at clean-up. *)
Definition stale_invalid : Connection :=
  mkConnection "192.168.1.100" "93.184.216.34" 52344 9443 "tcp" INVALID
    "eth0" 0 GENERAL 0 0 0 0.

Definition tracker_with_stale : ConnectionTracker :=
  snd (track_connection (init default_traffic_rules) stale_invalid 0 0).

(** The banking flow of scenario 3 of the specification. *)
Definition https_flow : Connection :=
  mkConnection "192.168.1.100" "93.184.216.34" 52344 443 "tcp" NEW
    "eth1" 0 GENERAL 0 0 0 0.

(** A SIP call. *)
Definition sip_flow : Connection :=
  mkConnection "192.168.1.100" "93.184.216.34" 5060 12345 "udp" NEW
    "eth0" 0 GENERAL 0 0 0 0.

(** Two records whose address fields are not addresses: they hold the
    separators of the key. *)
Definition odd_voip : Connection :=
  mkConnection "x:1-y" "z" 5060 7000 "udp" NEW "eth0" 0 GENERAL 0 0 0 0.

Definition odd_general : Connection :=
  mkConnection "x" "y:5060-z" 1 7000 "udp" NEW "eth0" 0 GENERAL 0 0 0 0.

(** A probe that lost every packet, as [_run_ping_test] reports it. *)
Definition lost_probe : Monitor.Probe :=
  Monitor.mkProbe 0 100 "Ping failed: ".

Definition good_probe : Monitor.Probe := Monitor.mkProbe 12 0 "".

(** A host on which every command runs and succeeds. *)
Definition host_ok : list string → option Z := fun _ => Some 0.

Definition fresh_monitor : Monitor.HealthMonitor :=
  Monitor.init Monitor.default_config 0.

(** Scenario 1 of the specification: both uplinks probed and healthy. *)
Definition monitor_both_healthy : Monitor.HealthMonitor :=
  snd (Monitor._check_interface_health
         (snd (Monitor._check_interface_health fresh_monitor "eth0" 5
                 good_probe))
         "eth1" 5 good_probe).

(** An [ethtool] report as the utility prints it, in Mb/s. *)
Definition ethtool_1000m : string :=
  "Settings for eth0:" +:+ String "010" (String "009" "Speed: 1000Mb/s")
  +:+ String "010" (String "009" "Duplex: Full") +:+ String "010" "".

(** An [ethtool] report that states the speed in Gb/s. *)
Definition ethtool_10g : string :=
  "Settings for eth2:" +:+ String "010" (String "009" "Speed: 10Gb/s")
  +:+ String "010" (String "009" "Duplex: Full") +:+ String "010" "".

End Examples.

(** * Connection tracker: statistics, listing and marking *)

Module TrackerViews.
Import Tracker.

(** [traffic_type.value]. *)
Definition type_value (ty : TrafficType) : string :=
  match ty with
  | GENERAL => "general"
  | VOIP => "voip"
  | GAMING => "gaming"
  | STREAMING => "streaming"
  | BANKING => "banking"
  end.

(** [for traffic_type in TrafficType]: the members in the order of the
    class body. *)
Definition all_traffic_types : list TrafficType :=
  [GENERAL; VOIP; GAMING; STREAMING; BANKING].

(** The condition of one rule in [classify_traffic]. *)
Definition rule_matches (r : Rule) (sport dport : Z) (proto : string) : bool :=
  in_protocols proto (protocols r)
  && (in_ports sport (ports r) || in_ports dport (ports r)).

(** [sum(1 for conn in ... if conn.traffic_type == traffic_type)]. *)
Definition count_of_type (self : ConnectionTracker) (ty : TrafficType) : Z :=
  Z.of_nat
    (length
       (List.filter (λ kc, bool_decide (traffic_type (snd kc) = ty))
          (connections self))).

Definition traffic_breakdown (self : ConnectionTracker) : PyDict.t Z :=
  fold_left (λ d ty, PyDict.set d (type_value ty) (count_of_type self ty))
    all_traffic_types [].

(** One step of the second loop of [get_connection_stats]:
    [iface = conn.interface or 'unknown'] and
    [d[iface] = d.get(iface, 0) + 1]. *)
Definition count_interface (d : PyDict.t Z) (kc : string * Connection)
    : PyDict.t Z :=
  let iface :=
    if String.eqb (interface (snd kc)) "" then "unknown"
    else interface (snd kc) in
  PyDict.set d iface
    (match PyDict.get d iface with Some n => n | None => 0 end + 1).

Definition interface_distribution (self : ConnectionTracker) : PyDict.t Z :=
  fold_left count_interface (connections self) [].

Record ConnectionStats := mkStats {
  total_connections : Z;
  sticky_count : Z;
  breakdown : PyDict.t Z;
  distribution : PyDict.t Z
}.

(** [get_connection_stats]. *)
Definition get_connection_stats (self : ConnectionTracker) : ConnectionStats :=
  mkStats (Z.of_nat (length (connections self)))
    (Z.of_nat (size (sticky_sessions self)))
    (traffic_breakdown self) (interface_distribution self).

(** The sum of the values of a dictionary of counts. *)
Definition dict_total (d : PyDict.t Z) : Z := fold_right Z.add 0 (map snd d).

(** [connections.sort(key=lambda x: x.last_seen, reverse=True)]: the sort
    is stable, also with [reverse=True]; insertion from the right, each
    element put before the first one that was not seen later, gives that
    list. *)
Fixpoint insert_desc (c : Connection) (l : list Connection)
    : list Connection :=
  match l with
  | [] => [c]
  | y :: l' =>
      if Qlt_bool (last_seen c) (last_seen y) then y :: insert_desc c l'
      else c :: l
  end.

Definition sort_last_seen_desc (l : list Connection) : list Connection :=
  fold_right insert_desc [] l.

(** [get_active_connections]; a member of [TrafficType] is always true,
    so [if traffic_type:] tests for [None]. *)
Definition get_active_connections (self : ConnectionTracker)
    (ty : option TrafficType) : list Connection :=
  let conns := map snd (connections self) in
  let conns :=
    match ty with
    | Some t => List.filter (λ c, bool_decide (traffic_type c = t)) conns
    | None => conns
    end in
  sort_last_seen_desc conns.

(** The rule text of [apply_connection_mark]. *)
Definition mark_rule (c : Connection) (m : Z) : string :=
  "add rule inet routeros filter ip saddr " +:+ src_ip c +:+ " ip daddr "
  +:+ dst_ip c +:+ " " +:+ protocol c +:+ " sport " +:+ str (src_port c)
  +:+ " dport " +:+ str (dst_port c) +:+ " ct mark set " +:+ str m.

Definition with_mark (c : Connection) (m : Z) : Connection :=
  mkConnection (src_ip c) (dst_ip c) (src_port c) (dst_port c) (protocol c)
    (state c) (interface c) m (traffic_type c) (created_at c) (last_seen c)
    (packets c) (bytes c).

(** [apply_connection_mark]; [nft] is the answer of
    [subprocess.run(['nft', rule], check=True)]: [None] when the call
    itself fails to start (an error the method does not catch), otherwise
    the return code, where a non-zero code is the [CalledProcessError] the
    method catches. The result is [None] when the method raises. *)
Definition apply_connection_mark (nft : list string → option Z)
    (self : ConnectionTracker) (conn_key : string) (m : Z)
    : option bool * ConnectionTracker :=
  match PyDict.get (connections self) conn_key with
  | None => (Some false, self)
  | Some c =>
      match nft ["nft"; mark_rule c m] with
      | None => (None, self)
      | Some rc =>
          if rc =? 0 then
            (Some true,
             mkTracker (traffic_rules self)
               (PyDict.set (connections self) conn_key (with_mark c m))
               (sticky_sessions self))
          else (Some false, self)
      end
  end.

(** The same flow seen from the other end. *)
Definition reversed (c : Connection) : Connection :=
  mkConnection (dst_ip c) (src_ip c) (dst_port c) (src_port c) (protocol c)
    (state c) (interface c) (mark c) (traffic_type c) (created_at c)
    (last_seen c) (packets c) (bytes c).

End TrackerViews.

(** * Health monitor: the probe, repeated samples, system status *)

Module Ping.
Import Monitor.

(** What [subprocess.run] of the ping command gives: a time-out, another
    exception (with its text), or the finished process. *)
Inductive PingRun :=
| PingTimeout
| PingRaised (msg : string)
| PingDone (returncode : Z) (stdout stderr : string).

(** [sub in s]. *)
Definition contains (sub s : string) : bool :=
  match Detector.after sub s with Some _ => true | None => false end.

(** The three error returns of [_run_ping_test]. *)
Definition failed_probe (msg : string) : Probe := mkProbe 0 100 msg.

Section Float.
(** [float(s)]: the number, or the text of the [ValueError]. *)
Variable float : string → Q + string.

(** The loss: [float(part.strip().split('%')[0])] of the first part
    between commas that holds ['packet loss']. *)
Definition parse_loss (stats_line : string) : Q + string :=
  match List.find (contains "packet loss")
          (Detector.split_char "," stats_line) with
  | Some part => float (Detector.before "%" (Detector.strip part))
  | None => inl 0%Q
  end.

(** The latency: in the first line with ['rtt'] and ['avg'], the second
    of the parts between slashes of what follows the first [=];
    [line.split('=')[1]] raises [IndexError] when there is no [=]. *)
Definition parse_latency (lines : list string) : Q + string :=
  match List.find (λ line, contains "rtt" line && contains "avg" line)
          lines with
  | None => inl 0%Q
  | Some line =>
      match Detector.after "=" line with
      | None => inr "list index out of range"
      | Some tl =>
          match Detector.split_char "/"
                  (Detector.strip (Detector.before "=" tl)) with
          | _ :: avg :: _ => float avg
          | _ => inl 0%Q
          end
      end
  end.

(** [_run_ping_test], on the answer of the ping command. *)
Definition _run_ping_test (run : PingRun) : Probe :=
  match run with
  | PingTimeout => failed_probe "Ping timeout"
  | PingRaised msg => failed_probe ("Ping error: " +:+ msg)
  | PingDone returncode stdout stderr =>
      if negb (returncode =? 0)
      then failed_probe ("Ping failed: " +:+ stderr)
      else
        let output_lines :=
          Detector.split_char "010" (Detector.strip stdout) in
        match List.find (contains "packet loss") output_lines with
        | None => failed_probe "Could not parse ping output"
        | Some stats_line =>
            match parse_loss stats_line with
            | inr msg => failed_probe ("Ping error: " +:+ msg)
            | inl packet_loss =>
                match parse_latency output_lines with
                | inr msg => failed_probe ("Ping error: " +:+ msg)
                | inl latency => mkProbe latency packet_loss ""
                end
            end
        end
  end.
End Float.

End Ping.

Module MonitorMore.
Import Monitor.

(** The loop body run for one interface on successive samples, each with
    its clock reading. *)
Fixpoint monitor_repeatedly
    (reconfigure : HealthMonitor → outcome unit * HealthMonitor)
    (self : HealthMonitor) (iface : string) (samples : list (Q * Probe))
    : HealthMonitor :=
  match samples with
  | [] => self
  | (now, p) :: rest =>
      monitor_repeatedly reconfigure
        (snd (monitor_interface reconfigure self iface now now p)) iface rest
  end.

(** What [get_system_status] computes from the monitor (the flag of the
    thread, the process up-time and the copy of the configuration are left
    out). *)
Record SystemStatus := mkSystemStatus {
  healthy_interfaces : Z;
  total_interfaces : Z;
  system_health : string
}.

Definition get_system_status (self : HealthMonitor) : SystemStatus :=
  let healthy :=
    Z.of_nat
      (length
         (List.filter (λ kr, bool_decide (status (snd kr) = HEALTHY))
            (health_results self))) in
  mkSystemStatus healthy (Z.of_nat (length (interfaces self)))
    (if healthy >? 0 then "healthy" else "failed").

(** The two dictionaries have the same keys, in the same order. *)
Definition same_keys (self : HealthMonitor) : Prop :=
  PyDict.keys (health_results self) = PyDict.keys (interfaces self).

End MonitorMore.

(** * More concrete data *)

Module MoreExamples.

(** A probe that answers, too slowly for the default limit of 2000 ms. *)
Definition slow_probe : Monitor.Probe := Monitor.mkProbe 2500 0 "".

End MoreExamples.

(** * Route manager *)

Module Routes.

Inductive InterfaceState := UP | DOWN | TESTING.

#[export] Instance InterfaceState_eq_dec : EqDecision InterfaceState.
Proof. solve_decision. Defined.

Record WANInterface := mkWAN {
  name : string;
  gateway : string;
  weight : Z;
  state : InterfaceState;
  latency : Q;
  packet_loss : Q;
  last_check : Q
}.

(** The manager, with the commands it has run, oldest first. *)
Record RouteManager := mkManager {
  interfaces : PyDict.t WANInterface;
  routing_tables : PyDict.t Z;
  commands : list (list string)
}.

(** The exceptions of [subprocess.run]. *)
Inductive error :=
| CalledProcessError (cmd : list string) (returncode : Z)
| FileNotFoundError (cmd : list string).

Inductive result (A : Type) :=
| Ok (a : A)
| Err (e : error).
Arguments Ok {A} a.
Arguments Err {A} e.

(** The tables of [__init__] and the interfaces [_load_config] falls
    back to. *)
Definition initial_tables : PyDict.t Z :=
  [("wan1", 100); ("wan2", 200); ("wan3", 300)].

Definition default_interfaces : PyDict.t WANInterface :=
  [ ("eth0", mkWAN "eth0" "192.168.100.1" 2 UP 0 0 0);
    ("eth1", mkWAN "eth1" "192.168.200.1" 1 UP 0 0 0) ].

(** An argument of [add_interface]: a dict that may lack a key. *)
Record InterfaceConfig := mkInterfaceConfig {
  cfg_name : option string;
  cfg_gateway : option string;
  cfg_weight : option Z
}.

Definition nexthop_words (iface : WANInterface) : list string :=
  ["nexthop"; "via"; gateway iface; "dev"; name iface;
   "weight"; str (weight iface)].

(** [list(keys).index(k)]; the key is always one of the keys where the
    code calls it. *)
Fixpoint index_of (k : string) (keys : list string) : nat :=
  match keys with
  | [] => 0
  | k' :: rest => if String.eqb k k' then 0%nat else S (index_of k rest)
  end.

Definition table_of (self : RouteManager) (table_name : string) : Z :=
  match PyDict.get (routing_tables self) table_name with
  | Some id => id
  | None => 100
  end.

Section Host.
(** [subprocess.run] on the host: [None] when the call itself raises (no
    such executable), otherwise the return code. *)
Variable host : list string → option Z.

(** [_run_command]: a command that ran is recorded; with [check] a
    non-zero return code raises. *)
Definition _run_command (self : RouteManager) (cmd : list string)
    (check : bool) : result Z * RouteManager :=
  match host cmd with
  | None => (Err (FileNotFoundError cmd), self)
  | Some rc =>
      let self' :=
        mkManager (interfaces self) (routing_tables self)
          (commands self ++ [cmd]) in
      if check && negb (rc =? 0)
      then (Err (CalledProcessError cmd rc), self')
      else (Ok rc, self')
  end.

(** The words of the interfaces that are UP, in dictionary order. *)
Definition route_parts (self : RouteManager) : list string :=
  flat_map
    (λ kv, if bool_decide (state (snd kv) = UP) then nexthop_words (snd kv)
           else [])
    (interfaces self).

(** [_configure_multipath_routing]. *)
Definition _configure_multipath_routing (self : RouteManager)
    : result unit * RouteManager :=
  match _run_command self ["ip"; "route"; "del"; "default"] false with
  | (Err e, self1) => (Err e, self1)
  | (Ok _, self1) =>
      match route_parts self1 with
      | [] => (Ok tt, self1)
      | parts =>
          match _run_command self1 (Monitor.add_default ++ parts) true with
          | (Err e, self2) => (Err e, self2)
          | (Ok _, self2) => (Ok tt, self2)
          end
      end
  end.

(** A run of commands inside [try ... except Exception]: the first that
    raises ends the run. *)
Fixpoint run_all (self : RouteManager) (cmds : list (list string))
    : RouteManager :=
  match cmds with
  | [] => self
  | cmd :: rest =>
      match _run_command self cmd false with
      | (Err _, self1) => self1
      | (Ok _, self1) => run_all self1 rest
      end
  end.

(** [_update_interface_routing]. *)
Definition _update_interface_routing (self : RouteManager)
    (iface : WANInterface) (table_name : string) : RouteManager :=
  let table_id := str (table_of self table_name) in
  run_all self
    [ ["ip"; "route"; "add"; "default"; "via"; gateway iface; "dev";
       name iface; "table"; table_id];
      ["ip"; "rule"; "add"; "from"; "all"; "iif"; name iface; "table";
       table_id] ].

(** [_remove_interface_routing]. *)
Definition _remove_interface_routing (self : RouteManager)
    (iface : WANInterface) (table_name : string) : RouteManager :=
  let table_id := str (table_of self table_name) in
  run_all self
    [ ["ip"; "route"; "flush"; "table"; table_id];
      ["ip"; "rule"; "del"; "from"; "all"; "iif"; name iface; "table";
       table_id];
      ["conntrack"; "-D"; "-i"; name iface] ].

(** The table name [_reconfigure_routing] gives to an interface. *)
Definition wan_table_name (self : RouteManager) (iface_name : string)
    : string :=
  "wan"
  +:+ str (Z.of_nat (index_of iface_name (PyDict.keys (interfaces self))) + 1).

Definition reconfigure_one (self : RouteManager)
    (kv : string * WANInterface) : RouteManager :=
  if bool_decide (state (snd kv) = UP)
  then _update_interface_routing self (snd kv) (wan_table_name self (fst kv))
  else _remove_interface_routing self (snd kv) (wan_table_name self (fst kv)).

(** [_reconfigure_routing]. *)
Definition _reconfigure_routing (self : RouteManager)
    : result unit * RouteManager :=
  match _configure_multipath_routing self with
  | (Err e, self1) => (Err e, self1)
  | (Ok _, self1) =>
      (Ok tt, fold_left reconfigure_one (interfaces self1) self1)
  end.

(** [update_interface_state]; [now] is the clock reading. *)
Definition update_interface_state (self : RouteManager)
    (interface_name : string) (st : InterfaceState) (lat loss now : Q)
    : result unit * RouteManager :=
  match PyDict.get (interfaces self) interface_name with
  | None => (Ok tt, self)
  | Some iface =>
      let iface' :=
        mkWAN (name iface) (gateway iface) (weight iface) st lat loss now in
      let self1 :=
        mkManager (PyDict.set (interfaces self) interface_name iface')
          (routing_tables self) (commands self) in
      if bool_decide (state iface = st) then (Ok tt, self1)
      else _reconfigure_routing self1
  end.

(** [add_interface]: every exception ends in [return False]. *)
Definition add_interface (self : RouteManager) (c : InterfaceConfig)
    : bool * RouteManager :=
  match cfg_name c, cfg_gateway c with
  | Some interface_name, Some gw =>
      if PyDict.mem (interfaces self) interface_name then (false, self)
      else
        let w := match cfg_weight c with Some w => w | None => 1 end in
        let iface := mkWAN interface_name gw w UP 0 0 0 in
        let ifs := PyDict.set (interfaces self) interface_name iface in
        let table_id := 100 + Z.of_nat (length ifs) in
        let self1 :=
          mkManager ifs
            (PyDict.set (routing_tables self) interface_name table_id)
            (commands self) in
        let self2 := _update_interface_routing self1 iface interface_name in
        match _configure_multipath_routing self2 with
        | (Err _, self3) => (false, self3)
        | (Ok _, self3) => (true, self3)
        end
  | _, _ => (false, self)
  end.

(** [manual_interface_control]; the latency and loss take their default
    0.0. *)
Definition manual_interface_control (self : RouteManager)
    (interface_name action : string) (now : Q)
    : result bool * RouteManager :=
  if negb (PyDict.mem (interfaces self) interface_name) then (Ok false, self)
  else if String.eqb action "disable" then
    match update_interface_state self interface_name DOWN 0 0 now with
    | (Err e, self1) => (Err e, self1)
    | (Ok _, self1) => (Ok true, self1)
    end
  else if String.eqb action "enable" then
    match update_interface_state self interface_name UP 0 0 now with
    | (Err e, self1) => (Err e, self1)
    | (Ok _, self1) => (Ok true, self1)
    end
  else (Ok false, self).
End Host.

(** The commands run by a call. *)
Definition issued (before after : RouteManager) : list (list string) :=
  skipn (length (commands before)) (commands after).

(** The interfaces that are UP, and the nexthop each stands for. *)
Definition up_interfaces (self : RouteManager) : list WANInterface :=
  List.filter (λ i, bool_decide (state i = UP)) (map snd (interfaces self)).

Definition nexthop_of (i : WANInterface) : string * string * string :=
  (gateway i, name i, str (weight i)).

End Routes.

Module RouteExamples.

(** A manager's interfaces once a third uplink is there. *)
Definition three_uplinks : PyDict.t Routes.WANInterface :=
  Routes.default_interfaces
  ++ [("eth2", Routes.mkWAN "eth2" "10.0.2.1" 1 Routes.UP 0 0 0)].

(** A host on which every command runs, and adding a default route
    fails with return code 2. *)
Definition failing_add (cmd : list string) : option Z :=
  match cmd with
  | "ip" :: "route" :: "add" :: "default" :: "nexthop" :: _ => Some 2
  | _ => Some 0
  end.

End RouteExamples.

(** * Watchdog: the route manager follows the health monitor *)

Module Watchdog.

(** The state [integrated_reconfigure_routing] gives the route manager
    for a health status. *)
Definition state_of (s : Monitor.HealthStatus) : Routes.InterfaceState :=
  match s with
  | Monitor.HEALTHY => Routes.UP
  | Monitor.FAILED => Routes.DOWN
  | _ => Routes.TESTING
  end.

Section Host.
Variable host : list string → option Z.

(** The loop of [integrated_reconfigure_routing] over the copy of the
    health results; [clock] is the clock reading when an interface is
    updated. An exception of the route manager ends the loop. *)
Fixpoint sync_states (rm : Routes.RouteManager)
    (health_status : PyDict.t Monitor.HealthCheckResult)
    (clock : string → Q) : Routes.result unit * Routes.RouteManager :=
  match health_status with
  | [] => (Routes.Ok tt, rm)
  | (iface, health_result) :: rest =>
      match Routes.update_interface_state host rm iface
              (state_of (Monitor.status health_result))
              (Monitor.latency health_result)
              (Monitor.packet_loss health_result) (clock iface) with
      | (Routes.Err e, rm1) => (Routes.Err e, rm1)
      | (Routes.Ok _, rm1) => sync_states rm1 rest clock
      end
  end.

(** The exceptions of the route manager, as the monitor sees them. *)
Definition exn_of (e : Routes.error) : exn :=
  match e with
  | Routes.CalledProcessError cmd rc => CalledProcessError cmd rc
  | Routes.FileNotFoundError cmd => FileNotFoundError cmd
  end.

(** [integrated_reconfigure_routing]: the states are passed on, then the
    method of the class, kept as [original_reconfigure_routing], runs. *)
Definition integrated_reconfigure_routing (rm : Routes.RouteManager)
    (hm : Monitor.HealthMonitor) (clock : string → Q)
    : outcome unit * Routes.RouteManager * Monitor.HealthMonitor :=
  match sync_states rm (Monitor.health_results hm) clock with
  | (Routes.Err e, rm1) => (Raise (exn_of e), rm1, hm)
  | (Routes.Ok _, rm1) =>
      let '(o, hm1) := Monitor._reconfigure_routing host hm in
      (o, rm1, hm1)
  end.

(** What the loop of the replacement raises, for the monitor that calls
    it. *)
Definition integrated_raises (rm : Routes.RouteManager) (clock : string → Q)
    (hm : Monitor.HealthMonitor) : option exn :=
  match fst (sync_states rm (Monitor.health_results hm) clock) with
  | Routes.Err e => Some (exn_of e)
  | Routes.Ok _ => None
  end.
End Host.

End Watchdog.

(** * Interface detector: gateways, name servers and the primary uplink *)

Module DetectorMore.
Import Detector.

(** A call that returns a value or lets an exception through. *)
Inductive error :=
| IndexError
| KeyError (key : string)
| FileNotFoundError.

Inductive result (A : Type) :=
| Value (a : A)
| Raised (e : error).
Arguments Value {A} a.
Arguments Raised {A} e.

Record NetworkInterface := mkNetworkInterface {
  name : string;
  mac_address : string;
  ip_address : option string;
  gateway : option string;
  dns_servers : list string;
  interface_type : string;
  status : string;
  speed : option string;
  carrier : bool
}.

(** [s.split()]: the words between runs of white space. *)
Fixpoint fields (s : string) : list string :=
  match s with
  | EmptyString => []
  | String c s' =>
      if is_space c then fields s'
      else
        match s' with
        | EmptyString => [String c ""]
        | String c' _ =>
            if is_space c' then String c "" :: fields s'
            else
              match fields s' with
              | w :: ws => String c w :: ws
              | [] => [String c ""]
              end
        end
  end.

(** A word: not empty, and without white space. *)
Fixpoint no_space (s : string) : bool :=
  match s with
  | EmptyString => true
  | String c s' => negb (is_space c) && no_space s'
  end.

Definition is_word (s : string) : bool :=
  match s with
  | EmptyString => false
  | _ => no_space s
  end.

(** The text goes on with a character of a word. *)
Definition starts_word (s : string) : bool :=
  match s with
  | EmptyString => false
  | String c _ => negb (is_space c)
  end.

(** [s.startswith((p1, p2, ...))]. *)
Definition startswith_any (prefixes : list string) (s : string) : bool :=
  existsb (λ p, String.prefix p s) prefixes.

(** What [ip route show dev IFACE] gives: its output, a failure the code
    catches ([CalledProcessError]), or no such executable. *)
Inductive RouteShow :=
| RouteOut (stdout : string)
| RouteFailed
| RouteMissing.

(** [parts[parts.index('via') + 1]] when ['via'] is in [parts] and is
    not its last word. *)
Fixpoint word_after_via (parts : list string) : option string :=
  match parts with
  | [] => None
  | p :: rest =>
      if String.eqb p "via" then head rest else word_after_via rest
  end.

(** The loop of [_get_interface_gateway] over the lines. *)
Fixpoint gateway_in (lines : list string) : option string :=
  match lines with
  | [] => None
  | line :: rest =>
      match after "default" line with
      | Some _ =>
          match word_after_via (fields line) with
          | Some g => Some g
          | None => gateway_in rest
          end
      | None => gateway_in rest
      end
  end.

(** [_get_interface_gateway]. *)
Definition _get_interface_gateway (r : RouteShow)
    : result (option string) :=
  match r with
  | RouteOut stdout => Value (gateway_in (split_char "010" stdout))
  | RouteFailed => Value None
  | RouteMissing => Raised FileNotFoundError
  end.

(** Truth of an optional string in a condition. *)
Definition truthy (o : option string) : bool :=
  match o with
  | Some (String _ _) => true
  | _ => false
  end.

Section Host.
(** [_test_internet_connectivity]: [None] when the ping executable is
    missing, which the method does not catch; a time-out gives [False]. *)
Variable connectivity : string → option bool.
Variable route_show : string → RouteShow.

(** The first loop of [detect_primary_wan]. *)
Fixpoint first_connected (interfaces : list NetworkInterface)
    : result (option NetworkInterface) :=
  match interfaces with
  | [] => Value None
  | i :: rest =>
      if String.eqb (interface_type i) "wan" then
        match connectivity (name i) with
        | None => Raised FileNotFoundError
        | Some true => Value (Some i)
        | Some false => first_connected rest
        end
      else first_connected rest
  end.

(** The second loop. *)
Fixpoint first_with_gateway (interfaces : list NetworkInterface)
    : result (option NetworkInterface) :=
  match interfaces with
  | [] => Value None
  | i :: rest =>
      match _get_interface_gateway (route_show (name i)) with
      | Raised e => Raised e
      | Value g =>
          if truthy g then Value (Some i) else first_with_gateway rest
      end
  end.

(** [detect_primary_wan], on the list [detect_all_interfaces] gave. *)
Definition detect_primary_wan (interfaces : list NetworkInterface)
    : result (option NetworkInterface) :=
  match first_connected interfaces with
  | Raised e => Raised e
  | Value (Some i) => Value (Some i)
  | Value None =>
      match first_with_gateway interfaces with
      | Raised e => Raised e
      | Value (Some i) => Value (Some i)
      | Value None =>
          match List.find
                  (λ i, startswith_any ["eth"; "en"; "ens"] (name i))
                  interfaces with
          | Some i => Value (Some i)
          | None => Value (head interfaces)
          end
      end
  end.
End Host.

Section Dns.
(** [ipaddress.ip_address] accepts the text. *)
Variable is_ip : string → bool.

(** [_is_valid_dns]. *)
Definition _is_valid_dns (dns_server : string) : bool :=
  if is_ip dns_server
  then negb (String.prefix "127." dns_server)
       && negb (String.prefix "169.254." dns_server)
  else false.

(** The loop of [_detect_dns_servers] over the lines of
    [/etc/resolv.conf]. *)
Fixpoint nameservers (lines : list string) (dns_servers : list string)
    : result (list string) :=
  match lines with
  | [] => Value dns_servers
  | line :: rest =>
      if String.prefix "nameserver" line then
        match fields line with
        | _ :: dns :: _ =>
            nameservers rest
              (if _is_valid_dns dns then dns_servers ++ [dns]
               else dns_servers)
        | _ => Raised IndexError
        end
      else nameservers rest dns_servers
  end.

Definition common_dns : list string := ["8.8.8.8"; "1.1.1.1"].

(** [_detect_dns_servers]; [resolv] is [None] when the file is absent or
    cannot be opened. *)
Definition _detect_dns_servers (resolv : option (list string))
    : result (list string) :=
  match resolv with
  | None => Value (firstn 2 common_dns)
  | Some lines =>
      match nameservers lines [] with
      | Raised e => Raised e
      | Value [] => Value (firstn 2 common_dns)
      | Value dns_servers => Value (firstn 2 dns_servers)
      end
  end.
End Dns.

(** [get_available_wan_interfaces]; [current] holds the ['name'] of each
    WAN of the configuration, [None] where an entry has none. *)
Fixpoint current_wans (current : list (option string))
    : result (list string) :=
  match current with
  | [] => Value []
  | None :: _ => Raised (KeyError "name")
  | Some n :: rest =>
      match current_wans rest with
      | Raised e => Raised e
      | Value l => Value (n :: l)
      end
  end.

Definition is_in (s : string) (l : list string) : bool :=
  existsb (String.eqb s) l.

Fixpoint available (wans : list string) (all : list NetworkInterface)
    : list NetworkInterface :=
  match all with
  | [] => []
  | i :: rest =>
      if is_in (name i) wans then available wans rest
      else if is_in (name i) ["lo"; "virbr"; "docker"; "veth"]
      then available wans rest
      else if startswith_any ["eth"; "en"; "ens"; "wlan"] (name i)
      then i :: available wans rest
      else available wans rest
  end.

Definition get_available_wan_interfaces (all : list NetworkInterface)
    (current : list (option string)) : result (list NetworkInterface) :=
  match current_wans current with
  | Raised e => Raised e
  | Value wans => Value (available wans all)
  end.

End DetectorMore.

Module DetectorExamples.
Import DetectorMore.

Definition uplink (n t : string) : NetworkInterface :=
  mkNetworkInterface n "00:00:00:00:00:00" None None [] t "up" None true.

(** A resolver file with a loopback stub and one real server. *)
Definition resolv_conf : list string :=
  [ "# generated" +:+ String "010" "";
    "nameserver 127.0.0.53" +:+ String "010" "";
    "nameserver 9.9.9.9" +:+ String "010" "" ].

(** A stand-in for the address check: dotted digits. *)
Definition dotted (s : string) : bool :=
  match s with
  | EmptyString => false
  | _ =>
      forallb (λ c, is_digit c || Ascii.eqb c ".")
        (list_ascii_of_string s)
  end.

End DetectorExamples.

(** * Properties *)

(** ** Dictionaries *)

Section DictFacts.
Context {V : Type}.
Implicit Types (d : PyDict.t V) (k : string) (v : V).

Lemma dict_get_set_eq d k v : PyDict.get (PyDict.set d k v) k = Some v.
Proof.
  induction d as [|[k' v'] d IH]; simpl.
  - now rewrite String.eqb_refl.
  - destruct (String.eqb k k') eqn:E; simpl; rewrite E; auto.
Qed.

Lemma dict_get_set_ne d k k' v :
  k ≠ k' → PyDict.get (PyDict.set d k v) k' = PyDict.get d k'.
Proof.
  intros Hne. induction d as [|[k0 v0] d IH]; simpl.
  - destruct (String.eqb_spec k' k); congruence.
  - destruct (String.eqb_spec k k0) as [->|]; simpl.
    + destruct (String.eqb_spec k' k0); congruence.
    + now rewrite IH.
Qed.

Lemma dict_mem_set d k k' v :
  PyDict.mem (PyDict.set d k v) k' = String.eqb k k' || PyDict.mem d k'.
Proof.
  unfold PyDict.mem. destruct (String.eqb_spec k k') as [->|Hne].
  - now rewrite dict_get_set_eq.
  - now rewrite dict_get_set_ne.
Qed.

Lemma dict_get_remove_ne d k k' :
  k ≠ k' → PyDict.get (PyDict.remove d k) k' = PyDict.get d k'.
Proof.
  intros Hne. induction d as [|[k0 v0] d IH]; simpl; [done|].
  destruct (String.eqb_spec k k0) as [->|]; simpl.
  - destruct (String.eqb_spec k' k0); congruence.
  - now rewrite IH.
Qed.

Lemma dict_keys_set d k v :
  PyDict.keys (PyDict.set d k v)
  = if PyDict.mem d k then PyDict.keys d else PyDict.keys d ++ [k].
Proof.
  unfold PyDict.mem. induction d as [|[k0 v0] d IH]; simpl; [done|].
  destruct (String.eqb_spec k k0) as [->|]; simpl; [done|].
  rewrite IH. now destruct (PyDict.get d k).
Qed.

Lemma dict_get_elem d k v : PyDict.get d k = Some v → (k, v) ∈ d.
Proof.
  induction d as [|[k0 v0] d IH]; simpl; [done|].
  destruct (String.eqb_spec k k0) as [->|].
  - intros [= ->]. apply elem_of_cons. now left.
  - intros H. apply elem_of_cons. right. auto.
Qed.

Lemma dict_elem_key d k v : (k, v) ∈ d → k ∈ PyDict.keys d.
Proof.
  intros H. apply list_elem_of_In, in_map_iff. exists (k, v).
  split; [done|]. now apply list_elem_of_In.
Qed.

Lemma dict_key_elem d k : k ∈ PyDict.keys d → ∃ v, (k, v) ∈ d.
Proof.
  intros H. apply list_elem_of_In, in_map_iff in H as [[k' v] [Hk H]].
  simpl in Hk. subst k'. exists v. now apply list_elem_of_In.
Qed.

Lemma dict_elem_get d k v :
  NoDup (PyDict.keys d) → (k, v) ∈ d → PyDict.get d k = Some v.
Proof.
  induction d as [|[k0 v0] d IH]; simpl.
  - intros _ H. now apply elem_of_nil in H.
  - intros [Hk0 Hnd]%NoDup_cons [[= -> ->]|Hin]%elem_of_cons.
    + now rewrite String.eqb_refl.
    + destruct (String.eqb_spec k k0) as [->|]; [|auto].
      exfalso. apply Hk0. now apply dict_elem_key in Hin.
Qed.

Lemma dict_mem_key d k : PyDict.mem d k = true ↔ k ∈ PyDict.keys d.
Proof.
  unfold PyDict.mem. induction d as [|[k0 v0] d IH]; simpl.
  - split; [done|]. intros H. now apply elem_of_nil in H.
  - rewrite elem_of_cons. destruct (String.eqb_spec k k0) as [->|].
    + split; auto.
    + rewrite IH. split; [auto|]. intros [?|?]; [done|auto].
Qed.

Lemma dict_set_NoDup d k v :
  NoDup (PyDict.keys d) → NoDup (PyDict.keys (PyDict.set d k v)).
Proof.
  intros Hnd. rewrite dict_keys_set.
  destruct (PyDict.mem d k) eqn:E; [done|].
  apply NoDup_app. split; [done|]. split.
  - intros x Hx [->|[]%elem_of_nil]%elem_of_cons.
    apply dict_mem_key in Hx. congruence.
  - apply NoDup_singleton.
Qed.

Lemma dict_keys_remove d k :
  NoDup (PyDict.keys d) →
  ∀ k', k' ∈ PyDict.keys (PyDict.remove d k)
        ↔ k' ∈ PyDict.keys d ∧ k' ≠ k.
Proof.
  induction d as [|[k0 v0] d IH]; simpl; intros Hnd k'.
  - split; [intros H; now apply elem_of_nil in H|intros [H _]; done].
  - apply NoDup_cons in Hnd as [Hk0 Hnd].
    destruct (String.eqb_spec k k0) as [->|Hne]; simpl.
    + rewrite elem_of_cons. split.
      * intros H. split; [auto|]. intros ->. done.
      * intros [[->|H] Hne]; done.
    + rewrite !elem_of_cons, IH by done. split.
      * intros [->|[H1 H2]]; split; auto.
      * intros [[->|H1] H2]; auto.
Qed.

Lemma dict_remove_NoDup d k :
  NoDup (PyDict.keys d) → NoDup (PyDict.keys (PyDict.remove d k)).
Proof.
  induction d as [|[k0 v0] d IH]; simpl; [done|].
  intros [Hk0 Hnd]%NoDup_cons.
  destruct (String.eqb_spec k k0) as [->|Hne]; simpl; [done|].
  apply NoDup_cons. split; [|auto].
  intros H. apply dict_keys_remove in H as [H _]; done.
Qed.
End DictFacts.

(** ** Connection tracker: sticky sessions and clean-up *)

Section TrackerInvariant.
Import Tracker.

Lemma track_connection_sticky_tracked self c t1 t2 :
  sticky_tracked self → sticky_tracked (snd (track_connection self c t1 t2)).
Proof.
  intros Hinv k. unfold track_connection; simpl.
  rewrite dict_mem_set.
  destruct (String.eqb_spec (key_of c) k) as [|Hne]; [done|]. simpl.
  intros Hk. apply Hinv. revert Hk.
  destruct (is_sticky_class _); [|done].
  rewrite elem_of_union, elem_of_singleton. intros [?|?]; congruence.
Qed.

Lemma update_connection_sticky_tracked self k pkts byts iface now :
  sticky_tracked self →
  sticky_tracked (update_connection self k pkts byts iface now).
Proof.
  intros Hinv k'. unfold update_connection.
  destruct (PyDict.get (connections self) k) eqn:E; [|apply Hinv].
  simpl. rewrite dict_mem_set. intros Hk. rewrite (Hinv _ Hk).
  apply orb_true_r.
Qed.

Lemma remove_expired_sticky_tracked ks : ∀ self,
  sticky_tracked self → sticky_tracked (snd (remove_expired ks self)).
Proof.
  induction ks as [|k ks IH]; intros self Hinv; simpl; [done|].
  unfold PyDict.del. destruct (PyDict.mem (connections self) k) eqn:E;
    [|done].
  apply IH. intros k'. simpl. intros [Hk' Hne]%elem_of_difference.
  unfold PyDict.mem. rewrite dict_get_remove_ne by set_solver.
  now apply Hinv.
Qed.

(** C9. The sticky keys are keys of the connection table in every state
    of the tracker: after [__init__], and after every call of
    [track_connection], [update_connection] and [cleanup_connections],
    the state left by a [cleanup_connections] that raised included. *)
Theorem sticky_sessions_are_tracked P rules self :
  reachable P rules self → sticky_tracked self.
Proof.
  induction 1 as [|self c t1 t2 _ IH _|self k pkts byts iface now _ IH
                  |self now max_age _ IH].
  - intros k. simpl. rewrite elem_of_empty. tauto.
  - now apply track_connection_sticky_tracked.
  - now apply update_connection_sticky_tracked.
  - now apply remove_expired_sticky_tracked.
Qed.

Lemma sticky_sessions_are_tracked_witness :
  sticky_tracked
    (snd (cleanup_connections Examples.tracker_with_stale 4000 3600)).
Proof.
  apply (sticky_sessions_are_tracked (λ _, True) default_traffic_rules).
  apply reach_cleanup. apply reach_track; [apply reach_init | exact I].
Defined.

(** C8 fails on the code. A connection that is both older than [max_age]
    and INVALID is listed twice by the first loop; the second
    [del self.connections[k]] raises [KeyError]. *)
Theorem cleanup_connections_raises_on_stale_invalid :
  expired_keys Examples.tracker_with_stale 4000 3600
  = [ "93.184.216.34:9443-192.168.1.100:52344-tcp";
      "93.184.216.34:9443-192.168.1.100:52344-tcp" ]
  ∧ fst (cleanup_connections Examples.tracker_with_stale 4000 3600)
    = Raise (KeyError "93.184.216.34:9443-192.168.1.100:52344-tcp").
Proof. split; vm_compute; reflexivity. Qed.

(** C4 fails on the code when the two ports are equal: the test
    [src_port < dst_port] is false in both directions, so each direction
    puts its own destination first. *)
Theorem connection_key_differs_on_equal_ports :
  get_connection_key Examples.phone_a Examples.phone_b 5060 5060 "udp"
  = "10.0.0.2:5060-10.0.0.1:5060-udp"
  ∧ get_connection_key Examples.phone_b Examples.phone_a 5060 5060 "udp"
    = "10.0.0.1:5060-10.0.0.2:5060-udp"
  ∧ get_connection_key Examples.phone_a Examples.phone_b 5060 5060 "udp"
    ≠ get_connection_key Examples.phone_b Examples.phone_a 5060 5060 "udp".
Proof. repeat split; try (vm_compute; reflexivity). vm_compute. discriminate. Qed.

(** The two directions do share a key when the ports differ. *)
Lemma connection_key_symmetric src dst sport dport proto :
  sport ≠ dport →
  get_connection_key src dst sport dport proto
  = get_connection_key dst src dport sport proto.
Proof.
  intros Hne. unfold get_connection_key.
  destruct (Z.ltb_spec sport dport), (Z.ltb_spec dport sport);
    (reflexivity || lia).
Qed.

(** C5 fails on the code: the rules are tried in the order of the table,
    and GAMING, which lists port 443 too, comes before BANKING. *)
Theorem https_flow_is_classified_gaming :
  classify_traffic (init default_traffic_rules) 52344 443 "tcp" = GAMING
  ∧ ∀ sport,
      classify_traffic (init default_traffic_rules) sport 443 "tcp"
      ≠ BANKING.
Proof.
  split; [reflexivity|]. intros sport. unfold classify_traffic. simpl.
  rewrite !orb_true_r.
  match goal with |- (if ?b then _ else _) ≠ _ => destruct b end;
    discriminate.
Qed.

Lemma list_filter_twice {A} (P Q : A → bool) l :
  List.filter P (List.filter Q l) = List.filter (λ x, Q x && P x) l.
Proof.
  induction l as [|x l IH]; simpl; [done|].
  destruct (Q x); simpl; [|done]. destruct (P x); now rewrite IH.
Qed.

Lemma dict_remove_filter (d : PyDict.t Connection) k :
  NoDup (PyDict.keys d) →
  PyDict.remove d k = List.filter (λ kc, negb (String.eqb k (fst kc))) d.
Proof.
  induction d as [|[k0 c0] d IH]; simpl; [done|].
  intros [Hk0 Hnd]%NoDup_cons.
  destruct (String.eqb_spec k k0) as [->|Hne]; simpl; [|now rewrite IH].
  symmetry. apply forallb_filter_id, forallb_forall. intros [k1 c1] Hin.
  simpl. destruct (String.eqb_spec k0 k1) as [->|]; [|done].
  exfalso. apply Hk0. eapply dict_elem_key. apply list_elem_of_In, Hin.
Qed.

Lemma remove_expired_distinct ks : ∀ self,
  NoDup ks → NoDup (PyDict.keys (connections self)) →
  (∀ k, k ∈ ks → PyDict.mem (connections self) k = true) →
  fst (remove_expired ks self) = Return tt
  ∧ connections (snd (remove_expired ks self))
    = List.filter (λ kc, negb (existsb (String.eqb (fst kc)) ks))
        (connections self)
  ∧ sticky_sessions (snd (remove_expired ks self))
    = sticky_sessions self ∖ list_to_set ks.
Proof.
  induction ks as [|k ks IH]; intros self Hks Hnd Hmem; simpl.
  - split; [done|]. split; [|set_solver].
    symmetry. now apply forallb_filter_id, forallb_forall.
  - apply NoDup_cons in Hks as [Hk Hks]. unfold PyDict.del.
    rewrite (Hmem k) by (apply elem_of_cons; now left).
    destruct (IH (mkTracker (traffic_rules self)
                    (PyDict.remove (connections self) k)
                    (sticky_sessions self ∖ {[k]}))) as (E1 & E2 & E3);
      simpl; [done|now apply dict_remove_NoDup| |].
    + intros k' Hk'. unfold PyDict.mem.
      rewrite dict_get_remove_ne by (intros ->; done).
      apply Hmem, elem_of_cons. now right.
    + simpl in E2, E3. split; [done|]. split; [|rewrite E3; set_solver].
      rewrite E2, (dict_remove_filter _ _ Hnd), list_filter_twice.
      apply filter_ext. intros [k1 c1]. simpl.
      now rewrite (String.eqb_sym k1 k), negb_orb.
Qed.

Lemma expired_keys_distinct now max_age (d : PyDict.t Connection) :
  NoDup (PyDict.keys d) →
  Forall (λ kc, too_old now max_age (snd kc) && is_invalid (snd kc) = false)
    d →
  NoDup (flat_map (expired_of now max_age) d)
  ∧ (∀ k, k ∈ flat_map (expired_of now max_age) d → k ∈ PyDict.keys d)
  ∧ Forall (λ kc, existsb (String.eqb (fst kc))
                    (flat_map (expired_of now max_age) d)
                  = too_old now max_age (snd kc) || is_invalid (snd kc)) d.
Proof.
  induction d as [|[k c] d IH]; simpl.
  - intros _ _. repeat split; [constructor| |constructor].
    intros k H. now apply elem_of_nil in H.
  - intros [Hk Hnd]%NoDup_cons [Hc Hd]%Forall_cons. simpl in Hc.
    destruct (IH Hnd Hd) as (IH1 & IH2 & IH3).
    assert (Hnot : existsb (String.eqb k)
                     (flat_map (expired_of now max_age) d) = false).
    { apply not_true_iff_false. intros (k' & Hin & <-%String.eqb_eq)%existsb_exists.
      apply Hk, IH2, list_elem_of_In, Hin. }
    assert (Hhead : ∀ k', k' ∈ expired_of now max_age (k, c) → k' = k).
    { intros k'. unfold expired_of. simpl.
      destruct (too_old now max_age c), (is_invalid c); simpl;
        rewrite ?elem_of_cons, ?elem_of_nil; tauto. }
    split; [|split].
    + apply NoDup_app. split; [|split; [|done]].
      * unfold expired_of. simpl.
        destruct (too_old now max_age c), (is_invalid c); simpl;
          try done; try apply NoDup_singleton; constructor.
      * intros k' ->%Hhead Hin. apply Hk, IH2, Hin.
    + intros k' [->%Hhead|Hin]%elem_of_app; apply elem_of_cons; auto.
    + constructor.
      * simpl. rewrite existsb_app, Hnot, orb_false_r.
        unfold expired_of. simpl.
        destruct (too_old now max_age c), (is_invalid c); simpl;
          rewrite ?String.eqb_refl; done.
      * rewrite Forall_forall in IH3. apply Forall_forall.
        intros [k1 c1] Hin. pose proof (IH3 _ Hin) as Hk1. simpl in *.
        rewrite existsb_app, Hk1.
        replace (existsb (String.eqb k1) (expired_of now max_age (k, c)))
          with false; [done|].
        symmetry. apply not_true_iff_false.
        intros (k' & Hin' & <-%String.eqb_eq)%existsb_exists.
        apply list_elem_of_In, Hhead in Hin'. subst k1.
        apply Hk. eapply dict_elem_key, Hin.
Qed.

(** When no connection is both too old and INVALID, the clean-up does
    what its name says: it returns and keeps exactly the connections that are
    neither too old nor INVALID, in their order, and drops the keys it
    removed from the sticky set. *)
Lemma cleanup_connections_distinct self now max_age :
  NoDup (PyDict.keys (connections self)) →
  Forall (λ kc, too_old now max_age (snd kc) && is_invalid (snd kc) = false)
    (connections self) →
  fst (cleanup_connections self now max_age) = Return tt
  ∧ connections (snd (cleanup_connections self now max_age))
    = List.filter
        (λ kc, negb (too_old now max_age (snd kc) || is_invalid (snd kc)))
        (connections self)
  ∧ sticky_sessions (snd (cleanup_connections self now max_age))
    = sticky_sessions self ∖ list_to_set (expired_keys self now max_age).
Proof.
  intros Hnd Hone. unfold cleanup_connections, expired_keys.
  destruct (expired_keys_distinct now max_age _ Hnd Hone) as (H1 & H2 & H3).
  destruct (remove_expired_distinct _ self H1 Hnd) as (E1 & E2 & E3).
  { intros k Hk. apply dict_mem_key, H2, Hk. }
  split; [done|]. split; [|done]. rewrite E2.
  apply filter_ext_in. intros kc Hin. rewrite Forall_forall in H3.
  now rewrite (H3 kc) by apply list_elem_of_In, Hin.
Qed.

End TrackerInvariant.

(** ** Strings: where a key can be cut *)

Section StringFacts.

Lemma append_nil (b : string) : "" +:+ b = b.
Proof. reflexivity. Qed.

Lemma append_cons x (a b : string) : String x a +:+ b = String x (a +:+ b).
Proof. reflexivity. Qed.

Lemma append_assoc (a b c : string) : (a +:+ b) +:+ c = a +:+ (b +:+ c).
Proof.
  induction a as [|x a IH]; rewrite ?append_nil, ?append_cons; [done|].
  now f_equal.
Qed.

Lemma has_char_append c a b :
  has_char c (a +:+ b) = has_char c a || has_char c b.
Proof.
  induction a as [|x a IH]; rewrite ?append_nil, ?append_cons; simpl; [done|].
  now rewrite IH, orb_assoc.
Qed.

Lemma has_char_here c r x : has_char c (x +:+ String c r) = true.
Proof.
  rewrite has_char_append. simpl. rewrite Ascii.eqb_refl. apply orb_true_r.
Qed.

(** Two texts cut at their first [c] have the same two parts. *)
Lemma split_at_first c x1 r1 : ∀ x2 r2,
  has_char c x1 = false → has_char c x2 = false →
  x1 +:+ String c r1 = x2 +:+ String c r2 → x1 = x2 ∧ r1 = r2.
Proof.
  induction x1 as [|a x1 IH]; intros [|b x2] r2;
    rewrite ?append_nil, ?append_cons; simpl.
  - now intros _ _ [= ->].
  - intros _ [Hb _]%orb_false_elim [= <- _]. now rewrite Ascii.eqb_refl in Hb.
  - intros [Ha _]%orb_false_elim _ [= -> _]. now rewrite Ascii.eqb_refl in Ha.
  - intros [_ H1]%orb_false_elim [_ H2]%orb_false_elim [= -> E].
    destruct (IH _ _ H1 H2 E) as [-> ->]. done.
Qed.

(** Two texts cut at their last [c] have the same two parts. *)
Lemma split_at_last c x1 r1 : ∀ x2 r2,
  has_char c r1 = false → has_char c r2 = false →
  x1 +:+ String c r1 = x2 +:+ String c r2 → x1 = x2 ∧ r1 = r2.
Proof.
  induction x1 as [|a x1 IH]; intros [|b x2] r2;
    rewrite ?append_nil, ?append_cons.
  - now intros _ _ [= ->].
  - intros H1 _ [= <- ->]. now rewrite has_char_here in H1.
  - intros _ H2 [= -> <-]. now rewrite has_char_here in H2.
  - intros H1 H2 [= -> E]. destruct (IH _ _ H1 H2 E) as [-> ->]. done.
Qed.

Lemma all_digits_has_char c s :
  is_digit c = false → all_digits s = true → has_char c s = false.
Proof.
  intros Hc. induction s as [|a s IH]; simpl; [done|].
  intros [Ha Hs]%andb_prop. rewrite (IH Hs), orb_false_r.
  destruct (Ascii.eqb_spec a c) as [->|]; congruence.
Qed.

Lemma all_digits_uint d : all_digits (NilEmpty.string_of_uint d) = true.
Proof. induction d; simpl; auto. Qed.

Lemma all_digits_str n : 0 <= n → all_digits (str n) = true.
Proof.
  intros Hn. unfold str. destruct n as [|p|p]; [done| |lia].
  simpl. unfold NilZero.string_of_uint.
  destruct (Pos.to_uint p) eqn:E; try (rewrite <- E; apply all_digits_uint).
  done.
Qed.

Lemma str_inj n m : str n = str m → n = m.
Proof.
  unfold str. intros E. apply DecimalZ.to_int_inj.
  assert (Hnn : ∀ z, Z.to_int z ≠ Decimal.Pos Decimal.Nil
                     ∧ Z.to_int z ≠ Decimal.Neg Decimal.Nil).
  { intros [|p|p]; simpl; split; try discriminate;
      intros [= H]; now apply (DecimalPos.Unsigned.to_uint_nonnil p). }
  apply (f_equal NilZero.int_of_string) in E.
  rewrite !NilZero.isi in E by apply Hnn. congruence.
Qed.

End StringFacts.

(** ** Connection tracker: which flows are sticky *)

Section StickyClasses.
Import Tracker.

Lemma key_shape src dst sport dport proto :
  get_connection_key src dst sport dport proto
  = if sport <? dport
    then endpoint src sport
           +:+ String "-" (endpoint dst dport +:+ String "-" proto)
    else endpoint dst dport
           +:+ String "-" (endpoint src sport +:+ String "-" proto).
Proof.
  unfold get_connection_key, endpoint.
  destruct (sport <? dport); rewrite !append_assoc; reflexivity.
Qed.

Lemma endpoint_inj a p b q :
  0 <= p → 0 <= q → endpoint a p = endpoint b q → a = b ∧ p = q.
Proof.
  intros Hp Hq E. unfold endpoint in E.
  change (":" +:+ str p) with (String ":" (str p)) in E.
  change (":" +:+ str q) with (String ":" (str q)) in E.
  apply split_at_last in E as [-> E];
    try (apply all_digits_has_char; [reflexivity|now apply all_digits_str]).
  split; [done|]. now apply str_inj.
Qed.

Lemma endpoint_no_hyphen a p :
  has_char "-" a = false → 0 <= p → has_char "-" (endpoint a p) = false.
Proof.
  intros Ha Hp. unfold endpoint. rewrite !has_char_append, Ha. simpl.
  apply all_digits_has_char; [reflexivity|now apply all_digits_str].
Qed.

(** A key is read back in one way only. *)
Lemma two_ends_inj a1 p1 b1 q1 pr1 a2 p2 b2 q2 pr2 :
  has_char "-" a1 = false → has_char "-" b1 = false →
  has_char "-" a2 = false → has_char "-" b2 = false →
  0 <= p1 → 0 <= q1 → 0 <= p2 → 0 <= q2 →
  endpoint a1 p1 +:+ String "-" (endpoint b1 q1 +:+ String "-" pr1)
  = endpoint a2 p2 +:+ String "-" (endpoint b2 q2 +:+ String "-" pr2) →
  a1 = a2 ∧ p1 = p2 ∧ b1 = b2 ∧ q1 = q2 ∧ pr1 = pr2.
Proof.
  intros Ha1 Hb1 Ha2 Hb2 Hp1 Hq1 Hp2 Hq2 E.
  apply split_at_first in E as [E1 E]; try now apply endpoint_no_hyphen.
  apply split_at_first in E as [E2 E]; try now apply endpoint_no_hyphen.
  apply endpoint_inj in E1 as [-> ->]; try done.
  apply endpoint_inj in E2 as [-> ->]; done.
Qed.

Lemma classify_rules_sym rules sport dport proto :
  classify_rules rules sport dport proto
  = classify_rules rules dport sport proto.
Proof.
  induction rules as [|[ty r] rules IH]; simpl; [done|].
  now rewrite IH, (orb_comm (in_ports sport _)).
Qed.

(** Two well-formed connections with one key have one class. *)
Lemma key_of_class rules c1 c2 :
  wf_conn c1 → wf_conn c2 → key_of c1 = key_of c2 →
  classify_rules rules (src_port c1) (dst_port c1) (protocol c1)
  = classify_rules rules (src_port c2) (dst_port c2) (protocol c2).
Proof.
  intros (Hs1 & Hd1 & Hp1 & Hq1) (Hs2 & Hd2 & Hp2 & Hq2).
  unfold key_of. rewrite !key_shape.
  destruct (src_port c1 <? dst_port c1), (src_port c2 <? dst_port c2);
    intros E; apply two_ends_inj in E as (_ & E1 & _ & E2 & E3);
    try done; rewrite ?E1, ?E2, ?E3.
  - done.
  - rewrite <- E1, <- E2. apply classify_rules_sym.
  - rewrite <- E1, <- E2. apply classify_rules_sym.
  - rewrite <- E1, <- E2. done.
Qed.

Lemma remove_expired_shrinks ks : ∀ self,
  traffic_rules (snd (remove_expired ks self)) = traffic_rules self
  ∧ sticky_sessions (snd (remove_expired ks self)) ⊆ sticky_sessions self.
Proof.
  induction ks as [|k ks IH]; intros self; simpl; [done|].
  destruct (PyDict.del (connections self) k); [|done].
  destruct (IH (mkTracker (traffic_rules self) a
                  (sticky_sessions self ∖ {[k]}))) as [E1 E2].
  simpl in *. split; [done|]. set_solver.
Qed.

(** Every sticky key was put there for a well-formed connection of a
    sticky class. *)
Lemma reachable_sticky_justified rules self :
  reachable wf_conn rules self →
  traffic_rules self = rules
  ∧ ∀ k, k ∈ sticky_sessions self →
      ∃ c, wf_conn c ∧ key_of c = k
           ∧ is_sticky_class
               (classify_rules rules (src_port c) (dst_port c) (protocol c))
             = true.
Proof.
  induction 1 as [|self c t1 t2 _ [IHr IH] Hc
                  |self k pkts byts iface now _ [IHr IH]
                  |self now max_age _ [IHr IH]].
  - split; [done|]. intros k. simpl. rewrite elem_of_empty. tauto.
  - split; [done|]. intros k. simpl. unfold classify_traffic. rewrite IHr.
    destruct (is_sticky_class _) eqn:E; [|apply IH].
    rewrite elem_of_union, elem_of_singleton. intros [->|Hk]; [|auto].
    exists c. done.
  - unfold update_connection.
    destruct (PyDict.get (connections self) k); simpl; auto.
  - unfold cleanup_connections.
    destruct (remove_expired_shrinks (expired_keys self now max_age) self)
      as [E1 E2].
    split; [congruence|]. intros k Hk. apply IH. set_solver.
Qed.

(** C6. In every state of a tracker fed with well-formed connections,
    [track_connection] returns [True] exactly when the class of the
    connection is BANKING or VOIP, and the key is in the sticky set after
    the call exactly in that case. The call adds that key and nothing
    else to the sticky set, and takes nothing out of it: the set after the
    call is the set before it, with the key added when the class is
    BANKING or VOIP. The connection is stored under its key with its class
    in both cases, and no other entry and no rule is changed. *)
Theorem track_connection_sticky_iff rules self c t1 t2 :
  reachable wf_conn rules self → wf_conn c →
  let ty := classify_traffic self (src_port c) (dst_port c) (protocol c) in
  let r := track_connection self c t1 t2 in
  (fst r = true ↔ ty = BANKING ∨ ty = VOIP)
  ∧ (key_of c ∈ sticky_sessions (snd r) ↔ ty = BANKING ∨ ty = VOIP)
  ∧ PyDict.get (connections (snd r)) (key_of c)
    = Some (with_times (with_traffic_type c ty) t1 t2)
  ∧ (∀ k, k ∈ sticky_sessions (snd r)
          ↔ k ∈ sticky_sessions self
            ∨ (k = key_of c ∧ (ty = BANKING ∨ ty = VOIP)))
  ∧ (ty = BANKING ∨ ty = VOIP →
     sticky_sessions (snd r) = {[key_of c]} ∪ sticky_sessions self)
  ∧ (¬ (ty = BANKING ∨ ty = VOIP) →
     sticky_sessions (snd r) = sticky_sessions self)
  ∧ (∀ k, k ≠ key_of c →
       PyDict.get (connections (snd r)) k = PyDict.get (connections self) k)
  ∧ traffic_rules (snd r) = traffic_rules self.
Proof.
  intros Hreach Hc ty r.
  destruct (reachable_sticky_justified _ _ Hreach) as [Hrules Hjust].
  assert (Hclass : is_sticky_class ty = true ↔ ty = BANKING ∨ ty = VOIP).
  { destruct ty; simpl; split; auto; try done; intros [H|H]; done. }
  assert (Hsticky : key_of c ∈ sticky_sessions (snd r)
                    ↔ ty = BANKING ∨ ty = VOIP).
  { subst r. unfold track_connection. simpl. fold ty.
    destruct (is_sticky_class ty) eqn:E.
    - split; [|set_solver]. intros _. destruct ty; simpl in E; auto; done.
    - split.
      + intros Hk. destruct (Hjust _ Hk) as (c' & Hc' & Hkey & Hcls).
        rewrite (key_of_class rules c' c Hc' Hc Hkey) in Hcls.
        subst ty. unfold classify_traffic in E. rewrite Hrules in E.
        congruence.
      + intros [H|H]; rewrite H in E; done. }
  split; [|split; [done|split; [|split; [|split; [|split; [|split]]]]]].
  - rewrite <- Hsticky. subst r. unfold track_connection. simpl.
    apply bool_decide_eq_true.
  - subst r. unfold track_connection. simpl. apply dict_get_set_eq.
  - intros k. subst r. unfold track_connection. simpl. fold ty.
    rewrite <- Hclass. destruct (is_sticky_class ty); [set_solver|].
    split; [auto|]. intros [H|[_ H]]; done.
  - intros Hty%Hclass. subst r. unfold track_connection. simpl. fold ty.
    now rewrite Hty.
  - intros Hty. subst r. unfold track_connection. simpl. fold ty.
    destruct (is_sticky_class ty) eqn:E; [|done].
    exfalso. apply Hty, Hclass. done.
  - intros k Hk. subst r. unfold track_connection. simpl.
    now apply dict_get_set_ne.
  - done.
Qed.

Lemma track_connection_sticky_iff_witness :
  sticky_sessions
    (snd (track_connection
            (snd (track_connection (init default_traffic_rules)
                    Examples.sip_flow 1 1))
            Examples.https_flow 2 2))
  = sticky_sessions
      (snd (track_connection (init default_traffic_rules) Examples.sip_flow
              1 1)).
Proof.
  refine (proj1 (proj2 (proj2 (proj2 (proj2 (proj2
            (track_connection_sticky_iff default_traffic_rules
               (snd (track_connection (init default_traffic_rules)
                       Examples.sip_flow 1 1))
               Examples.https_flow 2 2 _ _)))))) _).
  - apply reach_track; [apply reach_init|].
    unfold wf_conn. simpl. repeat split; (reflexivity || lia).
  - unfold wf_conn. simpl. repeat split; (reflexivity || lia).
  - intros [H|H]; vm_compute in H; discriminate H.
Defined.

(** The hypothesis on the addresses is needed: record fields that hold
    the separators of the key can give two records of different classes
    one key, and the second then inherits the sticky mark of the first. *)
Example sticky_needs_wellformed_addresses :
  key_of Examples.odd_voip = key_of Examples.odd_general
  ∧ classify_traffic (init default_traffic_rules) 1 7000 "udp" = GENERAL
  ∧ fst (track_connection
           (snd (track_connection (init default_traffic_rules)
                   Examples.odd_voip 0 0))
           Examples.odd_general 0 0) = true.
Proof. repeat split; vm_compute; reflexivity. Qed.

End StickyClasses.

(** ** Health monitor: what every state satisfies *)

Section MonitorInvariant.
Import Monitor.

Lemma dict_set_keys_present {V} (d : PyDict.t V) k v0 v :
  PyDict.get d k = Some v0 → PyDict.keys (PyDict.set d k v) = PyDict.keys d.
Proof.
  intros E. rewrite dict_keys_set. unfold PyDict.mem. now rewrite E.
Qed.

Lemma dict_set_Forall {V} (Q : V → Prop) (d : PyDict.t V) k v :
  Forall (λ kv, Q (snd kv)) d → Q v →
  Forall (λ kv, Q (snd kv)) (PyDict.set d k v).
Proof.
  intros Hd Hv. induction d as [|[k0 v0] d IH]; simpl.
  - now constructor.
  - apply Forall_cons in Hd as [H0 Hd].
    destruct (String.eqb k k0); constructor; auto.
Qed.

Lemma dict_get_Forall {V} (Q : V → Prop) (d : PyDict.t V) k v :
  Forall (λ kv, Q (snd kv)) d → PyDict.get d k = Some v → Q v.
Proof.
  intros Hd E. apply dict_get_elem in E.
  rewrite Forall_forall in Hd. apply (Hd _ E).
Qed.

Lemma dict_mem_set_mono {V} (d : PyDict.t V) k k' v :
  PyDict.mem d k' = true → PyDict.mem (PyDict.set d k v) k' = true.
Proof. intros H. rewrite dict_mem_set, H. apply orb_true_r. Qed.

(** A state whose interface keys are those of a good state, whose
    counters are in order and whose results only grew, is good. *)
Lemma inv_update self c ifs hr cmds evs :
  monitor_inv self →
  PyDict.keys ifs = PyDict.keys (interfaces self) →
  Forall (λ kv, counters_ok (snd kv)) ifs →
  (∀ k, PyDict.mem (health_results self) k = true → PyDict.mem hr k = true) →
  monitor_inv (mkMonitor c ifs hr cmds evs).
Proof.
  intros (Hnd & Hres & Hcnt) Hkeys Hifs Hhr. unfold monitor_inv. simpl.
  rewrite Hkeys. repeat split; [done| |done].
  eapply Forall_impl; [exact Hres|]. auto.
Qed.

Lemma inv_same_dicts self c cmds evs :
  monitor_inv self →
  monitor_inv (mkMonitor c (interfaces self) (health_results self) cmds evs).
Proof. intros H. eapply inv_update; eauto. apply H. Qed.

Lemma inv_set_info self k info0 info :
  monitor_inv self → PyDict.get (interfaces self) k = Some info0 →
  counters_ok info →
  monitor_inv (set_interfaces self (PyDict.set (interfaces self) k info)).
Proof.
  intros H E Hok. eapply inv_update; eauto.
  - eapply dict_set_keys_present; eauto.
  - apply dict_set_Forall; [apply H|done].
Qed.

Lemma inv_set_result self k r :
  monitor_inv self →
  monitor_inv
    (set_health_results self (PyDict.set (health_results self) k r)).
Proof.
  intros H. eapply inv_update; eauto; [apply H|].
  intros k'. apply dict_mem_set_mono.
Qed.

Lemma inv_log_event self ty msg :
  monitor_inv self → monitor_inv (_log_event self ty msg).
Proof. apply inv_same_dicts. Qed.

Lemma initialize_one_inv now self c :
  monitor_inv self → monitor_inv (initialize_one now self c).
Proof.
  intros (Hnd & Hres & Hcnt). unfold initialize_one, monitor_inv. simpl.
  repeat split.
  - now apply dict_set_NoDup.
  - rewrite dict_keys_set.
    assert (Hold : Forall
              (λ k, PyDict.mem
                       (PyDict.set (health_results self) (name c)
                          (mkResult (name c) TESTING 0 0 now 0 now "")) k
                     = true)
              (PyDict.keys (interfaces self))).
    { eapply Forall_impl; [exact Hres|]. intros k. apply dict_mem_set_mono. }
    destruct (PyDict.mem (interfaces self) (name c)); [done|].
    apply Forall_app. split; [done|]. constructor; [|constructor].
    now rewrite dict_mem_set, String.eqb_refl.
  - apply dict_set_Forall; [done|]. unfold counters_ok. simpl. lia.
Qed.

Lemma init_inv c now : monitor_inv (init c now).
Proof.
  unfold init, _initialize_health_tracking. simpl.
  assert (H0 : monitor_inv (mkMonitor c [] [] [] [])).
  { repeat split; simpl; constructor. }
  revert H0. generalize (mkMonitor c [] [] [] []).
  induction (cfg_interfaces c) as [|i l IH]; simpl; intros self H; [done|].
  apply IH. now apply initialize_one_inv.
Qed.

Lemma counters_ok_set_enabled info b :
  counters_ok info → counters_ok (set_enabled info b).
Proof. done. Qed.

Lemma counters_ok_checked info now st :
  counters_ok info → counters_ok (count_verdict (count_check info now) st).
Proof. unfold counters_ok. destruct st; simpl; lia. Qed.

Lemma check_interface_health_inv self iface now p :
  monitor_inv self →
  monitor_inv (snd (_check_interface_health self iface now p)).
Proof.
  intros H. unfold _check_interface_health.
  destruct (PyDict.get (interfaces self) iface) as [info|] eqn:E; [|done].
  simpl. eapply inv_update; eauto.
  - eapply dict_set_keys_present; eauto.
  - apply dict_set_Forall; [apply H|]. apply counters_ok_checked.
    eapply dict_get_Forall; [apply H|exact E].
  - intros k. apply dict_mem_set_mono.
Qed.

Lemma update_routing_tables_dicts host self active :
  interfaces (_update_routing_tables host self active) = interfaces self
  ∧ health_results (_update_routing_tables host self active)
    = health_results self
  ∧ cfg (_update_routing_tables host self active) = cfg self.
Proof.
  unfold _update_routing_tables, run.
  destruct (host flush_cmd); [|done]. destruct active; [done|].
  destruct (nexthop_args _ _); [|done]. simpl.
  destruct (host _); done.
Qed.

Lemma reconfigure_routing_dicts host self :
  interfaces (snd (_reconfigure_routing host self)) = interfaces self
  ∧ health_results (snd (_reconfigure_routing host self))
    = health_results self
  ∧ cfg (snd (_reconfigure_routing host self)) = cfg self.
Proof.
  unfold _reconfigure_routing.
  destruct (active_interfaces _ _); [|done]. simpl.
  apply update_routing_tables_dicts.
Qed.

Lemma inv_of_dicts self self' :
  interfaces self' = interfaces self →
  health_results self' = health_results self →
  monitor_inv self → monitor_inv self'.
Proof. unfold monitor_inv. intros -> ->. done. Qed.

Lemma reconfigure_routing_inv host self :
  monitor_inv self → monitor_inv (snd (_reconfigure_routing host self)).
Proof.
  destruct (reconfigure_routing_dicts host self) as (E1 & E2 & _).
  now apply inv_of_dicts.
Qed.

Lemma bound_reconfigure_routing_dicts host pre self :
  interfaces (snd (bound_reconfigure_routing host pre self))
  = interfaces self
  ∧ health_results (snd (bound_reconfigure_routing host pre self))
    = health_results self
  ∧ cfg (snd (bound_reconfigure_routing host pre self)) = cfg self.
Proof.
  unfold bound_reconfigure_routing. destruct (pre self); [done|].
  apply reconfigure_routing_dicts.
Qed.

Lemma bound_reconfigure_routing_inv host pre self :
  monitor_inv self →
  monitor_inv (snd (bound_reconfigure_routing host pre self)).
Proof.
  destruct (bound_reconfigure_routing_dicts host pre self) as (E1 & E2 & _).
  now apply inv_of_dicts.
Qed.

Lemma trigger_failover_inv host pre self iface :
  monitor_inv self →
  monitor_inv
    (snd (_trigger_failover (bound_reconfigure_routing host pre) self
            iface)).
Proof.
  intros H. unfold _trigger_failover.
  destruct (PyDict.get (interfaces self) iface) as [info|] eqn:E; [|done].
  assert (H1 : monitor_inv
                 (set_interfaces self
                    (PyDict.set (interfaces self) iface
                       (set_enabled info false)))).
  { apply (inv_set_info self iface info); [done|done|].
    exact (dict_get_Forall counters_ok _ _ info (proj2 (proj2 H)) E). }
  destruct (PyDict.get (health_results _) iface) as [r|] eqn:Er; [|done].
  match goal with
  | |- context [bound_reconfigure_routing host pre ?s] =>
      assert (H2 : monitor_inv s) by (now apply inv_set_result);
      pose proof (bound_reconfigure_routing_inv host pre s H2) as H3;
      destruct (bound_reconfigure_routing host pre s) as [[u|e] s3]
  end; simpl in *; [|done].
  now apply inv_log_event.
Qed.

Lemma check_recovery_inv self iface now now' p :
  monitor_inv self →
  monitor_inv (snd (_check_recovery self iface now now' p)).
Proof.
  intros H. unfold _check_recovery.
  destruct (PyDict.get (interfaces self) iface) as [info|] eqn:E; [|done].
  destruct (enabled info); [done|].
  destruct (Qlt_bool _ _); [done|].
  match goal with
  | |- context [_check_interface_health ?s iface now' p] =>
      assert (H1 : monitor_inv s);
      [|pose proof (check_interface_health_inv s iface now' p H1) as H2;
        destruct (_check_interface_health s iface now' p) as [[r|e] s2]]
  end; simpl in *; [| |done].
  - apply (inv_set_info self iface info); [done|done|].
    exact (dict_get_Forall counters_ok _ _ info (proj2 (proj2 H)) E).
  - destruct (bool_decide _); simpl; [now apply inv_log_event|].
    destruct (PyDict.get (interfaces s2) iface) as [info2|] eqn:E2; [|done].
    simpl. apply (inv_set_info s2 iface info2); [done|done|].
    exact (dict_get_Forall counters_ok _ _ info2 (proj2 (proj2 H2)) E2).
Qed.

Lemma manual_interface_control_inv self iface action :
  monitor_inv self →
  monitor_inv (snd (manual_interface_control self iface action)).
Proof.
  intros H. unfold manual_interface_control.
  destruct (PyDict.get (interfaces self) iface) as [info|] eqn:E; [|done].
  assert (Hb : ∀ b, monitor_inv
                 (set_interfaces self
                    (PyDict.set (interfaces self) iface
                       (set_enabled info b)))).
  { intros b. apply (inv_set_info self iface info); [done|done|].
    exact (dict_get_Forall counters_ok _ _ info (proj2 (proj2 H)) E). }
  destruct (String.eqb action "disable");
    [|destruct (String.eqb action "enable"); [|done]];
    (destruct (PyDict.get (health_results _) iface); [|apply Hb]);
    simpl; apply inv_log_event;
    match goal with
    | |- monitor_inv (set_health_results ?s _) =>
        apply (inv_set_result s); apply Hb
    end.
Qed.

(** Every state of the monitor is a good state. *)
Lemma reachable_inv self : reachable self → monitor_inv self.
Proof.
  induction 1.
  - apply init_inv.
  - now apply check_interface_health_inv.
  - now apply trigger_failover_inv.
  - now apply reconfigure_routing_inv.
  - now apply check_recovery_inv.
  - now apply manual_interface_control_inv.
Qed.

(** The monitoring loop stays within the states of the monitor. *)
Lemma monitor_interface_reachable host pre self iface now now' p :
  reachable self →
  reachable
    (snd (monitor_interface (bound_reconfigure_routing host pre) self iface
            now now' p)).
Proof.
  intros H. unfold monitor_interface.
  destruct (PyDict.get (interfaces self) iface) as [info|]; [|done].
  destruct (enabled info); simpl.
  - pose proof (reach_check self iface now p H) as H1.
    destruct (_check_interface_health self iface now p) as [[r|e] self1];
      simpl in *; [|done].
    destruct (_should_trigger_failover self1 iface) as [[|]|e]; try done.
    now apply reach_failover.
  - pose proof (reach_recovery self iface now now' p H) as H1.
    destruct (_check_recovery self iface now now' p) as [[b|e] self1]; done.
Qed.

Lemma monitoring_pass_reachable host pre ifaces clock clock' ping :
  ∀ self,
  reachable self →
  reachable
    (monitoring_pass (λ k, bound_reconfigure_routing host (pre k)) ifaces
       clock clock' ping self).
Proof.
  induction ifaces as [|iface rest IH]; intros self H; simpl; [done|].
  pose proof (monitor_interface_reachable host (pre iface) self iface
                (clock iface) (clock' iface) (ping iface) H) as H1.
  destruct (monitor_interface _ _ _ _ _ _) as [[u|e] self1]; simpl in *;
    [now apply IH|done].
Qed.

End MonitorInvariant.

(** ** Health monitor: statistics *)

Section MonitorStats.
Import Monitor.

(** The ratio of two counters in order is between 0 and 1. *)
Lemma truediv_counters s t :
  0 <= s <= t →
  ∃ q, truediv s (Z.max t 1) = Return q ∧ (0 <= q * 100 <= 100)%Q.
Proof.
  intros Hst. unfold truediv.
  destruct (Z.eqb_spec (Z.max t 1) 0) as [E|_]; [lia|].
  eexists. split; [reflexivity|].
  assert (Hm : (0 < inject_Z (Z.max t 1))%Q).
  { change 0%Q with (inject_Z 0). rewrite <- Zlt_Qlt. lia. }
  assert (H0 : (0 <= inject_Z s / inject_Z (Z.max t 1))%Q).
  { apply Qle_shift_div_l; [done|]. rewrite Qmult_0_l.
    change 0%Q with (inject_Z 0). rewrite <- Zle_Qle. lia. }
  assert (H1 : (inject_Z s / inject_Z (Z.max t 1) <= 1)%Q).
  { apply Qle_shift_div_r; [done|]. rewrite Qmult_1_l.
    rewrite <- Zle_Qle. lia. }
  split; lra.
Qed.

Lemma stats_of_in_range info r :
  counters_ok info →
  ∃ s, stats_of info r = Return s ∧ (0 <= uptime_percentage s <= 100)%Q.
Proof.
  intros Hok. unfold stats_of.
  destruct (truediv_counters _ _ Hok) as (q & -> & Hq).
  eexists. split; [reflexivity|]. exact Hq.
Qed.

Lemma stats_loop_in_range results items : ∀ acc,
  Forall (λ k, PyDict.mem results k = true) (PyDict.keys items) →
  Forall (λ kv, counters_ok (snd kv)) items →
  Forall (λ kv, (0 <= uptime_percentage (snd kv) <= 100)%Q) acc →
  ∃ stats,
    stats_loop items results acc = Return stats
    ∧ Forall (λ kv, (0 <= uptime_percentage (snd kv) <= 100)%Q) stats.
Proof.
  induction items as [|[k info] items IH]; intros acc Hres Hcnt Hacc; simpl.
  - eauto.
  - apply Forall_cons in Hres as [Hk Hres].
    apply Forall_cons in Hcnt as [Hinfo Hcnt].
    simpl in Hk, Hinfo. unfold PyDict.mem in Hk.
    destruct (PyDict.get results k) as [r|]; [|done].
    destruct (stats_of_in_range info r Hinfo) as (s & -> & Hs).
    apply IH; [done|done|].
    now apply (dict_set_Forall
                 (λ s, (0 <= uptime_percentage s <= 100)%Q)).
Qed.

(** Every health check counts itself, and counts at most one success. *)
Lemma check_interface_health_counts self iface now p info :
  PyDict.get (interfaces self) iface = Some info →
  ∃ info',
    PyDict.get (interfaces (snd (_check_interface_health self iface now p)))
      iface = Some info'
    ∧ total_checks info' = total_checks info + 1
    ∧ successful_checks info <= successful_checks info'
      <= successful_checks info + 1.
Proof.
  intros E. unfold _check_interface_health. rewrite E. simpl.
  rewrite dict_get_set_eq. eexists. split; [reflexivity|].
  destruct (verdict (cfg self) p); simpl; lia.
Qed.

Lemma stats_of_values info r s :
  stats_of info r = Return s →
  st_total_checks s = total_checks info
  ∧ st_successful_checks s = successful_checks info
  ∧ uptime_percentage s
    = (inject_Z (successful_checks info)
       / inject_Z (Z.max (total_checks info) 1) * 100)%Q.
Proof.
  unfold stats_of, truediv. destruct (_ =? 0); [done|].
  intros [= <-]. done.
Qed.

(** The loop gives every interface its entry, in the order of the
    interfaces. *)
Lemma stats_loop_entries results items : ∀ acc stats,
  NoDup (PyDict.keys acc ++ PyDict.keys items) →
  stats_loop items results acc = Return stats →
  PyDict.keys stats = PyDict.keys acc ++ PyDict.keys items
  ∧ (∀ k, k ∉ PyDict.keys items → PyDict.get stats k = PyDict.get acc k)
  ∧ ∀ k info, (k, info) ∈ items →
      ∃ r s, PyDict.get results k = Some r
             ∧ stats_of info r = Return s
             ∧ PyDict.get stats k = Some s.
Proof.
  induction items as [|[k info] items IH]; intros acc stats Hnd; simpl.
  - intros [= <-]. rewrite app_nil_r. split; [done|]. split; [done|].
    intros k info H. now apply elem_of_nil in H.
  - destruct (PyDict.get results k) as [r|] eqn:Er; [|done].
    destruct (stats_of info r) as [s|e] eqn:Es; [|done]. intros Hloop.
    cbn [PyDict.keys map fst] in Hnd.
    apply NoDup_app in Hnd as (Hacc & Hdisj & Hitems).
    apply NoDup_cons in Hitems as [Hk Hitems].
    assert (Hmem : PyDict.mem acc k = false).
    { apply not_true_iff_false. rewrite dict_mem_key. intros Hin.
      apply (Hdisj k Hin). apply elem_of_cons. now left. }
    assert (Hkeys : PyDict.keys (PyDict.set acc k s) = PyDict.keys acc ++ [k])
      by (now rewrite dict_keys_set, Hmem).
    destruct (IH (PyDict.set acc k s) stats) as (K & F & En); [|done|].
    { rewrite Hkeys, <- app_assoc. apply NoDup_app. split; [done|].
      split; [|now apply NoDup_cons]. exact Hdisj. }
    split; [|split].
    + rewrite K, Hkeys, <- app_assoc. done.
    + intros k' [Hne Hk']%not_elem_of_cons. rewrite (F k' Hk').
      apply dict_get_set_ne. congruence.
    + intros k0 info0 [[= -> ->]|Hin]%elem_of_cons.
      * exists r, s. split; [done|]. split; [done|].
        rewrite (F k Hk). apply dict_get_set_eq.
      * now apply En.
Qed.

(** C10. In every state of the monitor the counters of each interface
    satisfy [0 <= successful_checks <= total_checks]; so
    [get_interface_stats] returns, without a division by zero even before
    the first check. What it returns has one entry for each interface of
    the monitor, in their order; the entry of an interface reports its
    counters and, as [uptime_percentage], 100 times [successful_checks]
    over the larger of [total_checks] and 1; and every [uptime_percentage]
    reported is between 0 and 100. *)
Theorem uptime_percentage_in_range self :
  reachable self →
  Forall (λ kv, counters_ok (snd kv)) (interfaces self)
  ∧ ∃ stats,
      get_interface_stats self = Return stats
      ∧ Forall (λ kv, (0 <= uptime_percentage (snd kv) <= 100)%Q) stats
      ∧ PyDict.keys stats = PyDict.keys (interfaces self)
      ∧ ∀ k info,
          PyDict.get (interfaces self) k = Some info →
          ∃ s, PyDict.get stats k = Some s
               ∧ st_total_checks s = total_checks info
               ∧ st_successful_checks s = successful_checks info
               ∧ uptime_percentage s
                 = (inject_Z (successful_checks info)
                    / inject_Z (Z.max (total_checks info) 1) * 100)%Q
               ∧ (0 <= uptime_percentage s <= 100)%Q.
Proof.
  intros (Hnd & Hres & Hcnt)%reachable_inv. split; [done|].
  destruct (stats_loop_in_range (health_results self) (interfaces self) [])
    as (stats & Hloop & Hrange); [done|done|constructor|].
  exists stats. split; [done|]. split; [done|].
  destruct (stats_loop_entries (health_results self) (interfaces self) []
              stats Hnd Hloop) as (K & _ & En).
  split; [done|]. intros k info E.
  destruct (En k info (dict_get_elem _ _ _ E)) as (r & s & _ & Hs & Hget).
  exists s. split; [done|].
  destruct (stats_of_values info r s Hs) as (H1 & H2 & H3).
  split; [done|]. split; [done|]. split; [done|].
  exact (dict_get_Forall (λ s, (0 <= uptime_percentage s <= 100)%Q)
           _ _ _ Hrange Hget).
Qed.

Lemma uptime_percentage_in_range_witness :
  ∃ stats,
    get_interface_stats Examples.fresh_monitor = Return stats
    ∧ Forall (λ kv, (0 <= uptime_percentage (snd kv) <= 100)%Q) stats
    ∧ PyDict.keys stats = PyDict.keys (interfaces Examples.fresh_monitor).
Proof.
  destruct (proj2 (uptime_percentage_in_range Examples.fresh_monitor
                     (reach_init default_config 0)))
    as (stats & H1 & H2 & H3 & _).
  exists stats. split; [exact H1|]. split; [exact H2|exact H3].
Defined.

End MonitorStats.

(** ** Health monitor: verdict of a sample *)

Section MonitorVerdict.
Import Monitor.

Lemma Qgt_bool_iff x y : Qgt_bool x y = true ↔ (y < x)%Q.
Proof.
  unfold Qgt_bool. rewrite negb_true_iff, <- not_true_iff_false, Qle_bool_iff.
  split; [apply Qnot_le_lt|apply Qlt_not_le].
Qed.

Lemma Qge_bool_iff x y : Qge_bool x y = true ↔ (y <= x)%Q.
Proof. apply Qle_bool_iff. Qed.

Lemma verdict_failed c p : verdict c p = FAILED ↔ (100 <= probe_loss p)%Q.
Proof.
  unfold verdict. rewrite <- Qge_bool_iff.
  destruct (Qge_bool (probe_loss p) 100); [done|].
  destruct (_ || _); split; done.
Qed.

Lemma verdict_degraded c p :
  verdict c p = DEGRADED
  ↔ ¬ (100 <= probe_loss p)%Q
    ∧ ((max_packet_loss c < probe_loss p)%Q
       ∨ (max_latency_ms c < probe_latency p)%Q).
Proof.
  unfold verdict.
  destruct (Qge_bool (probe_loss p) 100) eqn:E1.
  - apply Qge_bool_iff in E1. split; [done|]. intros [H _]. done.
  - assert (H1 : ¬ (100 <= probe_loss p)%Q).
    { rewrite <- Qge_bool_iff. congruence. }
    destruct (Qgt_bool (probe_loss p) _) eqn:E2; simpl.
    + apply Qgt_bool_iff in E2. split; auto.
    + destruct (Qgt_bool (probe_latency p) _) eqn:E3.
      * apply Qgt_bool_iff in E3. split; auto.
      * split; [done|].
        intros [_ [H|H]]; apply Qgt_bool_iff in H; congruence.
Qed.

Lemma verdict_cases c p :
  verdict c p = FAILED ∨ verdict c p = DEGRADED ∨ verdict c p = HEALTHY.
Proof.
  unfold verdict. destruct (Qge_bool _ _); [tauto|].
  destruct (_ || _); tauto.
Qed.

(** C2. A health check of a known interface returns a result whose
    status is FAILED exactly when the loss is total, DEGRADED exactly
    when it is not total and the loss or the latency is over its limit,
    and HEALTHY otherwise; the failure count of the interface is zero
    after a HEALTHY verdict and one more than before after any other. *)
Theorem check_interface_health_verdict self iface now p info :
  PyDict.get (interfaces self) iface = Some info →
  (loss_fraction p <= 1)%Q →
  let out := _check_interface_health self iface now p in
  let over_limit :=
    (max_loss (cfg self) < loss_fraction p)%Q
    ∨ (max_latency_ms (cfg self) < probe_latency p)%Q in
  ∃ r info',
    fst out = Return r
    ∧ PyDict.get (health_results (snd out)) iface = Some r
    ∧ PyDict.get (interfaces (snd out)) iface = Some info'
    ∧ (status r = FAILED ↔ (loss_fraction p == 1)%Q)
    ∧ (status r = DEGRADED ↔ ¬ (loss_fraction p == 1)%Q ∧ over_limit)
    ∧ (status r = HEALTHY ↔ ¬ (loss_fraction p == 1)%Q ∧ ¬ over_limit)
    ∧ (status r = HEALTHY → consecutive_failures info' = 0)
    ∧ (status r ≠ HEALTHY →
       consecutive_failures info' = consecutive_failures info + 1)
    ∧ hr_consecutive_failures r = consecutive_failures info'.
Proof.
  intros E Hle out over_limit. subst out over_limit.
  unfold _check_interface_health. rewrite E. simpl.
  rewrite !dict_get_set_eq. eexists _, _.
  split; [reflexivity|]. split; [reflexivity|]. split; [reflexivity|].
  simpl. unfold loss_fraction, max_loss in *.
  pose proof (verdict_failed (cfg self) p) as HF.
  pose proof (verdict_degraded (cfg self) p) as HD.
  pose proof (verdict_cases (cfg self) p) as HC.
  unfold Qdiv in *. change (/ 100)%Q with (1 # 100)%Q in *.
  assert (Htotal : (probe_loss p * (1 # 100) == 1)%Q
                   ↔ (100 <= probe_loss p)%Q).
  { split; intros H; lra. }
  assert (Hover : (max_packet_loss (cfg self) * (1 # 100)
                   < probe_loss p * (1 # 100))%Q
                  ↔ (max_packet_loss (cfg self) < probe_loss p)%Q).
  { split; intros H; lra. }
  rewrite Htotal, Hover.
  destruct (verdict (cfg self) p) eqn:Ev; simpl;
    repeat split; try done; try tauto; try lia;
    try (intros; exfalso; intuition congruence).
  - intros H'. apply HF in H'. discriminate.
  - intros H'. assert (H'' : HEALTHY = DEGRADED); [|discriminate].
    apply HD. split; [|done]. intros H''. apply HF in H''. discriminate.
Qed.

Lemma check_interface_health_verdict_witness :
  ∃ r info',
    fst (_check_interface_health Examples.fresh_monitor "eth0" 5
           Examples.lost_probe) = Return r
    ∧ PyDict.get
        (health_results
           (snd (_check_interface_health Examples.fresh_monitor "eth0" 5
                   Examples.lost_probe))) "eth0" = Some r
    ∧ PyDict.get
        (interfaces
           (snd (_check_interface_health Examples.fresh_monitor "eth0" 5
                   Examples.lost_probe))) "eth0" = Some info'
    ∧ (status r = FAILED ↔ (loss_fraction Examples.lost_probe == 1)%Q).
Proof.
  destruct (check_interface_health_verdict Examples.fresh_monitor "eth0" 5
              Examples.lost_probe
              (mkIfaceInfo (mkIfaceConfig "eth0" "192.168.100.1" 2)
                 true 0 0 0 0 0 None))
    as (r & info' & H1 & H2 & H3 & H4 & _).
  - reflexivity.
  - vm_compute. discriminate.
  - exists r, info'. repeat split; try assumption; apply H4.
Defined.

End MonitorVerdict.

(** ** Health monitor: failover on a lost sample *)

Section MonitorFailover.
Import Monitor.

Lemma should_trigger_failover_iff self iface r :
  PyDict.get (health_results self) iface = Some r →
  _should_trigger_failover self iface = Return true
  ↔ retry_count (cfg self) <= hr_consecutive_failures r ∨ status r = FAILED.
Proof.
  intros E. unfold _should_trigger_failover. rewrite E.
  destruct (Z.geb_spec (hr_consecutive_failures r) (retry_count (cfg self)));
    [split; [lia|done]|].
  destruct (bool_decide_reflect (status r = FAILED)); split; try tauto.
  - done.
  - intros [?|?]; [lia|done].
Qed.

(** C3 fails on the code as the specification words it: the first sample
    of a fresh interface, if lost, triggers failover although the count
    is 1 of 3 and the interface was TESTING, not HEALTHY. *)
Lemma failover_rule_as_stated_fails :
  ¬ failover_rule_as_stated Examples.fresh_monitor "eth0" 5
      Examples.lost_probe.
Proof.
  intros H.
  pose proof (H _ _ _ eq_refl eq_refl eq_refl) as [H1 _].
  destruct (H1 eq_refl) as [H2|H2].
  - vm_compute in H2. now apply H2.
  - discriminate H2.
Qed.

(** C3 as the code has it. [_should_trigger_failover] returns [True]
    exactly when the failure count of the last result has reached
    [retry_count] or its status is FAILED; after the check of a sample
    that is exactly when the count has reached [retry_count] or the sample
    was lost. So on an enabled interface a lost sample always triggers
    failover, whatever the count and the status before: the check records
    FAILED, [_should_trigger_failover] returns [True], and the loop body
    leaves the interface disabled with status FAILED, whatever
    [_reconfigure_routing] is bound to. *)
Theorem lost_sample_triggers_failover host pre self iface now now' p :
  (∀ r,
     PyDict.get (health_results self) iface = Some r →
     (_should_trigger_failover self iface = Return true
      ↔ retry_count (cfg self) <= hr_consecutive_failures r
        ∨ status r = FAILED)
     ∧ (_should_trigger_failover self iface = Return false
        ↔ ¬ (retry_count (cfg self) <= hr_consecutive_failures r
             ∨ status r = FAILED)))
  ∧ ∀ info,
      PyDict.get (interfaces self) iface = Some info →
      (∃ r self1,
         _check_interface_health self iface now p = (Return r, self1)
         ∧ PyDict.get (health_results self1) iface = Some r
         ∧ status r = verdict (cfg self) p
         ∧ (_should_trigger_failover self1 iface = Return true
            ↔ retry_count (cfg self) <= hr_consecutive_failures r
              ∨ verdict (cfg self) p = FAILED))
      ∧ (enabled info = true →
         verdict (cfg self) p = FAILED →
         (∃ r self1,
            _check_interface_health self iface now p = (Return r, self1)
            ∧ status r = FAILED
            ∧ _should_trigger_failover self1 iface = Return true)
         ∧ ∃ info2 r2,
             let self2 :=
               snd (monitor_interface (bound_reconfigure_routing host pre)
                      self iface now now' p) in
             PyDict.get (interfaces self2) iface = Some info2
             ∧ enabled info2 = false
             ∧ PyDict.get (health_results self2) iface = Some r2
             ∧ status r2 = FAILED).
Proof.
  split.
  { intros r E. split; [now apply should_trigger_failover_iff|].
    pose proof (should_trigger_failover_iff self iface r E) as Hiff.
    unfold _should_trigger_failover in *. rewrite E in *.
    destruct (_ >=? _); [split; [done|]; intros H; exfalso; apply H, Hiff; done|].
    destruct (bool_decide _);
      [split; [done|]; intros H; exfalso; apply H, Hiff; done|].
    split; [|done]. intros _ H. apply Hiff in H. done. }
  intros info E.
  assert (Hany : ∃ r self1,
             _check_interface_health self iface now p = (Return r, self1)
             ∧ PyDict.get (health_results self1) iface = Some r
             ∧ status r = verdict (cfg self) p
             ∧ cfg self1 = cfg self
             ∧ ∃ info1, PyDict.get (interfaces self1) iface = Some info1).
  { unfold _check_interface_health. rewrite E. eexists _, _.
    split; [reflexivity|]. simpl.
    split; [apply dict_get_set_eq|]. split; [done|]. split; [done|].
    eexists; apply dict_get_set_eq. }
  destruct Hany as (r & self1 & Hc & Hr & Hst & Hcfg & info1 & Hi).
  pose proof (should_trigger_failover_iff self1 iface r Hr) as Hiff.
  rewrite Hcfg, Hst in Hiff.
  split; [exists r, self1; done|].
  intros Hen Hv.
  assert (Htr : _should_trigger_failover self1 iface = Return true)
    by (apply Hiff; now right).
  split; [exists r, self1; rewrite Hst, Hv; done|].
  unfold monitor_interface. rewrite E, Hen. simpl. rewrite Hc, Htr.
  unfold _trigger_failover. rewrite Hi. simpl. rewrite Hr.
  match goal with
  | |- context [bound_reconfigure_routing host pre ?s] =>
      destruct (bound_reconfigure_routing_dicts host pre s) as (D1 & D2 & _);
      destruct (bound_reconfigure_routing host pre s) as [[u|e] s3]
  end; simpl in *; rewrite D1, D2, !dict_get_set_eq;
    eexists _, _; repeat split; reflexivity.
Qed.

Lemma lost_sample_triggers_failover_witness :
  ∃ r self1,
    _check_interface_health Examples.fresh_monitor "eth0" 5
      Examples.lost_probe = (Return r, self1)
    ∧ status r = FAILED
    ∧ _should_trigger_failover self1 "eth0" = Return true.
Proof.
  refine (proj1 (proj2 (proj2 (lost_sample_triggers_failover
                                 Examples.host_ok (λ _, None)
                                 Examples.fresh_monitor "eth0" 5 5
                                 Examples.lost_probe)
                          (mkIfaceInfo (mkIfaceConfig "eth0" "192.168.100.1" 2)
                             true 0 0 0 0 0 None) eq_refl)
                   eq_refl eq_refl)).
Defined.

End MonitorFailover.

(** ** Health monitor: the default route *)

Section MonitorRouting.
Import Monitor.

Lemma skipn_length_app {A} (l k : list A) : skipn (length l) (l ++ k) = k.
Proof. induction l as [|x l IH]; simpl; auto. Qed.

Lemma active_interfaces_spec results items :
  Forall (λ k, PyDict.mem results k = true) (PyDict.keys items) →
  active_interfaces items results
  = Return (map fst
              (List.filter
                 (λ kv, enabled (snd kv) && is_healthy results (fst kv))
                 items)).
Proof.
  induction items as [|[k info] items IH]; simpl; [done|].
  intros [Hk Hres]%Forall_cons. simpl in Hk. rewrite (IH Hres).
  unfold PyDict.mem in Hk. unfold is_healthy.
  destruct (enabled info); simpl; [|done].
  destruct (PyDict.get results k) as [r|]; [|done].
  destruct (bool_decide (status r = HEALTHY)); done.
Qed.

Lemma nexthop_args_spec ifs sel :
  Forall (λ kv, PyDict.get ifs (fst kv) = Some (snd kv)) sel →
  nexthop_args ifs (map fst sel) = Return (flat_map nexthop_words sel).
Proof.
  induction sel as [|[k info] sel IH]; simpl; [done|].
  intros [Hk Hsel]%Forall_cons. simpl in Hk. now rewrite Hk, (IH Hsel).
Qed.

Lemma parse_nexthops_words sel :
  parse_nexthops (flat_map nexthop_words sel) = map nexthop_of sel.
Proof. induction sel as [|kv sel IH]; simpl; [done|]. now rewrite IH. Qed.

Lemma healthy_enabled_get self :
  monitor_inv self →
  Forall (λ kv, PyDict.get (interfaces self) (fst kv) = Some (snd kv))
    (healthy_enabled self).
Proof.
  intros (Hnd & _ & _). apply Forall_forall. intros [k info] Hin.
  apply list_elem_of_In, filter_In in Hin as [Hin _].
  apply dict_elem_get; [done|]. now apply list_elem_of_In.
Qed.

(** Who is in the list: the interfaces that are enabled and whose last
    result is HEALTHY, each once. *)
Lemma healthy_enabled_spec self k info :
  monitor_inv self →
  (k, info) ∈ healthy_enabled self
  ↔ PyDict.get (interfaces self) k = Some info
    ∧ enabled info = true
    ∧ ∃ r, PyDict.get (health_results self) k = Some r ∧ status r = HEALTHY.
Proof.
  intros (Hnd & _ & _). unfold healthy_enabled.
  rewrite list_elem_of_In, filter_In, <- list_elem_of_In. simpl.
  rewrite andb_true_iff. unfold is_healthy. split.
  - intros (Hin & Hen & Hh). split; [now apply dict_elem_get|].
    split; [done|]. destruct (PyDict.get (health_results self) k) as [r|];
      [|done].
    exists r. split; [done|]. now apply bool_decide_eq_true in Hh.
  - intros (Hget & Hen & r & Hr & Hst). split; [now apply dict_get_elem|].
    split; [done|]. rewrite Hr. now apply bool_decide_eq_true.
Qed.

(** What a reconfiguration runs: the flush, then, when some interface is
    enabled and healthy, one default-route command with their nexthops. *)
Lemma reconfigure_routing_commands host self :
  monitor_inv self →
  fst (_reconfigure_routing host self) = Return tt
  ∧ issued self (snd (_reconfigure_routing host self))
    = match host flush_cmd with
      | None => []
      | Some _ =>
          flush_cmd ::
          match healthy_enabled self with
          | [] => []
          | sel =>
              let cmd := add_default ++ flat_map nexthop_words sel in
              match host cmd with None => [] | Some _ => [cmd] end
          end
      end.
Proof.
  intros Hinv. pose proof (healthy_enabled_get self Hinv) as Hget.
  destruct Hinv as (Hnd & Hres & _).
  unfold _reconfigure_routing, issued.
  rewrite (active_interfaces_spec _ _ Hres). fold (healthy_enabled self).
  revert Hget. generalize (healthy_enabled self). intros sel Hget.
  cbn [fst snd]. split; [done|]. unfold _update_routing_tables, run.
  destruct (host flush_cmd) as [rc|].
  - destruct sel as [|kv sel].
    + cbn [map commands]. now rewrite skipn_length_app.
    + remember (kv :: sel) as l eqn:El. cbn [interfaces].
      rewrite (nexthop_args_spec _ _ Hget). subst l. cbn [map].
      cbn zeta. destruct (host _) as [rc'|]; cbn [snd commands].
      * now rewrite <- app_assoc, skipn_length_app.
      * now rewrite skipn_length_app.
  - rewrite <- (app_nil_r (commands self)) at 2. now rewrite skipn_length_app.
Qed.

Lemma healthy_enabled_dicts a b :
  interfaces a = interfaces b → health_results a = health_results b →
  healthy_enabled a = healthy_enabled b.
Proof. unfold healthy_enabled. now intros -> ->. Qed.

(** A reconfiguration in a good state returns, and the route it
    programs follows the health. *)
Lemma reconfigure_routing_follows_health host self :
  monitor_inv self →
  fst (_reconfigure_routing host self) = Return tt
  ∧ routes_follow_health host self (snd (_reconfigure_routing host self)).
Proof.
  intros Hinv.
  destruct (reconfigure_routing_commands host self Hinv) as [Hret Hiss].
  destruct (reconfigure_routing_dicts host self) as (D1 & D2 & _).
  split; [done|]. unfold routes_follow_health.
  rewrite Hiss, D1, D2, (healthy_enabled_dicts _ self D1 D2).
  clear Hiss Hret D1 D2.
  assert (Hmem : ∀ gw dev w,
             (gw, dev, w) ∈ map nexthop_of (healthy_enabled self)
             ↔ ∃ info r,
                 PyDict.get (interfaces self) dev = Some info
                 ∧ enabled info = true
                 ∧ PyDict.get (health_results self) dev = Some r
                 ∧ status r = HEALTHY
                 ∧ gw = gateway (config info)
                 ∧ w = str (weight (config info))).
  { intros gw dev w. rewrite list_elem_of_In, in_map_iff. split.
    - intros ([k info] & [= <- <- <-] & Hin).
      apply list_elem_of_In, healthy_enabled_spec in Hin; [|done].
      destruct Hin as (H1 & H2 & r & H3 & H4). exists info, r. done.
    - intros (info & r & H1 & H2 & H3 & H4 & -> & ->).
      exists (dev, info). split; [done|].
      apply list_elem_of_In, healthy_enabled_spec; eauto. }
  split; [|split].
  - intros cmd Hcmd Hadd.
    assert (Hnh : nexthops_of cmd = map nexthop_of (healthy_enabled self)).
    { destruct (host flush_cmd); [|now apply elem_of_nil in Hcmd].
      apply elem_of_cons in Hcmd as [->|Hcmd]; [discriminate Hadd|].
      destruct (healthy_enabled self) as [|kv sel] eqn:Esel;
        [now apply elem_of_nil in Hcmd|]. rewrite <- Esel in *.
      cbn zeta in Hcmd. destruct (host _); [|now apply elem_of_nil in Hcmd].
      apply list_elem_of_singleton in Hcmd as ->.
      unfold nexthops_of. simpl. apply parse_nexthops_words. }
    split; [done|]. intros gw dev w. rewrite Hnh. apply Hmem.
  - intros Hnone cmd. rewrite Hnone.
    destruct (host flush_cmd); [|intros H; now apply elem_of_nil in H].
    intros [->|H]%elem_of_cons; [done|now apply elem_of_nil in H].
  - intros Hsome Hhost. destruct (Hhost flush_cmd) as [rc ->].
    destruct (healthy_enabled self) as [|kv sel] eqn:Esel; [done|].
    cbn zeta.
    destruct (Hhost (add_default ++ flat_map nexthop_words (kv :: sel)))
      as [rc' ->].
    eexists. split; reflexivity.
Qed.

(** The function the watchdog puts in the place of
    [_reconfigure_routing] is, for the monitor, the method of the class
    behind work that may raise. *)
Lemma integrated_reconfigure_routing_bound host rm clock hm :
  (fst (fst (Watchdog.integrated_reconfigure_routing host rm hm clock)),
   snd (Watchdog.integrated_reconfigure_routing host rm hm clock))
  = bound_reconfigure_routing host (Watchdog.integrated_raises host rm clock)
      hm.
Proof.
  unfold Watchdog.integrated_reconfigure_routing,
    Watchdog.integrated_raises, bound_reconfigure_routing.
  destruct (Watchdog.sync_states host rm (health_results hm) clock)
    as [[[]|e] rm1]; cbn [fst snd]; [|done].
  now destruct (_reconfigure_routing host hm).
Qed.

(** What a failover runs, whatever [_reconfigure_routing] is bound to:
    the interface is disabled with status FAILED first; if the work put
    before the method of the class raises, the monitor runs no command;
    otherwise the method of the class runs in that state. *)
Lemma trigger_failover_cases host pre self iface info :
  monitor_inv self →
  PyDict.get (interfaces self) iface = Some info →
  ∃ r self2,
    PyDict.get (health_results self) iface = Some r
    ∧ self2
      = set_health_results
          (set_interfaces self
             (PyDict.set (interfaces self) iface (set_enabled info false)))
          (PyDict.set (health_results self) iface (set_status r FAILED))
    ∧ monitor_inv self2
    ∧ match pre self2 with
      | Some e =>
          _trigger_failover (bound_reconfigure_routing host pre) self iface
          = (Raise e, self2)
      | None =>
          _trigger_failover (bound_reconfigure_routing host pre) self iface
          = (Return tt,
             _log_event (snd (_reconfigure_routing host self2)) "FAILOVER"
               ("Interface " +:+ iface +:+ " failed over"))
      end.
Proof.
  intros Hinv E.
  assert (Hmem : PyDict.mem (health_results self) iface = true).
  { destruct Hinv as (_ & Hres & _). rewrite Forall_forall in Hres.
    apply Hres. eapply dict_elem_key, dict_get_elem, E. }
  unfold PyDict.mem in Hmem.
  destruct (PyDict.get (health_results self) iface) as [r|] eqn:Er; [|done].
  eexists r, _. split; [done|]. split; [reflexivity|].
  match goal with |- monitor_inv ?s ∧ _ => set (self2 := s) end.
  assert (Hinv2 : monitor_inv self2).
  { apply (inv_set_result (set_interfaces self _)).
    apply (inv_set_info self iface info); [done|done|].
    exact (dict_get_Forall counters_ok _ _ info (proj2 (proj2 Hinv)) E). }
  split; [done|].
  unfold _trigger_failover. rewrite E. cbn [health_results set_interfaces].
  rewrite Er. cbv zeta. fold self2. unfold bound_reconfigure_routing.
  destruct (pre self2) as [e|]; [done|].
  destruct (reconfigure_routing_follows_health host self2 Hinv2)
    as [Hret _].
  destruct (_reconfigure_routing host self2) as [[[]|e] self3];
    simpl in Hret; done.
Qed.



(** Scenarios 1 and 2 of the specification, run. *)
Example both_healthy_route :
  issued Examples.monitor_both_healthy
    (snd (_reconfigure_routing Examples.host_ok
            Examples.monitor_both_healthy))
  = [ flush_cmd;
      [ "ip"; "route"; "add"; "default";
        "nexthop"; "via"; "192.168.100.1"; "dev"; "eth0"; "weight"; "2";
        "nexthop"; "via"; "192.168.200.1"; "dev"; "eth1"; "weight"; "1" ] ].
Proof. vm_compute. reflexivity. Qed.

Example eth0_lost_route :
  issued Examples.monitor_both_healthy
    (snd (monitor_interface (_reconfigure_routing Examples.host_ok)
            Examples.monitor_both_healthy
            "eth0" 10 10 Examples.lost_probe))
  = [ flush_cmd;
      [ "ip"; "route"; "add"; "default";
        "nexthop"; "via"; "192.168.200.1"; "dev"; "eth1"; "weight"; "1" ] ].
Proof. vm_compute. reflexivity. Qed.

(** The same failover on the watchdog's instance, on a host where the
    route manager cannot add its default route: the replacement raises and
    the monitor runs no command; the interface is disabled all the same. *)
Example eth0_lost_under_watchdog :
  let pre :=
    Watchdog.integrated_raises RouteExamples.failing_add
      (Routes.mkManager Routes.default_interfaces Routes.initial_tables [])
      (λ _, 10%Q) in
  let out :=
    monitor_interface
      (bound_reconfigure_routing RouteExamples.failing_add pre)
      Examples.monitor_both_healthy "eth0" 10 10 Examples.lost_probe in
  fst out
  = Raise
      (CalledProcessError
         [ "ip"; "route"; "add"; "default";
           "nexthop"; "via"; "192.168.200.1"; "dev"; "eth1"; "weight"; "1" ]
         2)
  ∧ issued Examples.monitor_both_healthy (snd out) = []
  ∧ option_map enabled (PyDict.get (interfaces (snd out)) "eth0")
    = Some false.
Proof. vm_compute. repeat split. Qed.

End MonitorRouting.

(** ** Interface detector: suggested weight *)

Section DetectorWeight.
Import Detector.

Lemma str_nonneg n :
  0 <= n →
  ∃ d, d ≠ Decimal.Nil ∧ str n = NilEmpty.string_of_uint d ∧ Z.of_uint d = n.
Proof.
  intros Hn. destruct n as [|p|p]; [| |lia].
  - exists (Decimal.D0 Decimal.Nil). done.
  - exists (Pos.to_uint p).
    pose proof (DecimalPos.Unsigned.to_uint_nonnil p) as Hnn.
    split; [done|]. split.
    + unfold str. simpl. unfold NilZero.string_of_uint.
      now destruct (Pos.to_uint p).
    + unfold Z.of_uint. now rewrite DecimalPos.Unsigned.of_to.
Qed.

Lemma take_digits_uint d suffix :
  starts_with_digit suffix = false →
  take_digits (NilEmpty.string_of_uint d +:+ suffix)
  = NilEmpty.string_of_uint d.
Proof.
  intros Hs. induction d; cbn [NilEmpty.string_of_uint];
    rewrite ?append_nil, ?append_cons; simpl; try now rewrite IHd.
  destruct suffix as [|c s]; [done|]. simpl in *. now rewrite Hs.
Qed.

Lemma search_digits_uint d suffix :
  d ≠ Decimal.Nil → starts_with_digit suffix = false →
  search_digits (NilEmpty.string_of_uint d +:+ suffix)
  = Some (NilEmpty.string_of_uint d).
Proof.
  intros Hd Hs. destruct d; [done|..]; cbn [NilEmpty.string_of_uint];
    rewrite append_cons; simpl; now rewrite take_digits_uint.
Qed.

Lemma int_of_digits_uint d :
  int_of_digits (NilEmpty.string_of_uint d) = Z.of_uint d.
Proof. unfold int_of_digits. now rewrite NilEmpty.usu. Qed.

Lemma suggest_weight_of_digits s g :
  search_digits s = Some g →
  _suggest_weight_based_on_speed (Some s) = spec_weight (int_of_digits g).
Proof.
  intros E. destruct s as [|c s]; [done|].
  unfold _suggest_weight_based_on_speed. rewrite E. unfold spec_weight.
  now rewrite !Z.geb_leb.
Qed.

Example gigabit_from_ethtool :
  _get_interface_speed (EthtoolOut Examples.ethtool_1000m) SysAbsent
  = Some "1000Mb/s"
  ∧ _suggest_weight_based_on_speed
      (_get_interface_speed (EthtoolOut Examples.ethtool_1000m) SysAbsent)
    = 3.
Proof. split; vm_compute; reflexivity. Qed.

(** C7 fails on the code as the specification words it: the detector
    hands over the text that follows [Speed:], and the weight is computed
    from its first number alone, so 10 Gb/s gets the weight of 10 Mb/s. *)
Lemma weight_rule_as_stated_fails :
  _get_interface_speed (EthtoolOut Examples.ethtool_10g) SysAbsent
  = Some (speed_text 10 Gbps)
  ∧ _suggest_weight_based_on_speed (Some (speed_text 10 Gbps)) = 1
  ∧ spec_weight (speed_in_mbps 10 Gbps) = 3
  ∧ ¬ weight_rule_as_stated.
Proof.
  repeat split; try (vm_compute; reflexivity).
  intros H. specialize (H 10 Gbps). vm_compute in H.
  assert (H' : 1 = 3) by (apply H; discriminate). discriminate H'.
Qed.

(** C7 as the code has it. The first number of the text is read as
    Mb/s: a text made of the number [n] and a suffix that does not start
    with a digit gets weight 3 from 1000, 2 from 100 and 1 below; so does
    the text the detector builds from the sysfs speed; no speed gets 1. *)
Theorem suggest_weight_reads_mbps n suffix :
  0 <= n → starts_with_digit suffix = false →
  _suggest_weight_based_on_speed (Some (str n +:+ suffix)) = spec_weight n
  ∧ _suggest_weight_based_on_speed
      (_get_interface_speed EthtoolError (SysSpeed n)) = spec_weight n
  ∧ _suggest_weight_based_on_speed None = 1
  ∧ _suggest_weight_based_on_speed
      (_get_interface_speed EthtoolError SysAbsent) = 1.
Proof.
  intros Hn Hs.
  assert (Hgen : ∀ sfx, starts_with_digit sfx = false →
            _suggest_weight_based_on_speed (Some (str n +:+ sfx))
            = spec_weight n).
  { intros sfx Hsfx. destruct (str_nonneg n Hn) as (d & Hd & -> & <-).
    rewrite <- int_of_digits_uint.
    apply suggest_weight_of_digits. now apply search_digits_uint. }
  split; [now apply Hgen|]. split; [|done].
  unfold _get_interface_speed. destruct (Z.gtb_spec n 0) as [Hpos|Hle].
  - now apply Hgen.
  - assert (n = 0) as -> by lia. reflexivity.
Qed.

Lemma suggest_weight_reads_mbps_witness :
  _suggest_weight_based_on_speed (Some (str 1000 +:+ "Mb/s"))
  = spec_weight 1000.
Proof.
  apply (suggest_weight_reads_mbps 1000 "Mb/s"); [lia|reflexivity].
Defined.

End DetectorWeight.

(** * Further properties of the connection tracker *)

Section TrackerMore.
Import Tracker TrackerViews.

(** X1. The class of a flow does not depend on its direction: swapping
    the source and destination ports gives the same class. *)
Theorem classify_traffic_direction_free self sport dport proto :
  classify_traffic self sport dport proto
  = classify_traffic self dport sport proto.
Proof. unfold classify_traffic. apply classify_rules_sym. Qed.

Lemma classify_rules_first_match rules sport dport proto :
  (∃ before ty r after,
     rules = before ++ (ty, r) :: after
     ∧ rule_matches r sport dport proto = true
     ∧ Forall (λ tr, rule_matches (snd tr) sport dport proto = false) before
     ∧ classify_rules rules sport dport proto = ty)
  ∨ (Forall (λ tr, rule_matches (snd tr) sport dport proto = false) rules
     ∧ classify_rules rules sport dport proto = GENERAL).
Proof.
  induction rules as [|[ty r] rules IH]; simpl.
  - right. split; [constructor|done].
  - fold (rule_matches r sport dport proto).
    destruct (rule_matches r sport dport proto) eqn:E.
    + left. exists [], ty, r, rules. repeat split; [done|constructor].
    + destruct IH as [(before & ty' & r' & after & -> & Hm & Hb & Hc)|[Hn Hc]].
      * left. exists ((ty, r) :: before), ty', r', after.
        repeat split; try done. now constructor.
      * right. split; [now constructor|done].
Qed.

(** X2. [classify_traffic] gives the class of the first rule of the
    table, in its order, whose protocols hold the protocol and whose ports
    hold the source or the destination port; when no rule does, it gives
    GENERAL. *)
Theorem classify_traffic_first_match self sport dport proto :
  (∃ before ty r after,
     traffic_rules self = before ++ (ty, r) :: after
     ∧ rule_matches r sport dport proto = true
     ∧ Forall (λ tr, rule_matches (snd tr) sport dport proto = false) before
     ∧ classify_traffic self sport dport proto = ty)
  ∨ (Forall (λ tr, rule_matches (snd tr) sport dport proto = false)
       (traffic_rules self)
     ∧ classify_traffic self sport dport proto = GENERAL).
Proof. apply classify_rules_first_match. Qed.

(** X4. Two well-formed connections have the same key only if they have
    the same protocol and the same two endpoints, in the same or in the
    opposite direction. *)
Theorem connection_key_injective c1 c2 :
  wf_conn c1 → wf_conn c2 → key_of c1 = key_of c2 →
  protocol c1 = protocol c2
  ∧ ((src_ip c1, src_port c1, dst_ip c1, dst_port c1)
     = (src_ip c2, src_port c2, dst_ip c2, dst_port c2)
     ∨ (src_ip c1, src_port c1, dst_ip c1, dst_port c1)
       = (dst_ip c2, dst_port c2, src_ip c2, src_port c2)).
Proof.
  intros (Hs1 & Hd1 & Hp1 & Hq1) (Hs2 & Hd2 & Hp2 & Hq2).
  unfold key_of. rewrite !key_shape.
  destruct (src_port c1 <? dst_port c1), (src_port c2 <? dst_port c2);
    intros E; apply two_ends_inj in E as (E1 & E2 & E3 & E4 & E5);
    try done; split; try done; rewrite ?E1, ?E2, ?E3, ?E4; auto.
Qed.

Lemma connection_key_injective_witness :
  protocol Examples.sip_flow = protocol Examples.sip_flow.
Proof.
  apply (connection_key_injective Examples.sip_flow Examples.sip_flow);
    try reflexivity; unfold wf_conn; simpl; repeat split;
    (reflexivity || lia).
Defined.

(** X5. [track_connection] stores the connection under its key, so that
    [get_sticky_interface] of the key gives its interface; it replaces an
    entry already there, adds the key last otherwise, and leaves every
    other entry as it was. *)
Theorem track_connection_stores self c t1 t2 :
  let self' := snd (track_connection self c t1 t2) in
  get_sticky_interface self' (key_of c) = Some (interface c)
  ∧ PyDict.keys (connections self')
    = (if PyDict.mem (connections self) (key_of c)
       then PyDict.keys (connections self)
       else PyDict.keys (connections self) ++ [key_of c])
  ∧ ∀ k, k ≠ key_of c →
      PyDict.get (connections self') k = PyDict.get (connections self) k.
Proof.
  simpl. unfold get_sticky_interface. simpl.
  rewrite dict_get_set_eq, dict_keys_set. repeat split.
  intros k Hk. now apply dict_get_set_ne.
Qed.

Lemma dict_set_set {V} (d : PyDict.t V) k v1 v2 :
  PyDict.set (PyDict.set d k v1) k v2 = PyDict.set d k v2.
Proof.
  induction d as [|[k0 v0] d IH]; simpl.
  - now rewrite String.eqb_refl.
  - destruct (String.eqb k k0) eqn:E; simpl; rewrite E; [done|].
    now rewrite IH.
Qed.

(** X6. [update_connection] does nothing for a key that is not tracked;
    for a tracked key it never changes the keys or the sticky set, and
    two updates in a row are one update with the counts added, the later
    time, and the later interface that was given. *)
Theorem update_connection_accumulates self k p1 b1 i1 t1 p2 b2 i2 t2 :
  (PyDict.get (connections self) k = None →
   update_connection self k p1 b1 i1 t1 = self)
  ∧ PyDict.keys (connections (update_connection self k p1 b1 i1 t1))
    = PyDict.keys (connections self)
  ∧ sticky_sessions (update_connection self k p1 b1 i1 t1)
    = sticky_sessions self
  ∧ update_connection (update_connection self k p1 b1 i1 t1) k p2 b2 i2 t2
    = update_connection self k (p1 + p2) (b1 + b2)
        (match i2 with
         | Some i => if String.eqb i "" then i1 else i2
         | None => i1
         end) t2.
Proof.
  unfold update_connection.
  destruct (PyDict.get (connections self) k) as [c|] eqn:E; simpl.
  - split; [done|]. split; [eapply dict_set_keys_present; eauto|].
    split; [done|]. rewrite dict_get_set_eq, dict_set_set. simpl.
    rewrite !Z.add_assoc. f_equal. f_equal. f_equal.
    destruct i2 as [i|]; [|done].
    destruct (String.eqb i "") eqn:Ei; [done|]. now rewrite Ei.
  - rewrite E. done.
Qed.

(** X3. The two directions of a well-formed flow have the same key
    exactly when the two ports differ or the two addresses are equal. *)
Theorem reversed_key_iff c :
  wf_conn c →
  key_of (reversed c) = key_of c
  ↔ src_port c ≠ dst_port c ∨ src_ip c = dst_ip c.
Proof.
  intros (Hs & Hd & Hp & Hq). unfold key_of, reversed. simpl. split.
  - intros E. destruct (Z.eq_dec (src_port c) (dst_port c)) as [Eq|]; [|auto].
    right. revert E. rewrite !key_shape, Eq, Z.ltb_irrefl.
    intros E. now apply two_ends_inj in E as (E1 & _).
  - intros [Hne|Heq].
    + symmetry. now apply connection_key_symmetric.
    + destruct (Z.eq_dec (src_port c) (dst_port c)) as [Eq|Hne].
      * now rewrite Heq, Eq.
      * symmetry. now apply connection_key_symmetric.
Qed.

Lemma reversed_key_iff_witness :
  key_of (reversed Examples.sip_flow) = key_of Examples.sip_flow
  ↔ src_port Examples.sip_flow ≠ dst_port Examples.sip_flow
    ∨ src_ip Examples.sip_flow = dst_ip Examples.sip_flow.
Proof.
  apply (reversed_key_iff Examples.sip_flow).
  unfold wf_conn. simpl. repeat split; (reflexivity || lia).
Defined.

Lemma reachable_keys_NoDup P rules self :
  reachable P rules self → NoDup (PyDict.keys (connections self)).
Proof.
  induction 1 as [|self c t1 t2 _ IH _|self k pkts byts iface now _ IH
                  |self now max_age _ IH].
  - constructor.
  - simpl. now apply dict_set_NoDup.
  - unfold update_connection.
    destruct (PyDict.get (connections self) k); [|done].
    simpl. now apply dict_set_NoDup.
  - unfold cleanup_connections. revert IH.
    generalize (expired_keys self now max_age). intros ks. revert self.
    induction ks as [|k ks IHks]; intros self Hnd; simpl; [done|].
    unfold PyDict.del. destruct (PyDict.mem (connections self) k); [|done].
    apply IHks. simpl. now apply dict_remove_NoDup.
Qed.

Lemma remove_expired_app ks1 ks2 self :
  remove_expired (ks1 ++ ks2) self
  = match remove_expired ks1 self with
    | (Raise e, s) => (Raise e, s)
    | (Return _, s) => remove_expired ks2 s
    end.
Proof.
  revert self. induction ks1 as [|k ks1 IH]; intros self; simpl; [done|].
  destruct (PyDict.del (connections self) k); [apply IH|done].
Qed.

Lemma remove_expired_NoDup ks : ∀ self,
  NoDup (PyDict.keys (connections self)) →
  NoDup (PyDict.keys (connections (snd (remove_expired ks self)))).
Proof.
  induction ks as [|k ks IH]; intros self Hnd; simpl; [done|].
  unfold PyDict.del. destruct (PyDict.mem (connections self) k); [|done].
  apply IH. simpl. now apply dict_remove_NoDup.
Qed.

(** A key listed twice in a row makes the second loop raise. *)
Lemma remove_expired_twice k ks self :
  NoDup (PyDict.keys (connections self)) →
  ∃ e, fst (remove_expired (k :: k :: ks) self) = Raise e.
Proof.
  intros Hnd. simpl. unfold PyDict.del.
  destruct (PyDict.mem (connections self) k) eqn:E; [|eauto]. simpl.
  assert (Hgone : PyDict.mem (PyDict.remove (connections self) k) k = false).
  { apply not_true_iff_false. intros H%dict_mem_key.
    apply dict_keys_remove in H as [_ H]; done. }
  rewrite Hgone. eauto.
Qed.

Lemma expired_keys_split now max_age (d : PyDict.t Connection) k c :
  (k, c) ∈ d → too_old now max_age c && is_invalid c = true →
  ∃ ks1 ks2, flat_map (expired_of now max_age) d = ks1 ++ k :: k :: ks2.
Proof.
  intros Hin Hboth. apply list_elem_of_In, in_split in Hin as (d1 & d2 & ->).
  rewrite flat_map_app. simpl. unfold expired_of at 2. simpl.
  apply andb_prop in Hboth as [-> ->]. simpl. eauto.
Qed.

(** X7. In every state of the tracker, [cleanup_connections] returns
    exactly when no connection is both older than [max_age] and INVALID;
    it then keeps exactly the connections that are neither, in their
    order, and takes the keys it removed out of the sticky set. *)
Theorem cleanup_connections_returns_iff P rules self now max_age :
  reachable P rules self →
  (fst (cleanup_connections self now max_age) = Return tt
   ↔ Forall (λ kc, too_old now max_age (snd kc) && is_invalid (snd kc)
                   = false) (connections self))
  ∧ (fst (cleanup_connections self now max_age) = Return tt →
     connections (snd (cleanup_connections self now max_age))
     = List.filter
         (λ kc, negb (too_old now max_age (snd kc) || is_invalid (snd kc)))
         (connections self)
     ∧ sticky_sessions (snd (cleanup_connections self now max_age))
       = sticky_sessions self
         ∖ list_to_set (expired_keys self now max_age)).
Proof.
  intros Hnd%reachable_keys_NoDup.
  assert (Hiff : fst (cleanup_connections self now max_age) = Return tt
                 ↔ Forall (λ kc, too_old now max_age (snd kc)
                                 && is_invalid (snd kc) = false)
                     (connections self)).
  { split.
    - intros Hret. apply Forall_forall. intros [k c] Hin. simpl.
      apply not_true_iff_false. intros Hboth.
      destruct (expired_keys_split now max_age _ k c Hin Hboth)
        as (ks1 & ks2 & Hks).
      unfold cleanup_connections, expired_keys in Hret.
      rewrite Hks, remove_expired_app in Hret.
      pose proof (remove_expired_NoDup ks1 self Hnd) as Hnd1.
      destruct (remove_expired ks1 self) as [[[]|e] s1]; [|done].
      destruct (remove_expired_twice k ks2 s1 Hnd1) as [e He].
      congruence.
    - intros Hone. now apply cleanup_connections_distinct. }
  split; [done|]. intros Hret. apply Hiff in Hret.
  now apply cleanup_connections_distinct.
Qed.

Lemma cleanup_connections_returns_iff_witness :
  fst (cleanup_connections Examples.tracker_with_stale 4000 3600) = Return tt
  ↔ Forall (λ kc, too_old 4000 3600 (snd kc) && is_invalid (snd kc) = false)
      (connections Examples.tracker_with_stale).
Proof.
  apply (cleanup_connections_returns_iff (λ _, True) default_traffic_rules
           Examples.tracker_with_stale 4000 3600).
  apply reach_track; [apply reach_init|exact I].
Defined.

Lemma sticky_sessions_tracked_keys P rules self :
  reachable P rules self →
  ∀ k, k ∈ sticky_sessions self → k ∈ PyDict.keys (connections self).
Proof.
  induction 1 as [|self c t1 t2 _ IH _|self k0 pkts byts iface now _ IH
                  |self now max_age _ IH]; intros k.
  - simpl. rewrite elem_of_empty. tauto.
  - intros Hk%track_connection_sticky_tracked; [now apply dict_mem_key|].
    intros k' Hk'. now apply dict_mem_key, IH.
  - intros Hk%update_connection_sticky_tracked; [now apply dict_mem_key|].
    intros k' Hk'. now apply dict_mem_key, IH.
  - intros Hk%remove_expired_sticky_tracked; [now apply dict_mem_key|].
    intros k' Hk'. now apply dict_mem_key, IH.
Qed.

Lemma count_by_type (l : PyDict.t Connection) :
  fold_right Z.add 0
    (map (λ ty, Z.of_nat
                  (length
                     (List.filter
                        (λ kc, bool_decide (traffic_type (snd kc) = ty)) l)))
       all_traffic_types)
  = Z.of_nat (length l).
Proof.
  induction l as [|[k c] l IH]; [reflexivity|].
  cbn [map all_traffic_types fold_right List.filter snd] in *.
  destruct (traffic_type c); simpl; cbn [length]; lia.
Qed.

Lemma dict_total_set (d : PyDict.t Z) k n :
  dict_total (PyDict.set d k n)
  = dict_total d + n
    - match PyDict.get d k with Some m => m | None => 0 end.
Proof.
  unfold dict_total. induction d as [|[k0 v0] d IH]; simpl; [lia|].
  destruct (String.eqb k k0); simpl; lia.
Qed.

Lemma interface_distribution_total (l : PyDict.t Connection) : ∀ d,
  dict_total (fold_left count_interface l d)
  = dict_total d + Z.of_nat (length l).
Proof.
  induction l as [|kc l IH]; intros d; simpl fold_left; [simpl; lia|].
  rewrite IH. unfold count_interface. rewrite dict_total_set.
  cbn [length]. lia.
Qed.

(** X8. The statistics add up: the counts by traffic class sum to the
    number of connections, and so do the counts by interface; in every
    state of the tracker the number of sticky sessions is at most the
    number of connections. *)
Theorem connection_stats_add_up P rules self :
  reachable P rules self →
  let stats := get_connection_stats self in
  dict_total (breakdown stats) = total_connections stats
  ∧ dict_total (distribution stats) = total_connections stats
  ∧ sticky_count stats <= total_connections stats.
Proof.
  intros Hreach. simpl. split; [|split].
  - rewrite <- (count_by_type (connections self)). reflexivity.
  - unfold interface_distribution. rewrite interface_distribution_total.
    reflexivity.
  - apply inj_le.
    pose proof (reachable_keys_NoDup _ _ _ Hreach) as Hnd.
    pose proof (sticky_sessions_tracked_keys P rules self Hreach) as Hsub.
    rewrite <- (length_map fst (connections self)).
    change (map fst (connections self)) with (PyDict.keys (connections self)).
    rewrite <- (size_list_to_set (C := gset string)) by done.
    apply subseteq_size. intros k Hk. apply elem_of_list_to_set, Hsub, Hk.
Qed.

Lemma connection_stats_add_up_witness :
  dict_total (breakdown (get_connection_stats Examples.tracker_with_stale))
  = total_connections (get_connection_stats Examples.tracker_with_stale).
Proof.
  apply (connection_stats_add_up (λ _, True) default_traffic_rules
           Examples.tracker_with_stale).
  apply reach_track; [apply reach_init|exact I].
Defined.

Lemma insert_desc_perm c l : Permutation (insert_desc c l) (c :: l).
Proof.
  induction l as [|y l IH]; simpl; [done|].
  destruct (Qlt_bool (last_seen c) (last_seen y)); [|done].
  rewrite IH. apply perm_swap.
Qed.

Lemma sort_last_seen_desc_perm l : Permutation (sort_last_seen_desc l) l.
Proof.
  induction l as [|c l IH]; simpl; [done|].
  rewrite insert_desc_perm. now constructor.
Qed.

Lemma Qlt_bool_iff x y : Qlt_bool x y = true ↔ (x < y)%Q.
Proof.
  unfold Qlt_bool. rewrite negb_true_iff, <- not_true_iff_false, Qle_bool_iff.
  split; [apply Qnot_le_lt|apply Qlt_not_le].
Qed.

Lemma insert_desc_sorted c l :
  StronglySorted (λ a b, (last_seen b <= last_seen a)%Q) l →
  StronglySorted (λ a b, (last_seen b <= last_seen a)%Q) (insert_desc c l).
Proof.
  induction 1 as [|y l Hl IH Hy]; simpl; [repeat constructor|].
  destruct (Qlt_bool (last_seen c) (last_seen y)) eqn:E.
  - apply Qlt_bool_iff in E. constructor; [done|].
    rewrite insert_desc_perm. constructor; [|done]. now apply Qlt_le_weak.
  - assert (Hyc : (last_seen y <= last_seen c)%Q).
    { apply Qnot_lt_le. rewrite <- Qlt_bool_iff. congruence. }
    constructor; [now constructor|]. constructor; [done|].
    eapply Forall_impl; [exact Hy|]. intros z Hz. simpl in Hz.
    now apply (Qle_trans _ (last_seen y)).
Qed.

(** X9. [get_active_connections] returns the stored connections, those
    of the given class when one is given, each as often as it is stored,
    the most recently seen first. *)
Theorem active_connections_sorted self ty :
  let all := map snd (connections self) in
  let wanted :=
    match ty with
    | Some t => List.filter (λ c, bool_decide (traffic_type c = t)) all
    | None => all
    end in
  Permutation (get_active_connections self ty) wanted
  ∧ StronglySorted (λ a b, (last_seen b <= last_seen a)%Q)
      (get_active_connections self ty)
  ∧ ∀ t, ty = Some t →
      Forall (λ c, traffic_type c = t) (get_active_connections self ty).
Proof.
  simpl. unfold get_active_connections. split; [|split].
  - apply sort_last_seen_desc_perm.
  - generalize (match ty with
                | Some t =>
                    List.filter (λ c, bool_decide (traffic_type c = t))
                      (map snd (connections self))
                | None => map snd (connections self)
                end).
    intros l. induction l as [|c l IH]; simpl; [constructor|].
    now apply insert_desc_sorted.
  - intros t ->. rewrite sort_last_seen_desc_perm.
    apply Forall_forall. intros c Hc%list_elem_of_In%filter_In.
    destruct Hc as [_ Hc]. now apply bool_decide_eq_true in Hc.
Qed.

(** X10. [apply_connection_mark] returns [True] exactly when the key
    is tracked and [nft] returned 0 for the rule of that connection; it
    returns [False] exactly when the key is not tracked or [nft] returned
    another code; it raises exactly when the key is tracked and [nft]
    could not be started. It changes the tracker only when it returns
    [True], and then only the mark of that connection: the keys, the
    sticky set and every other entry stay, so the sticky keys stay keys of
    the table. *)
Theorem apply_connection_mark_frame nft self k m :
  let out := apply_connection_mark nft self k m in
  (fst out = Some true
   ↔ ∃ c, PyDict.get (connections self) k = Some c
          ∧ nft ["nft"; mark_rule c m] = Some 0)
  ∧ (fst out = Some false
     ↔ PyDict.get (connections self) k = None
       ∨ ∃ c rc, PyDict.get (connections self) k = Some c
                 ∧ nft ["nft"; mark_rule c m] = Some rc ∧ rc ≠ 0)
  ∧ (fst out = None
     ↔ ∃ c, PyDict.get (connections self) k = Some c
            ∧ nft ["nft"; mark_rule c m] = None)
  ∧ (fst out ≠ Some true → snd out = self)
  ∧ (fst out = Some true →
     ∃ c, PyDict.get (connections self) k = Some c
          ∧ PyDict.get (connections (snd out)) k = Some (with_mark c m))
  ∧ PyDict.keys (connections (snd out)) = PyDict.keys (connections self)
  ∧ sticky_sessions (snd out) = sticky_sessions self
  ∧ (∀ k', k' ≠ k →
       PyDict.get (connections (snd out)) k'
       = PyDict.get (connections self) k')
  ∧ (sticky_tracked self → sticky_tracked (snd out)).
Proof.
  simpl. unfold apply_connection_mark.
  destruct (PyDict.get (connections self) k) as [c|] eqn:E.
  2: { split; [split; [done|intros (? & [=] & _)]|].
       split; [split; [auto|done]|].
       split; [split; [done|intros (? & [=] & _)]|].
       repeat split; done. }
  destruct (nft _) as [rc|] eqn:Hn.
  2: { split; [split; [done|intros (? & [= <-] & H); congruence]|].
       split; [split; [done|]|].
       { intros [[=]|(? & ? & [= <-] & H & _)]. congruence. }
       split; [split; [eauto|done]|].
       repeat split; done. }
  destruct (Z.eqb_spec rc 0) as [->|Hrc]; simpl.
  - split; [split; [eauto|done]|].
    split; [split; [done|]|].
    { intros [[=]|(? & ? & [= <-] & H & Hne)]. congruence. }
    split; [split; [done|intros (? & [= <-] & H); congruence]|].
    split; [done|].
    split; [intros _; exists c; now rewrite dict_get_set_eq|].
    split; [eapply dict_set_keys_present; eauto|]. split; [done|].
    split; [intros k' Hk'; now apply dict_get_set_ne|].
    intros Hinv k' Hk'. simpl. now apply dict_mem_set_mono, Hinv.
  - split; [split; [done|intros (? & [= <-] & H); congruence]|].
    split; [split; [intros _; right; eauto|done]|].
    split; [split; [done|intros (? & [= <-] & H); congruence]|].
    repeat split; done.
Qed.

End TrackerMore.

(** * Further properties of the health monitor *)

Section MonitorMoreFacts.
Import Monitor MonitorMore Ping.

Lemma failed_probe_verdict c msg :
  verdict c (failed_probe msg) = FAILED.
Proof. reflexivity. Qed.

(** X11. Every failure of the probe is reported as latency 0 and
    100 % loss with a message, so its verdict is FAILED whatever the
    limits: a time-out, any other error, a non-zero return code and, after
    a return code 0, an output without a ['packet loss'] line, a loss that
    does not parse and a latency that does not parse. Only a ping that
    returned 0 and whose loss and latency parse gives a result without a
    message, and that result carries the two numbers parsed. *)
Theorem ping_failure_is_total_loss float run c :
  let p := _run_ping_test float run in
  (probe_error p ≠ "" →
   probe_latency p = 0%Q ∧ probe_loss p = 100%Q ∧ verdict c p = FAILED)
  ∧ (probe_error p = "" → ∃ out err, run = PingDone 0 out err)
  ∧ (run = PingTimeout → p = failed_probe "Ping timeout")
  ∧ (∀ msg, run = PingRaised msg → p = failed_probe ("Ping error: " +:+ msg))
  ∧ (∀ rc out err, run = PingDone rc out err → rc ≠ 0 →
     p = failed_probe ("Ping failed: " +:+ err))
  ∧ ∀ out err, run = PingDone 0 out err →
      let lines := Detector.split_char "010" (Detector.strip out) in
      (List.find (contains "packet loss") lines = None →
       p = failed_probe "Could not parse ping output")
      ∧ ∀ stats_line,
          List.find (contains "packet loss") lines = Some stats_line →
          (∀ msg, parse_loss float stats_line = inr msg →
             p = failed_probe ("Ping error: " +:+ msg))
          ∧ ∀ loss, parse_loss float stats_line = inl loss →
              (∀ msg, parse_latency float lines = inr msg →
                 p = failed_probe ("Ping error: " +:+ msg))
              ∧ ∀ lat, parse_latency float lines = inl lat →
                  p = mkProbe lat loss "".
Proof.
  simpl. unfold _run_ping_test.
  destruct run as [|msg|rc out err].
  - repeat split; try done; discriminate.
  - split; [done|]. split; [done|]. split; [done|].
    split; [now intros ? [= <-]|]. split; [done|]. done.
  - destruct (Z.eqb_spec rc 0) as [->|Hrc]; simpl.
    + split.
      { destruct (List.find _ _) as [stats_line|]; [|done].
        destruct (parse_loss float stats_line) as [loss|msg]; [|done].
        destruct (parse_latency float _) as [lat|msg]; done. }
      split; [eauto|]. split; [done|]. split; [done|].
      split; [intros ? ? ? [= <- _ _]; done|].
      intros ? ? [= <- <-].
      destruct (List.find _ _) as [stats_line|]; [|done].
      split; [done|]. intros ? [= <-].
      destruct (parse_loss float stats_line) as [loss|msg].
      * split; [done|]. intros ? [= <-].
        destruct (parse_latency float _) as [lat|msg].
        -- split; [done|]. now intros ? [= <-].
        -- split; [now intros ? [= <-]|done].
      * split; [now intros ? [= <-]|done].
    + split; [done|]. split; [done|]. split; [done|]. split; [done|].
      split; [intros ? ? ? [= _ _ <-]; done|].
      intros ? ? [= -> _ _]. done.
Qed.

(** The loop body raises nothing of its own: it returns, or it lets
    through what the work put before [_reconfigure_routing] raised in a
    failover. *)
Lemma monitor_interface_outcome host pre self iface now now' p info :
  monitor_inv self →
  PyDict.get (interfaces self) iface = Some info →
  fst (monitor_interface (bound_reconfigure_routing host pre) self iface now
         now' p) = Return tt
  ∨ ∃ e s,
      pre s = Some e
      ∧ fst (monitor_interface (bound_reconfigure_routing host pre) self
               iface now now' p) = Raise e
      ∧ enabled info = true.
Proof.
  intros Hinv E. unfold monitor_interface. rewrite E.
  destruct (enabled info) eqn:Hen; simpl.
  - pose proof (check_interface_health_inv self iface now p Hinv) as Hinv1.
    revert Hinv1. unfold _check_interface_health. rewrite E. simpl.
    intros Hinv1. unfold _should_trigger_failover. simpl.
    rewrite dict_get_set_eq. simpl.
    match goal with
    | |- context [_trigger_failover _ ?s iface] => set (self1 := s) in *
    end.
    assert (Hfail :
              fst (_trigger_failover (bound_reconfigure_routing host pre)
                     self1 iface) = Return tt
              ∨ ∃ e s,
                  pre s = Some e
                  ∧ fst (_trigger_failover
                           (bound_reconfigure_routing host pre) self1 iface)
                    = Raise e
                  ∧ true = true).
    { destruct (trigger_failover_cases host pre self1 iface
                  (count_verdict (count_check info now)
                     (verdict (cfg self) p)) Hinv1)
        as (r & self2 & _ & _ & _ & Hcase).
      { subst self1. cbn [interfaces]. apply dict_get_set_eq. }
      destruct (pre self2) as [e|] eqn:Hpre; rewrite Hcase; [|now left].
      right. exists e, self2. done. }
    destruct (_ >=? _); [done|]. destruct (bool_decide _); [done|].
    now left.
  - left. unfold _check_recovery. rewrite E, Hen.
    destruct (Qlt_bool _ _); [done|].
    unfold _check_interface_health. simpl. rewrite dict_get_set_eq. simpl.
    destruct (bool_decide _); [done|]. simpl. now rewrite dict_get_set_eq.
Qed.

Lemma monitor_interface_ok host pre self iface now now' p info :
  monitor_inv self →
  PyDict.get (interfaces self) iface = Some info →
  (∀ s, pre s = None) →
  fst (monitor_interface (bound_reconfigure_routing host pre) self iface now
         now' p) = Return tt.
Proof.
  intros Hinv E Hpre.
  destruct (monitor_interface_outcome host pre self iface now now' p info
              Hinv E) as [H|(e & s & Hs & _)]; [done|].
  rewrite Hpre in Hs. discriminate Hs.
Qed.

(** X12. In every state of the monitor the body of the monitoring loop
    raises nothing of its own for an interface of the monitor. It returns
    when [_reconfigure_routing] is the method of the class, and whenever
    the interface is disabled; when it raises, the interface was enabled
    and the exception is one that the work put before the method of the
    class raised. *)
Theorem monitor_interface_returns host pre self iface now now' p info :
  reachable self →
  PyDict.get (interfaces self) iface = Some info →
  let out :=
    monitor_interface (bound_reconfigure_routing host pre) self iface now
      now' p in
  ((∀ s, pre s = None) → fst out = Return tt)
  ∧ (enabled info = false → fst out = Return tt)
  ∧ (fst out = Return tt
     ∨ ∃ e s, pre s = Some e ∧ fst out = Raise e ∧ enabled info = true).
Proof.
  intros Hinv%reachable_inv E. cbv zeta.
  pose proof (monitor_interface_outcome host pre self iface now now' p info
                Hinv E) as Hout.
  split; [now apply (monitor_interface_ok host pre self iface now now' p
                       info)|].
  split; [|done].
  intros Hdis. destruct Hout as [H|(e & s & _ & _ & Hen)]; [done|].
  congruence.
Qed.

Lemma monitor_interface_returns_witness :
  fst (monitor_interface
         (bound_reconfigure_routing Examples.host_ok (λ _, None))
         Examples.fresh_monitor "eth0" 5 5 Examples.lost_probe) = Return tt.
Proof.
  refine (proj1 (monitor_interface_returns Examples.host_ok (λ _, None)
                   Examples.fresh_monitor "eth0" 5 5 Examples.lost_probe
                   (mkIfaceInfo (mkIfaceConfig "eth0" "192.168.100.1" 2)
                      true 0 0 0 0 0 None) _ _) _).
  - apply reach_init.
  - reflexivity.
  - intros s. reflexivity.
Defined.

Lemma check_recovery_due self iface now now' p info :
  PyDict.get (interfaces self) iface = Some info →
  enabled info = false →
  (recovery_interval (cfg self)
   <= now - match last_recovery_check info with Some t => t | None => 0 end)%Q →
  let out := _check_recovery self iface now now' p in
  let recovered := bool_decide (verdict (cfg self) p = HEALTHY) in
  fst out = Return recovered
  ∧ commands (snd out) = commands self
  ∧ ∃ info' r,
      PyDict.get (interfaces (snd out)) iface = Some info'
      ∧ enabled info' = recovered
      ∧ last_recovery_check info' = Some now
      ∧ total_checks info' = total_checks info + 1
      ∧ PyDict.get (health_results (snd out)) iface = Some r
      ∧ status r = verdict (cfg self) p.
Proof.
  intros E Hen Hdue. simpl. unfold _check_recovery. rewrite E, Hen.
  assert (Hlt : Qlt_bool
                  (now - match last_recovery_check info with
                         | Some t => t | None => 0 end)
                  (recovery_interval (cfg self)) = false).
  { apply not_true_iff_false. rewrite Qlt_bool_iff. now apply Qle_not_lt. }
  rewrite Hlt. unfold _check_interface_health. simpl.
  rewrite dict_get_set_eq. simpl.
  destruct (bool_decide (verdict (cfg self) p = HEALTHY)) eqn:Ev; simpl.
  - split; [done|]. split; [done|]. rewrite !dict_get_set_eq.
    eexists _, _. repeat split; try reflexivity;
      destruct (verdict (cfg self) p); done.
  - rewrite dict_get_set_eq. simpl. split; [done|]. split; [done|].
    rewrite !dict_get_set_eq. eexists _, _. repeat split; try reflexivity;
      destruct (verdict (cfg self) p); done.
Qed.

(** X13. A recovery test that is due on a disabled interface runs one
    health check and returns [True] exactly when its verdict is HEALTHY;
    the interface is enabled again in that case only, the time of the
    attempt is recorded, and no command is run: the default route is not
    rebuilt by a recovery. *)
Theorem check_recovery_attempt self iface now now' p info :
  PyDict.get (interfaces self) iface = Some info →
  enabled info = false →
  (recovery_interval (cfg self)
   <= now - match last_recovery_check info with Some t => t | None => 0 end)%Q →
  let out := _check_recovery self iface now now' p in
  let recovered := bool_decide (verdict (cfg self) p = HEALTHY) in
  fst out = Return recovered
  ∧ commands (snd out) = commands self
  ∧ ∃ info' r,
      PyDict.get (interfaces (snd out)) iface = Some info'
      ∧ enabled info' = recovered
      ∧ last_recovery_check info' = Some now
      ∧ total_checks info' = total_checks info + 1
      ∧ PyDict.get (health_results (snd out)) iface = Some r
      ∧ status r = verdict (cfg self) p.
Proof. apply check_recovery_due. Qed.

Lemma check_recovery_attempt_witness :
  fst (_check_recovery
         (snd (manual_interface_control Examples.fresh_monitor "eth0"
                 "disable"))
         "eth0" 100 100 Examples.good_probe)
  = Return (bool_decide
              (verdict (cfg Examples.fresh_monitor) Examples.good_probe
               = HEALTHY)).
Proof.
  apply (check_recovery_attempt
           (snd (manual_interface_control Examples.fresh_monitor "eth0"
                   "disable"))
           "eth0" 100 100 Examples.good_probe
           (mkIfaceInfo (mkIfaceConfig "eth0" "192.168.100.1" 2)
              false 0 0 0 0 0 None)).
  - reflexivity.
  - reflexivity.
  - vm_compute. discriminate.
Defined.

(** X14. [_check_recovery] leaves the monitor as it is and returns
    [False] for an interface that is enabled, and for a disabled one whose
    last attempt is less than [recovery_interval] old; so after an attempt
    at time [now] that did not recover the interface, nothing is tried
    before [now + recovery_interval]. *)
Theorem check_recovery_waits self iface now now' p info :
  PyDict.get (interfaces self) iface = Some info →
  (enabled info = true
   ∨ (now - match last_recovery_check info with Some t => t | None => 0 end
      < recovery_interval (cfg self))%Q →
   _check_recovery self iface now now' p = (Return false, self))
  ∧ (enabled info = false →
     (recovery_interval (cfg self)
      <= now - match last_recovery_check info with
               | Some t => t | None => 0 end)%Q →
     verdict (cfg self) p ≠ HEALTHY →
     ∀ later later' p',
       (later - now < recovery_interval (cfg self))%Q →
       _check_recovery (snd (_check_recovery self iface now now' p)) iface
         later later' p'
       = (Return false, snd (_check_recovery self iface now now' p))).
Proof.
  intros E. split.
  - intros [Hen|Hearly]; unfold _check_recovery; rewrite E.
    + now rewrite Hen.
    + destruct (enabled info); [done|].
      apply Qlt_bool_iff in Hearly. now rewrite Hearly.
  - intros Hen Hdue Hv later later' p' Hearly.
    destruct (check_recovery_due self iface now now' p info E Hen Hdue)
      as (_ & _ & info' & r & E' & Hen' & Hlast & _).
    assert (Hcfg : cfg (snd (_check_recovery self iface now now' p))
                   = cfg self).
    { unfold _check_recovery. rewrite E, Hen.
      destruct (Qlt_bool _ _); [done|].
      unfold _check_interface_health. simpl. rewrite dict_get_set_eq. simpl.
      destruct (bool_decide _); [done|]. simpl.
      now rewrite dict_get_set_eq. }
    revert E' Hcfg.
    generalize (snd (_check_recovery self iface now now' p)).
    intros self' E' Hcfg. unfold _check_recovery. rewrite E', Hen'.
    rewrite (bool_decide_eq_false_2 _ Hv), Hlast, Hcfg.
    apply Qlt_bool_iff in Hearly. now rewrite Hearly.
Qed.

Lemma check_recovery_waits_witness :
  _check_recovery Examples.fresh_monitor "eth0" 5 5 Examples.good_probe
  = (Return false, Examples.fresh_monitor).
Proof.
  apply (proj1 (check_recovery_waits Examples.fresh_monitor "eth0" 5 5
                  Examples.good_probe
                  (mkIfaceInfo (mkIfaceConfig "eth0" "192.168.100.1" 2)
                     true 0 0 0 0 0 None) eq_refl)).
  left. reflexivity.
Defined.

(** X15. [manual_interface_control] returns [False] and changes
    nothing for an interface it does not know and for an action other
    than ["disable"] and ["enable"]. In every state of the monitor, a
    known interface is disabled with status FAILED by ["disable"] and
    enabled with status TESTING by ["enable"]; either way no command is
    run, and the interface is not among the enabled and healthy ones
    after the call. *)
Theorem manual_interface_control_effect self iface action :
  reachable self →
  let out := manual_interface_control self iface action in
  commands (snd out) = commands self
  ∧ (PyDict.get (interfaces self) iface = None
     ∨ (action ≠ "disable" ∧ action ≠ "enable") →
     out = (Return false, self))
  ∧ ∀ info, PyDict.get (interfaces self) iface = Some info →
      action = "disable" ∨ action = "enable" →
      fst out = Return true
      ∧ (∃ r, PyDict.get (interfaces (snd out)) iface
              = Some (set_enabled info (String.eqb action "enable"))
              ∧ PyDict.get (health_results (snd out)) iface = Some r
              ∧ status r = if String.eqb action "enable" then TESTING
                           else FAILED)
      ∧ ∀ info', (iface, info') ∉ healthy_enabled (snd out).
Proof.
  intros Hreach. simpl.
  pose proof (reachable_inv _ Hreach) as Hinv.
  pose proof (manual_interface_control_inv self iface action Hinv) as Hinv'.
  revert Hinv'. unfold manual_interface_control.
  destruct (PyDict.get (interfaces self) iface) as [info|] eqn:E.
  2:{ intros _. split; [done|]. split; [done|]. intros ? [=]. }
  assert (Hmem : ∃ r, PyDict.get (health_results self) iface = Some r).
  { destruct Hinv as (_ & Hres & _). rewrite Forall_forall in Hres.
    assert (Hk : PyDict.mem (health_results self) iface = true)
      by (apply Hres; eapply dict_elem_key, dict_get_elem, E).
    unfold PyDict.mem in Hk.
    destruct (PyDict.get (health_results self) iface); [eauto|done]. }
  destruct Hmem as [r Er]. cbn [health_results set_interfaces]. rewrite Er.
  destruct (String.eqb_spec action "disable") as [->|Hd].
  - simpl. intros Hinv'. split; [done|]. split; [intros [[=]|[? _]]; done|].
    intros ? [= <-] _. split; [done|]. rewrite !dict_get_set_eq.
    split; [eauto|]. intros info' Hin.
    apply healthy_enabled_spec in Hin as (H1 & H2 & _); [|done].
    simpl in H1. rewrite dict_get_set_eq in H1. injection H1 as <-. done.
  - destruct (String.eqb_spec action "enable") as [->|He].
    + simpl. intros Hinv'. split; [done|].
      split; [intros [[=]|[_ ?]]; done|].
      intros ? [= <-] _. split; [done|]. rewrite !dict_get_set_eq.
      split; [eauto|]. intros info' Hin.
      apply healthy_enabled_spec in Hin as (_ & _ & r' & H3 & H4); [|done].
      simpl in H3. rewrite dict_get_set_eq in H3. injection H3 as <-. done.
    + intros _. split; [done|]. split; [done|]. intros ? _ [?|?]; done.
Qed.

Lemma manual_interface_control_effect_witness :
  commands (snd (manual_interface_control Examples.monitor_both_healthy
                   "eth1" "disable"))
  = commands Examples.monitor_both_healthy.
Proof.
  apply (manual_interface_control_effect Examples.monitor_both_healthy
           "eth1" "disable").
  apply reach_check, reach_check, reach_init.
Defined.

Lemma degraded_below_threshold host pre self iface now now' p info :
  PyDict.get (interfaces self) iface = Some info →
  enabled info = true →
  verdict (cfg self) p = DEGRADED →
  consecutive_failures info + 1 < retry_count (cfg self) →
  ∃ self1 info1,
    monitor_interface (bound_reconfigure_routing host pre) self iface now
      now' p = (Return tt, self1)
    ∧ cfg self1 = cfg self
    ∧ commands self1 = commands self
    ∧ PyDict.get (interfaces self1) iface = Some info1
    ∧ enabled info1 = true
    ∧ consecutive_failures info1 = consecutive_failures info + 1.
Proof.
  intros E Hen Hv Hlt. unfold monitor_interface. rewrite E, Hen. simpl.
  unfold _check_interface_health. rewrite E, Hv.
  unfold _should_trigger_failover. simpl. rewrite dict_get_set_eq. simpl.
  destruct (Z.geb_spec (consecutive_failures info + 1)
              (retry_count (cfg self))); [lia|].
  eexists _, _. split; [reflexivity|]. simpl. rewrite dict_get_set_eq.
  repeat split; done.
Qed.

Lemma degraded_at_threshold host pre self iface now now' p info :
  PyDict.get (interfaces self) iface = Some info →
  enabled info = true →
  verdict (cfg self) p = DEGRADED →
  retry_count (cfg self) <= consecutive_failures info + 1 →
  ∃ info2 r2,
    PyDict.get
      (interfaces
         (snd (monitor_interface (bound_reconfigure_routing host pre) self
                 iface now now' p)))
      iface = Some info2
    ∧ enabled info2 = false
    ∧ PyDict.get
        (health_results
           (snd (monitor_interface (bound_reconfigure_routing host pre) self
                   iface now now' p)))
        iface = Some r2
    ∧ status r2 = FAILED.
Proof.
  intros E Hen Hv Hge. unfold monitor_interface. rewrite E, Hen. simpl.
  unfold _check_interface_health. rewrite E, Hv.
  unfold _should_trigger_failover. simpl. rewrite dict_get_set_eq. simpl.
  destruct (Z.geb_spec (consecutive_failures info + 1)
              (retry_count (cfg self))); [|lia].
  unfold _trigger_failover. simpl. rewrite dict_get_set_eq. simpl.
  rewrite dict_get_set_eq.
  match goal with
  | |- context [bound_reconfigure_routing host pre ?s] =>
      destruct (bound_reconfigure_routing_dicts host pre s) as (D1 & D2 & _);
      destruct (bound_reconfigure_routing host pre s) as [[u|e] s3]
  end; simpl in *; rewrite D1, D2, !dict_get_set_eq;
    eexists _, _; repeat split; reflexivity.
Qed.

Lemma degraded_run host pre samples : ∀ self iface info,
  PyDict.get (interfaces self) iface = Some info →
  enabled info = true →
  Forall (λ s, verdict (cfg self) (snd s) = DEGRADED) samples →
  consecutive_failures info + Z.of_nat (length samples)
  < retry_count (cfg self) →
  ∃ info',
    PyDict.get
      (interfaces
         (monitor_repeatedly (bound_reconfigure_routing host pre) self iface
            samples))
      iface = Some info'
    ∧ enabled info' = true
    ∧ consecutive_failures info'
      = consecutive_failures info + Z.of_nat (length samples)
    ∧ cfg (monitor_repeatedly (bound_reconfigure_routing host pre) self iface
             samples) = cfg self
    ∧ commands
        (monitor_repeatedly (bound_reconfigure_routing host pre) self iface
           samples) = commands self.
Proof.
  induction samples as [|[now p] samples IH]; intros self iface info E Hen Hs Hlt.
  - simpl. exists info. repeat split; [done|done|lia].
  - apply Forall_cons in Hs as [Hp Hs]. simpl in Hp.
    cbn [length] in Hlt. cbn [monitor_repeatedly].
    destruct (degraded_below_threshold host pre self iface now now p info E Hen
                Hp)
      as (self1 & info1 & -> & Hc & Hcmd & E1 & Hen1 & Hcf1); [lia|].
    cbn [snd]. rewrite <- Hc in Hs.
    destruct (IH self1 iface info1 E1 Hen1 Hs)
      as (info' & E' & Hen' & Hcf' & Hc' & Hcmd'); [rewrite Hc; lia|].
    exists info'. repeat split; try done; try congruence.
    cbn [length]. lia.
Qed.

(** X16. An enabled interface whose samples are all DEGRADED stays
    enabled, with one more consecutive failure per sample and no command
    run, as long as the count is below [retry_count]; the sample that
    brings the count to [retry_count] disables it with status FAILED. *)
Theorem degraded_failover_threshold host pre self iface samples info :
  PyDict.get (interfaces self) iface = Some info →
  enabled info = true →
  Forall (λ s, verdict (cfg self) (snd s) = DEGRADED) samples →
  consecutive_failures info + Z.of_nat (length samples)
  < retry_count (cfg self) →
  let self' :=
    monitor_repeatedly (bound_reconfigure_routing host pre) self iface
      samples in
  (∃ info',
     PyDict.get (interfaces self') iface = Some info'
     ∧ enabled info' = true
     ∧ consecutive_failures info'
       = consecutive_failures info + Z.of_nat (length samples)
     ∧ commands self' = commands self)
  ∧ ∀ now p,
      verdict (cfg self) p = DEGRADED →
      retry_count (cfg self)
      <= consecutive_failures info + Z.of_nat (length samples) + 1 →
      ∃ info2 r2,
        PyDict.get
          (interfaces
             (snd (monitor_interface (bound_reconfigure_routing host pre)
                     self' iface now now p)))
          iface = Some info2
        ∧ enabled info2 = false
        ∧ PyDict.get
            (health_results
               (snd (monitor_interface (bound_reconfigure_routing host pre)
                       self' iface now now p)))
            iface = Some r2
        ∧ status r2 = FAILED.
Proof.
  intros E Hen Hs Hlt. simpl.
  destruct (degraded_run host pre samples self iface info E Hen Hs Hlt)
    as (info' & E' & Hen' & Hcf' & Hc' & Hcmd').
  split; [eauto|]. intros now p Hp Hge.
  apply (degraded_at_threshold host pre _ iface now now p info');
    try done; rewrite ?Hc'; [done|lia].
Qed.

Lemma degraded_failover_threshold_witness :
  ∃ info',
    PyDict.get
      (interfaces
         (monitor_repeatedly
            (bound_reconfigure_routing Examples.host_ok (λ _, None))
            Examples.fresh_monitor "eth0"
            [(5%Q, MoreExamples.slow_probe); (10%Q, MoreExamples.slow_probe)]))
      "eth0" = Some info'
    ∧ enabled info' = true
    ∧ consecutive_failures info' = 0 + Z.of_nat 2
    ∧ commands
        (monitor_repeatedly
           (bound_reconfigure_routing Examples.host_ok (λ _, None))
           Examples.fresh_monitor "eth0"
           [(5%Q, MoreExamples.slow_probe); (10%Q, MoreExamples.slow_probe)])
      = commands Examples.fresh_monitor.
Proof.
  apply (degraded_failover_threshold Examples.host_ok (λ _, None)
           Examples.fresh_monitor "eth0"
           [(5%Q, MoreExamples.slow_probe); (10%Q, MoreExamples.slow_probe)]
           (mkIfaceInfo (mkIfaceConfig "eth0" "192.168.100.1" 2)
              true 0 0 0 0 0 None)).
  - reflexivity.
  - reflexivity.
  - repeat constructor.
  - vm_compute. reflexivity.
Defined.

Lemma dict_mem_of_keys {A B} (d1 : PyDict.t A) (d2 : PyDict.t B) k :
  PyDict.keys d1 = PyDict.keys d2 → PyDict.mem d1 k = PyDict.mem d2 k.
Proof.
  intros Hk. apply eq_true_iff_eq. rewrite !dict_mem_key. now rewrite Hk.
Qed.

Lemma dict_get_of_keys {A B} (d1 : PyDict.t A) (d2 : PyDict.t B) k v :
  PyDict.keys d1 = PyDict.keys d2 → PyDict.get d2 k = Some v →
  ∃ w, PyDict.get d1 k = Some w.
Proof.
  intros Hk E. pose proof (dict_mem_of_keys d1 d2 k Hk) as Hm.
  unfold PyDict.mem in Hm. rewrite E in Hm.
  destruct (PyDict.get d1 k); [eauto|done].
Qed.

Lemma same_keys_set_both self c k info r cmds evs :
  same_keys self →
  same_keys
    (mkMonitor c (PyDict.set (interfaces self) k info)
       (PyDict.set (health_results self) k r) cmds evs).
Proof.
  unfold same_keys. simpl. intros Hk. rewrite !dict_keys_set, Hk.
  now rewrite (dict_mem_of_keys _ _ k Hk).
Qed.

Lemma same_keys_set_info self k info0 info :
  same_keys self → PyDict.get (interfaces self) k = Some info0 →
  same_keys (set_interfaces self (PyDict.set (interfaces self) k info)).
Proof.
  unfold same_keys. simpl. intros Hk E.
  now rewrite (dict_set_keys_present _ _ _ _ E).
Qed.

Lemma same_keys_set_result self k r0 r :
  same_keys self → PyDict.get (health_results self) k = Some r0 →
  same_keys
    (set_health_results self (PyDict.set (health_results self) k r)).
Proof.
  unfold same_keys. simpl. intros Hk E.
  now rewrite (dict_set_keys_present _ _ _ _ E).
Qed.

Lemma check_interface_health_same_keys self iface now p :
  same_keys self → same_keys (snd (_check_interface_health self iface now p)).
Proof.
  intros Hk. unfold _check_interface_health.
  destruct (PyDict.get (interfaces self) iface); [|done].
  simpl. now apply same_keys_set_both.
Qed.

Lemma reachable_same_keys self : reachable self → same_keys self.
Proof.
  induction 1 as [c now|self iface now p _ IH|host pre self iface _ IH
                  |host self _ IH|self iface now now' p _ IH
                  |self iface action _ IH].
  - unfold init, _initialize_health_tracking. simpl.
    assert (H0 : same_keys (mkMonitor c [] [] [] [])) by done.
    revert H0. generalize (mkMonitor c [] [] [] []).
    induction (cfg_interfaces c) as [|i l IHl]; simpl; intros self H; [done|].
    apply IHl. unfold initialize_one. now apply same_keys_set_both.
  - now apply check_interface_health_same_keys.
  - unfold _trigger_failover.
    destruct (PyDict.get (interfaces self) iface) as [info|] eqn:E; [|done].
    pose proof (same_keys_set_info self iface info (set_enabled info false)
                  IH E) as H1.
    destruct (PyDict.get (health_results _) iface) as [r|] eqn:Er; [|done].
    pose proof (same_keys_set_result _ iface r (set_status r FAILED) H1 Er)
      as H2.
    match goal with
    | |- context [bound_reconfigure_routing host pre ?s] =>
        destruct (bound_reconfigure_routing_dicts host pre s) as (D1 & D2 & _);
        destruct (bound_reconfigure_routing host pre s) as [[u|e] s3]
    end; simpl in *; unfold same_keys in *; simpl; now rewrite D1, D2.
  - destruct (reconfigure_routing_dicts host self) as (D1 & D2 & _).
    unfold same_keys in *. now rewrite D1, D2.
  - unfold _check_recovery.
    destruct (PyDict.get (interfaces self) iface) as [info|] eqn:E; [|done].
    destruct (enabled info); [done|]. destruct (Qlt_bool _ _); [done|].
    match goal with
    | |- context [_check_interface_health ?s iface now' p] =>
        assert (H1 : same_keys s)
          by (now apply (same_keys_set_info self iface info));
        pose proof (check_interface_health_same_keys s iface now' p H1) as H2;
        destruct (_check_interface_health s iface now' p) as [[r|e] s2]
    end; simpl in *; [|done].
    destruct (bool_decide _); simpl; [done|].
    destruct (PyDict.get (interfaces s2) iface) as [info2|] eqn:E2; [|done].
    simpl. now apply (same_keys_set_info s2 iface info2).
  - unfold manual_interface_control.
    destruct (PyDict.get (interfaces self) iface) as [info|] eqn:E; [|done].
    assert (Hb : ∀ b, same_keys
                   (set_interfaces self
                      (PyDict.set (interfaces self) iface
                         (set_enabled info b))))
      by (intros b; now apply (same_keys_set_info self iface info)).
    destruct (String.eqb action "disable");
      [|destruct (String.eqb action "enable"); [|done]];
      (destruct (PyDict.get (health_results _) iface) as [r|] eqn:Er;
       [|apply Hb]); simpl;
      match goal with
      | |- same_keys (_log_event (set_health_results ?s _) _ _) =>
          exact (same_keys_set_result s iface r _ (Hb _) Er)
      end.
Qed.

(** X17. In every state of the monitor the status report counts at most
    as many healthy interfaces as there are interfaces; it says
    ["healthy"] exactly when some interface has status HEALTHY and
    ["failed"] otherwise; it says ["healthy"] whenever the default route
    has a nexthop to offer. *)
Theorem system_status_counts self :
  reachable self →
  let st := get_system_status self in
  0 <= healthy_interfaces st <= total_interfaces st
  ∧ (system_health st = "healthy"
     ↔ ∃ k r, (k, r) ∈ health_results self ∧ status r = HEALTHY)
  ∧ (system_health st ≠ "healthy" → system_health st = "failed")
  ∧ (healthy_enabled self ≠ [] → system_health st = "healthy").
Proof.
  intros Hreach. simpl.
  pose proof (reachable_same_keys self Hreach) as Hk.
  pose proof (reachable_inv self Hreach) as Hinv.
  set (l := List.filter (λ kr, bool_decide (status (snd kr) = HEALTHY))
              (health_results self)).
  assert (Hsome : (Z.of_nat (length l) >? 0) = true
                  ↔ ∃ k r, (k, r) ∈ health_results self
                           ∧ status r = HEALTHY).
  { rewrite Z.gtb_ltb, Z.ltb_lt. split.
    - intros Hpos. destruct l as [|[k r] l'] eqn:El; [simpl in Hpos; lia|].
      assert (Hin : In (k, r) l) by (rewrite El; now left).
      apply filter_In in Hin as [Hin Hst]. exists k, r.
      split; [now apply list_elem_of_In|now apply bool_decide_eq_true in Hst].
    - intros (k & r & Hin & Hst).
      assert (Hl : In (k, r) l).
      { apply filter_In. split; [now apply list_elem_of_In|].
        now apply bool_decide_eq_true. }
      destruct l; [done|]. simpl. lia. }
  split; [|split; [|split]].
  - split; [lia|]. apply inj_le.
    transitivity (length (health_results self)); [apply filter_length_le|].
    rewrite <- (length_map fst (health_results self)).
    rewrite <- (length_map fst (interfaces self)).
    unfold same_keys, PyDict.keys in Hk. now rewrite Hk.
  - rewrite <- Hsome. destruct (_ >? 0); split; done.
  - destruct (_ >? 0); done.
  - intros Hne. assert (Hyes : (Z.of_nat (length l) >? 0) = true);
      [|now rewrite Hyes].
    apply Hsome. destruct (healthy_enabled self) as [|[k info] sel] eqn:E;
      [done|].
    assert (Hin : (k, info) ∈ healthy_enabled self)
      by (rewrite E; apply elem_of_cons; now left).
    apply healthy_enabled_spec in Hin as (_ & _ & r & Hr & Hst); [|done].
    exists k, r. split; [now apply dict_get_elem|done].
Qed.

Lemma system_status_counts_witness :
  0 <= healthy_interfaces (get_system_status Examples.monitor_both_healthy)
    <= total_interfaces (get_system_status Examples.monitor_both_healthy).
Proof.
  apply (system_status_counts Examples.monitor_both_healthy).
  apply reach_check, reach_check, reach_init.
Defined.

Lemma trigger_failover_interfaces host pre self iface info :
  PyDict.get (interfaces self) iface = Some info →
  interfaces
    (snd (_trigger_failover (bound_reconfigure_routing host pre) self iface))
  = PyDict.set (interfaces self) iface (set_enabled info false).
Proof.
  intros E. unfold _trigger_failover. rewrite E.
  destruct (PyDict.get (health_results _) iface); [|done].
  match goal with
  | |- context [bound_reconfigure_routing host pre ?s] =>
      destruct (bound_reconfigure_routing_dicts host pre s) as (D1 & _);
      destruct (bound_reconfigure_routing host pre s) as [[u|e] s3]
  end; simpl in *; now rewrite D1.
Qed.

(** The loop body touches the entry of its interface only; it counts
    at most one check, and one when the interface is enabled. *)
Lemma monitor_interface_entries host pre self iface now now' p :
  (∀ k, k ≠ iface →
     PyDict.get
       (interfaces
          (snd (monitor_interface (bound_reconfigure_routing host pre) self
                  iface now now' p))) k
     = PyDict.get (interfaces self) k)
  ∧ ∀ info, PyDict.get (interfaces self) iface = Some info →
      ∃ info',
        PyDict.get
          (interfaces
             (snd (monitor_interface (bound_reconfigure_routing host pre)
                     self iface now now' p))) iface = Some info'
        ∧ total_checks info <= total_checks info' <= total_checks info + 1
        ∧ (enabled info = true →
           total_checks info' = total_checks info + 1).
Proof.
  unfold monitor_interface.
  destruct (PyDict.get (interfaces self) iface) as [info|] eqn:E;
    [|split; [done|intros ? [=]]].
  destruct (enabled info) eqn:Hen; simpl.
  - unfold _check_interface_health. rewrite E. simpl.
    destruct (_should_trigger_failover _ iface) as [[|]|e]; simpl.
    + rewrite (trigger_failover_interfaces _ _ _ _
                 (count_verdict (count_check info now) (verdict (cfg self) p)))
        by apply dict_get_set_eq.
      simpl. split.
      * intros k Hk. now rewrite !dict_get_set_ne.
      * intros ? [= <-]. rewrite dict_get_set_eq. eexists.
        split; [reflexivity|]. destruct (verdict (cfg self) p); simpl; lia.
    + split; [intros k Hk; now rewrite dict_get_set_ne|].
      intros ? [= <-]. rewrite dict_get_set_eq. eexists.
      split; [reflexivity|]. destruct (verdict (cfg self) p); simpl; lia.
    + split; [intros k Hk; now rewrite dict_get_set_ne|].
      intros ? [= <-]. rewrite dict_get_set_eq. eexists.
      split; [reflexivity|]. destruct (verdict (cfg self) p); simpl; lia.
  - unfold _check_recovery. rewrite E, Hen.
    destruct (Qlt_bool _ _);
      [split; [done|]; intros ? [= <-]; exists info; cbn [snd];
       split; [done|]; split; [lia|congruence]|].
    unfold _check_interface_health. simpl. rewrite dict_get_set_eq. simpl.
    destruct (bool_decide _); simpl.
    + split; [intros k Hk; now rewrite !dict_get_set_ne|].
      intros ? [= <-]. rewrite dict_get_set_eq. eexists.
      split; [reflexivity|]. split; [|congruence].
      destruct (verdict (cfg self) p); simpl; lia.
    + rewrite dict_get_set_eq. simpl.
      split; [intros k Hk; now rewrite !dict_get_set_ne|].
      intros ? [= <-]. rewrite dict_get_set_eq. eexists.
      split; [reflexivity|]. split; [|congruence].
      destruct (verdict (cfg self) p); simpl; lia.
Qed.

(** A pass checks no interface twice, and stops only where the work put
    before [_reconfigure_routing] raises. *)
Lemma monitoring_pass_general host pre clock clock' ping ks : ∀ self,
  reachable self → NoDup ks →
  (∀ k, k ∈ ks → PyDict.mem (interfaces self) k = true) →
  let self' :=
    monitoring_pass (λ k, bound_reconfigure_routing host (pre k)) ks clock
      clock' ping self in
  (∀ k, k ∉ ks →
     PyDict.get (interfaces self') k = PyDict.get (interfaces self) k)
  ∧ (∀ k info, k ∈ ks → PyDict.get (interfaces self) k = Some info →
       ∃ info', PyDict.get (interfaces self') k = Some info'
                ∧ total_checks info <= total_checks info'
                  <= total_checks info + 1)
  ∧ ((∀ k info, k ∈ ks → PyDict.get (interfaces self) k = Some info →
        enabled info = true →
        ∃ info', PyDict.get (interfaces self') k = Some info'
                 ∧ total_checks info' = total_checks info + 1)
     ∨ ∃ k0 s e, k0 ∈ ks ∧ pre k0 s = Some e).
Proof.
  induction ks as [|k0 ks IH]; intros self Hreach Hnd Hmem; simpl.
  - split; [done|]. split; [|left]; intros k info Hk;
      now apply elem_of_nil in Hk.
  - apply NoDup_cons in Hnd as [Hk0 Hnd].
    assert (Hk0mem : PyDict.mem (interfaces self) k0 = true)
      by (apply Hmem, elem_of_cons; now left).
    unfold PyDict.mem in Hk0mem.
    destruct (PyDict.get (interfaces self) k0) as [info0|] eqn:E0; [|done].
    pose proof (monitor_interface_outcome host (pre k0) self k0 (clock k0)
                  (clock' k0) (ping k0) info0 (reachable_inv _ Hreach) E0)
      as Hout.
    pose proof (monitor_interface_reachable host (pre k0) self k0 (clock k0)
                  (clock' k0) (ping k0) Hreach) as Hreach1.
    destruct (monitor_interface_entries host (pre k0) self k0 (clock k0)
                (clock' k0) (ping k0)) as [Hframe Hown].
    destruct (monitor_interface (bound_reconfigure_routing host (pre k0))
                self k0 (clock k0) (clock' k0) (ping k0))
      as [[[]|e] self1]; cbn [fst snd] in *.
    + destruct (IH self1 Hreach1 Hnd) as (IHframe & IHbound & IHown).
      { intros k Hk. unfold PyDict.mem. rewrite Hframe by (intros ->; done).
        apply Hmem, elem_of_cons. now right. }
      split; [|split].
      * intros k Hk. rewrite not_elem_of_cons in Hk.
        destruct Hk as [Hne Hk]. rewrite IHframe by done. now apply Hframe.
      * intros k info [->|Hk]%elem_of_cons E.
        -- destruct (Hown info E) as (info' & E' & Ht & _).
           exists info'. split; [|done]. now rewrite IHframe.
        -- apply (IHbound k info Hk).
           rewrite Hframe by (intros ->; done). done.
      * destruct IHown as [IHown|(k1 & s & e & Hk1 & Hs)].
        -- left. intros k info [->|Hk]%elem_of_cons E Hen.
           ++ destruct (Hown info E) as (info' & E' & _ & Ht).
              exists info'. split; [now rewrite IHframe|now apply Ht].
           ++ apply (IHown k info Hk); [|done].
              rewrite Hframe by (intros ->; done). done.
        -- right. exists k1, s, e. split; [|done].
           apply elem_of_cons. now right.
    + split; [|split].
      * intros k Hk. rewrite not_elem_of_cons in Hk.
        destruct Hk as [Hne Hk]. now apply Hframe.
      * intros k info [->|Hk]%elem_of_cons E.
        -- destruct (Hown info E) as (info' & E' & Ht & _). eauto.
        -- exists info. rewrite Hframe by (intros ->; done).
           split; [done|lia].
      * right. destruct Hout as [[=]|(e' & s & Hs & _)].
        exists k0, s, e'. split; [|done]. apply elem_of_cons. now left.
Qed.

(** X18. One pass of the monitoring loop over the interfaces of the
    monitor, in any state of the monitor, checks no interface twice, and
    it is cut short only by an exception that the work put before
    [_reconfigure_routing] raises in a failover: when that raises nothing,
    as with the method of the class, every interface that was enabled
    before the pass has been checked exactly once after it. *)
Theorem monitoring_pass_checks_each host pre clock clock' ping self :
  reachable self →
  let self' :=
    monitoring_pass (λ k, bound_reconfigure_routing host (pre k))
      (PyDict.keys (interfaces self)) clock clock' ping self in
  let checked_once :=
    ∀ k info,
      PyDict.get (interfaces self) k = Some info → enabled info = true →
      ∃ info', PyDict.get (interfaces self') k = Some info'
               ∧ total_checks info' = total_checks info + 1 in
  (∀ k info,
     PyDict.get (interfaces self) k = Some info →
     ∃ info', PyDict.get (interfaces self') k = Some info'
              ∧ total_checks info <= total_checks info'
                <= total_checks info + 1)
  ∧ ((∀ k s, pre k s = None) → checked_once)
  ∧ (checked_once
     ∨ ∃ k0 s e, k0 ∈ PyDict.keys (interfaces self) ∧ pre k0 s = Some e).
Proof.
  intros Hreach. cbv zeta.
  destruct (monitoring_pass_general host pre clock clock' ping
              (PyDict.keys (interfaces self)) self Hreach)
    as (_ & Hbound & Hown).
  - apply (reachable_inv _ Hreach).
  - intros k' Hk'. now apply dict_mem_key.
  - assert (Hkey : ∀ k info,
              PyDict.get (interfaces self) k = Some info →
              k ∈ PyDict.keys (interfaces self)).
    { intros k info E. eapply dict_elem_key, dict_get_elem, E. }
    split; [|split].
    + intros k info E. apply (Hbound k info); [|done]. now apply (Hkey k info).
    + intros Hpre. destruct Hown as [Hown|(k0 & s & e & _ & Hs)].
      * intros k info E Hen. apply (Hown k info); [|done..].
        now apply (Hkey k info).
      * rewrite Hpre in Hs. discriminate Hs.
    + destruct Hown as [Hown|Hraise]; [left|now right].
      intros k info E Hen. apply (Hown k info); [|done..].
      now apply (Hkey k info).
Qed.

Lemma monitoring_pass_checks_each_witness :
  ∃ info',
    PyDict.get
      (interfaces
         (monitoring_pass
            (λ k, bound_reconfigure_routing Examples.host_ok (λ _, None))
            (PyDict.keys (interfaces Examples.fresh_monitor))
            (λ _, 5%Q) (λ _, 5%Q) (λ _, Examples.good_probe)
            Examples.fresh_monitor)) "eth1" = Some info'
    ∧ total_checks info' = 0 + 1.
Proof.
  refine (proj1 (proj2 (monitoring_pass_checks_each Examples.host_ok
                          (λ _ _, None) (λ _, 5%Q) (λ _, 5%Q)
                          (λ _, Examples.good_probe) Examples.fresh_monitor
                          _))
            _ "eth1"
            (mkIfaceInfo (mkIfaceConfig "eth1" "192.168.200.1" 1)
               true 0 0 0 0 0 None) _ _).
  - apply reach_init.
  - intros k s. reflexivity.
  - reflexivity.
  - reflexivity.
Defined.

End MonitorMoreFacts.

(** * Properties of the route manager *)

Section RoutesFacts.
Import Routes.

Lemma run_command_state host self cmd check :
  interfaces (snd (_run_command host self cmd check)) = interfaces self
  ∧ routing_tables (snd (_run_command host self cmd check))
    = routing_tables self
  ∧ commands (snd (_run_command host self cmd check))
    = commands self ++ match host cmd with Some _ => [cmd] | None => [] end.
Proof.
  unfold _run_command. destruct (host cmd) as [rc|]; simpl.
  - destruct (check && negb (rc =? 0)); done.
  - now rewrite app_nil_r.
Qed.

Lemma run_command_result host self cmd check :
  fst (_run_command host self cmd check)
  = match host cmd with
    | None => Err (FileNotFoundError cmd)
    | Some rc =>
        if check && negb (rc =? 0) then Err (CalledProcessError cmd rc)
        else Ok rc
    end.
Proof.
  unfold _run_command. destruct (host cmd) as [rc|]; [|done].
  destruct (check && negb (rc =? 0)); done.
Qed.

Lemma route_parts_interfaces a b :
  interfaces a = interfaces b → route_parts a = route_parts b.
Proof. unfold route_parts. now intros ->. Qed.

Lemma run_all_state host cmds : ∀ self,
  interfaces (run_all host self cmds) = interfaces self
  ∧ routing_tables (run_all host self cmds) = routing_tables self.
Proof.
  induction cmds as [|cmd cmds IH]; intros self; simpl; [done|].
  destruct (run_command_state host self cmd false) as (E1 & E2 & _).
  destruct (_run_command host self cmd false) as [[rc|e] self1]; simpl in *.
  - destruct (IH self1) as [-> ->]. done.
  - done.
Qed.

Lemma route_parts_up self :
  route_parts self = flat_map nexthop_words (up_interfaces self).
Proof.
  unfold route_parts, up_interfaces.
  induction (interfaces self) as [|[k i] l IH]; simpl; [done|].
  destruct (bool_decide (state i = UP)); simpl; now rewrite IH.
Qed.

Lemma parse_route_words l :
  Monitor.parse_nexthops (flat_map nexthop_words l) = map nexthop_of l.
Proof. induction l as [|i l IH]; simpl; [done|]. now rewrite IH. Qed.

Lemma configure_multipath_state host self :
  interfaces (snd (_configure_multipath_routing host self)) = interfaces self
  ∧ routing_tables (snd (_configure_multipath_routing host self))
    = routing_tables self.
Proof.
  unfold _configure_multipath_routing.
  destruct (run_command_state host self ["ip"; "route"; "del"; "default"]
              false) as (E1 & E2 & _).
  destruct (_run_command host self _ false) as [[rc|e] self1]; simpl in *;
    [|done].
  destruct (route_parts self1) as [|w ws]; [done|].
  destruct (run_command_state host self1 (Monitor.add_default ++ w :: ws)
              true) as (F1 & F2 & _).
  destruct (_run_command host self1 _ true) as [[rc'|e] self2]; simpl in *;
    split; congruence.
Qed.

(** What [_configure_multipath_routing] runs and returns, case by
    case. *)
Lemma configure_multipath_cases host self :
  let out := _configure_multipath_routing host self in
  let del := ["ip"; "route"; "del"; "default"] in
  let add :=
    Monitor.add_default ++ flat_map nexthop_words (up_interfaces self) in
  match host del with
  | None => issued self (snd out) = [] ∧ fst out = Err (FileNotFoundError del)
  | Some _ =>
      match up_interfaces self with
      | [] => issued self (snd out) = [del] ∧ fst out = Ok tt
      | _ :: _ =>
          match host add with
          | None =>
              issued self (snd out) = [del]
              ∧ fst out = Err (FileNotFoundError add)
          | Some rc =>
              issued self (snd out) = [del; add]
              ∧ fst out = if rc =? 0 then Ok tt
                          else Err (CalledProcessError add rc)
          end
      end
  end.
Proof.
  cbv zeta. unfold _configure_multipath_routing, issued.
  set (del := ["ip"; "route"; "del"; "default"]).
  destruct (run_command_state host self del false) as (E1 & E2 & E3).
  pose proof (run_command_result host self del false) as R1.
  destruct (_run_command host self del false) as [r1 self1].
  cbn [fst snd andb] in E1, E2, E3, R1. subst r1.
  destruct (host del) as [rc|]; cbn [fst snd].
  - rewrite (route_parts_interfaces self1 self E1), route_parts_up.
    destruct (up_interfaces self) as [|i l].
    + cbn [flat_map fst snd]. rewrite E3. now rewrite skipn_length_app.
    + remember (i :: l) as ups eqn:Hups.
      assert (Hparts : ∃ w ws, flat_map nexthop_words ups = w :: ws)
        by (subst ups; simpl; eauto).
      destruct Hparts as (w & ws & Hparts). rewrite Hparts.
      set (add := Monitor.add_default ++ w :: ws).
      destruct (run_command_state host self1 add true) as (_ & _ & F3).
      pose proof (run_command_result host self1 add true) as R2.
      destruct (_run_command host self1 add true) as [r2 self2].
      cbn [fst snd andb] in F3, R2. subst r2.
      destruct (host add) as [rc'|].
      * destruct (rc' =? 0); cbn [negb fst snd]; rewrite F3, E3;
          now rewrite <- app_assoc, skipn_length_app.
      * cbn [fst snd]. rewrite F3, E3, app_nil_r, skipn_length_app. done.
  - rewrite E3, app_nil_r. split; [|done].
    rewrite <- (app_nil_r (commands self)) at 2. apply skipn_length_app.
Qed.

(** What [_configure_multipath_routing] leaves, and which default-route
    command it runs. *)
Lemma configure_multipath_summary host self :
  let out := _configure_multipath_routing host self in
  interfaces (snd out) = interfaces self
  ∧ routing_tables (snd out) = routing_tables self
  ∧ (∀ cmd, cmd ∈ issued self (snd out) →
       Monitor.is_add_default cmd = true →
       Monitor.nexthops_of cmd = map nexthop_of (up_interfaces self))
  ∧ (up_interfaces self = [] →
     ∀ cmd, cmd ∈ issued self (snd out) → Monitor.is_add_default cmd = false)
  ∧ (fst out = Ok tt → up_interfaces self ≠ [] →
     ∃ cmd, issued self (snd out) = [["ip"; "route"; "del"; "default"]; cmd]
            ∧ Monitor.is_add_default cmd = true)
  ∧ (fst out = Ok tt
     ↔ is_Some (host ["ip"; "route"; "del"; "default"])
       ∧ (up_interfaces self ≠ [] →
          host (Monitor.add_default
                ++ flat_map nexthop_words (up_interfaces self)) = Some 0)).
Proof.
  cbv zeta. destruct (configure_multipath_state host self) as [D1 D2].
  split; [done|]. split; [done|].
  pose proof (configure_multipath_cases host self) as Hc. cbv zeta in Hc.
  set (del := ["ip"; "route"; "del"; "default"]) in *.
  assert (Hdel : Monitor.is_add_default del = false) by reflexivity.
  destruct (host del) as [rc|].
  2:{ destruct Hc as [-> ->]. split; [|split; [|split; [|split]]].
      - intros cmd H. now apply elem_of_nil in H.
      - intros _ cmd H. now apply elem_of_nil in H.
      - intros [=].
      - intros [=].
      - intros [[? [=]] _]. }
  destruct (up_interfaces self) as [|i l] eqn:Eup.
  { destruct Hc as [-> ->]. split; [|split; [|split; [|split]]].
    - intros cmd [->|H]%elem_of_cons; [congruence|now apply elem_of_nil in H].
    - intros _ cmd [->|H]%elem_of_cons; [done|now apply elem_of_nil in H].
    - intros _ H. now destruct H.
    - intros _. split; [eauto|]. intros H. now destruct H.
    - done. }
  remember (i :: l) as ups eqn:Hups.
  assert (Hne : ups ≠ []) by (subst ups; done).
  set (add := Monitor.add_default ++ flat_map nexthop_words ups) in *.
  assert (Hadd : Monitor.is_add_default add = true) by reflexivity.
  assert (Hnh : Monitor.nexthops_of add = map nexthop_of ups)
    by apply parse_route_words.
  destruct (host add) as [rc'|].
  - destruct Hc as [-> ->]. split; [|split; [|split; [|split]]].
    + intros cmd [->|[->|H]%elem_of_cons]%elem_of_cons ?;
        [congruence|done|now apply elem_of_nil in H].
    + intros H. exfalso. auto.
    + intros _ _. exists add. done.
    + destruct (rc' =? 0) eqn:Hrc; [|intros [=]].
      apply Z.eqb_eq in Hrc as ->. intros _. split; [eauto|done].
    + destruct (Z.eqb_spec rc' 0) as [->|Hrc]; [done|].
      intros [_ H]. specialize (H Hne). congruence.
  - destruct Hc as [-> ->]. split; [|split; [|split; [|split]]].
    + intros cmd [->|H]%elem_of_cons; [congruence|now apply elem_of_nil in H].
    + intros H. exfalso. auto.
    + intros [=].
    + intros [=].
    + intros [_ H]. specialize (H Hne). congruence.
Qed.

(** X19. [_configure_multipath_routing] leaves the interfaces and the
    tables as they are. It first deletes the default route, in every
    case; if some interface is UP it then runs one default-route command,
    which lists exactly the interfaces whose state is UP, in dictionary
    order, each with its gateway and weight, and if none is UP it runs
    nothing more. A command is missing from the list of those run only
    when the host could not start it, which ends the call with that error.
    The call returns exactly when the host runs the delete and, if some
    interface is UP, the route command returns 0; otherwise it raises the
    error of the command that failed. *)
Theorem configure_multipath_follows_up host self :
  let out := _configure_multipath_routing host self in
  let del := ["ip"; "route"; "del"; "default"] in
  let add :=
    Monitor.add_default ++ flat_map nexthop_words (up_interfaces self) in
  issued self (snd out)
  = match host del with
    | None => []
    | Some _ =>
        del ::
        match up_interfaces self with
        | [] => []
        | _ :: _ => match host add with None => [] | Some _ => [add] end
        end
    end
  ∧ fst out
    = match host del with
      | None => Err (FileNotFoundError del)
      | Some _ =>
          match up_interfaces self with
          | [] => Ok tt
          | _ :: _ =>
              match host add with
              | None => Err (FileNotFoundError add)
              | Some rc =>
                  if rc =? 0 then Ok tt else Err (CalledProcessError add rc)
              end
          end
      end
  ∧ Monitor.is_add_default del = false
  ∧ Monitor.is_add_default add = true
  ∧ Monitor.nexthops_of add = map nexthop_of (up_interfaces self)
  ∧ interfaces (snd out) = interfaces self
  ∧ routing_tables (snd out) = routing_tables self
  ∧ (∀ cmd, cmd ∈ issued self (snd out) →
       Monitor.is_add_default cmd = true →
       Monitor.nexthops_of cmd = map nexthop_of (up_interfaces self))
  ∧ (up_interfaces self = [] →
     ∀ cmd, cmd ∈ issued self (snd out) → Monitor.is_add_default cmd = false)
  ∧ (fst out = Ok tt → up_interfaces self ≠ [] →
     ∃ cmd, issued self (snd out) = [del; cmd]
            ∧ Monitor.is_add_default cmd = true)
  ∧ (fst out = Ok tt
     ↔ is_Some (host del)
       ∧ (up_interfaces self ≠ [] → host add = Some 0)).
Proof.
  cbv zeta.
  pose proof (configure_multipath_cases host self) as Hc. cbv zeta in Hc.
  split; [|split].
  - destruct (host ["ip"; "route"; "del"; "default"]); [|apply Hc].
    destruct (up_interfaces self); [apply Hc|].
    destruct (host _); apply Hc.
  - destruct (host ["ip"; "route"; "del"; "default"]); [|apply Hc].
    destruct (up_interfaces self); [apply Hc|].
    destruct (host _); apply Hc.
  - split; [reflexivity|]. split; [reflexivity|].
    split; [apply parse_route_words|].
    exact (configure_multipath_summary host self).
Qed.

Lemma run_all_commands host cmds : ∀ self,
  ∃ extra, commands (run_all host self cmds) = commands self ++ extra.
Proof.
  induction cmds as [|cmd cmds IH]; intros self; simpl.
  - exists []. now rewrite app_nil_r.
  - destruct (run_command_state host self cmd false) as (_ & _ & E3).
    destruct (_run_command host self cmd false) as [[rc|e] self1];
      simpl in E3.
    + destruct (IH self1) as [extra ->]. rewrite E3, <- app_assoc. eauto.
    + eauto.
Qed.

Lemma configure_multipath_commands host self :
  ∃ extra,
    commands (snd (_configure_multipath_routing host self))
    = commands self ++ extra.
Proof.
  unfold _configure_multipath_routing.
  destruct (run_command_state host self ["ip"; "route"; "del"; "default"]
              false) as (_ & _ & E3).
  destruct (_run_command host self _ false) as [[rc|e] self1]; simpl in E3;
    [|eauto].
  destruct (route_parts self1) as [|w ws]; [eauto|].
  destruct (run_command_state host self1 (Monitor.add_default ++ w :: ws)
              true) as (_ & _ & F3).
  destruct (_run_command host self1 _ true) as [[rc'|e] self2];
    simpl in F3 |- *; rewrite F3, E3, <- app_assoc; eauto.
Qed.

Lemma reconfigure_fold_state host l : ∀ self,
  interfaces (fold_left (reconfigure_one host) l self) = interfaces self
  ∧ routing_tables (fold_left (reconfigure_one host) l self)
    = routing_tables self.
Proof.
  induction l as [|kv l IH]; intros self; simpl; [done|].
  destruct (IH (reconfigure_one host self kv)) as [-> ->].
  unfold reconfigure_one, _update_interface_routing,
    _remove_interface_routing.
  destruct (bool_decide _); apply run_all_state.
Qed.

Lemma reconfigure_routing_state host self :
  interfaces (snd (_reconfigure_routing host self)) = interfaces self
  ∧ routing_tables (snd (_reconfigure_routing host self))
    = routing_tables self.
Proof.
  unfold _reconfigure_routing.
  destruct (configure_multipath_state host self) as [E1 E2].
  destruct (_configure_multipath_routing host self) as [[[]|e] self1];
    simpl in *; [|done].
  destruct (reconfigure_fold_state host (interfaces self1) self1)
    as [-> ->]. done.
Qed.

(** X20. [update_interface_state] does nothing for an interface the
    manager does not know. For a known one it records the state and the
    measurements; it never changes the set of interfaces, any other
    interface or the tables; and when the state is the one the interface
    already had, it runs no command. *)
Theorem update_interface_state_frame host self n st lat loss now :
  let out := update_interface_state host self n st lat loss now in
  (PyDict.get (interfaces self) n = None → out = (Ok tt, self))
  ∧ PyDict.keys (interfaces (snd out)) = PyDict.keys (interfaces self)
  ∧ routing_tables (snd out) = routing_tables self
  ∧ (∀ k, k ≠ n →
       PyDict.get (interfaces (snd out)) k = PyDict.get (interfaces self) k)
  ∧ ∀ iface, PyDict.get (interfaces self) n = Some iface →
      PyDict.get (interfaces (snd out)) n
      = Some (mkWAN (name iface) (gateway iface) (weight iface) st lat loss
                now)
      ∧ (state iface = st →
         fst out = Ok tt ∧ commands (snd out) = commands self).
Proof.
  cbv zeta. unfold update_interface_state.
  destruct (PyDict.get (interfaces self) n) as [iface|] eqn:E;
    [|repeat split; done].
  match goal with
  | |- context [_reconfigure_routing host ?s] => set (self1 := s)
  end.
  destruct (reconfigure_routing_state host self1) as [R1 R2].
  assert (Hifs : interfaces
                   (snd (if bool_decide (state iface = st)
                         then (Ok tt, self1)
                         else _reconfigure_routing host self1))
                 = interfaces self1)
    by (destruct (bool_decide _); done).
  assert (Htab : routing_tables
                   (snd (if bool_decide (state iface = st)
                         then (Ok tt, self1)
                         else _reconfigure_routing host self1))
                 = routing_tables self)
    by (destruct (bool_decide _); done).
  rewrite Hifs, Htab. subst self1. cbn [interfaces].
  split; [done|]. split; [eapply dict_set_keys_present; eauto|].
  split; [done|]. split; [intros k Hk; now apply dict_get_set_ne|].
  intros ? [= <-]. rewrite dict_get_set_eq. split; [done|].
  intros Hst. now rewrite (bool_decide_eq_true_2 _ Hst).
Qed.

Lemma dict_set_new_length {V} (d : PyDict.t V) k v :
  PyDict.mem d k = false → length (PyDict.set d k v) = S (length d).
Proof.
  intros Hk. rewrite <- (length_map fst (PyDict.set d k v)).
  change (map fst (PyDict.set d k v)) with (PyDict.keys (PyDict.set d k v)).
  rewrite dict_keys_set, Hk, length_app. unfold PyDict.keys.
  rewrite length_map. simpl. lia.
Qed.

(** The interfaces and tables [add_interface] leaves for a new name. *)
Lemma add_interface_state host self c n gw :
  cfg_name c = Some n → cfg_gateway c = Some gw →
  PyDict.mem (interfaces self) n = false →
  interfaces (snd (add_interface host self c))
  = PyDict.set (interfaces self) n
      (mkWAN n gw (match cfg_weight c with Some w => w | None => 1 end)
         UP 0 0 0)
  ∧ routing_tables (snd (add_interface host self c))
    = PyDict.set (routing_tables self) n
        (100 + Z.of_nat (length (interfaces self)) + 1).
Proof.
  intros Hn Hgw Hnew. unfold add_interface. rewrite Hn, Hgw, Hnew.
  rewrite (dict_set_new_length _ _ _ Hnew).
  match goal with
  | |- context [_configure_multipath_routing host ?s] =>
      destruct (configure_multipath_state host s) as [E1 E2];
      destruct (_configure_multipath_routing host s) as [[[]|e] s3]
  end; simpl in E1, E2 |- *; rewrite E1, E2;
    unfold _update_interface_routing;
    match goal with
    | |- context [run_all host ?s ?cmds] =>
        destruct (run_all_state host cmds s) as [-> ->]
    end; simpl; split; try done; f_equal; lia.
Qed.

(** X21. [add_interface] returns [False] and changes nothing when the
    name or the gateway is missing or the name is already registered. For
    a new name the interface is registered, last, in state UP with the
    given gateway and weight (1 when none is given), and its table number
    is 100 plus the new number of interfaces, whatever the call returns:
    a call that returns [False] because the route command failed leaves
    the interface registered. *)
Theorem add_interface_effect host self c :
  let out := add_interface host self c in
  (cfg_name c = None ∨ cfg_gateway c = None
   ∨ (∃ n, cfg_name c = Some n ∧ PyDict.mem (interfaces self) n = true) →
   out = (false, self))
  ∧ ∀ n gw,
      cfg_name c = Some n → cfg_gateway c = Some gw →
      PyDict.mem (interfaces self) n = false →
      PyDict.get (interfaces (snd out)) n
      = Some (mkWAN n gw
                (match cfg_weight c with Some w => w | None => 1 end)
                UP 0 0 0)
      ∧ PyDict.keys (interfaces (snd out))
        = PyDict.keys (interfaces self) ++ [n]
      ∧ PyDict.get (routing_tables (snd out)) n
        = Some (100 + Z.of_nat (length (interfaces self)) + 1)
      ∧ (∀ k, k ≠ n →
           PyDict.get (interfaces (snd out)) k
           = PyDict.get (interfaces self) k)
      ∧ (fst out = true
         ↔ fst (_configure_multipath_routing host
                  (_update_interface_routing host
                     (mkManager (interfaces (snd out))
                        (routing_tables (snd out)) (commands self))
                     (mkWAN n gw
                        (match cfg_weight c with Some w => w | None => 1 end)
                        UP 0 0 0) n))
           = Ok tt).
Proof.
  cbv zeta. split.
  - unfold add_interface. intros [Hn|[Hg|(n & Hn & Hmem)]].
    + now rewrite Hn.
    + rewrite Hg. now destruct (cfg_name c).
    + rewrite Hn, Hmem. now destruct (cfg_gateway c).
  - intros n gw Hn Hgw Hnew.
    destruct (add_interface_state host self c n gw Hn Hgw Hnew) as [E1 E2].
    rewrite E1, E2, !dict_get_set_eq, dict_keys_set, Hnew.
    split; [done|]. split; [done|]. split; [done|].
    split; [intros k Hk; now apply dict_get_set_ne|].
    unfold add_interface. rewrite Hn, Hgw, Hnew.
    rewrite (dict_set_new_length _ _ _ Hnew).
    replace (100 + Z.of_nat (S (length (interfaces self))))
      with (100 + Z.of_nat (length (interfaces self)) + 1) by lia.
    destruct (_configure_multipath_routing host _) as [[[]|e] s3];
      simpl; split; done.
Qed.

Lemma add_interface_effect_witness :
  PyDict.get
    (interfaces
       (snd (add_interface (λ _, Some 1)
               (mkManager default_interfaces initial_tables [])
               (mkInterfaceConfig (Some "eth2") (Some "10.0.0.1") None))))
    "eth2" = Some (mkWAN "eth2" "10.0.0.1" 1 UP 0 0 0).
Proof.
  exact (proj1 (proj2 (add_interface_effect (λ _, Some 1)
                         (mkManager default_interfaces initial_tables [])
                         (mkInterfaceConfig (Some "eth2") (Some "10.0.0.1")
                            None))
                  "eth2" "10.0.0.1" eq_refl eq_refl eq_refl)).
Defined.

Lemma index_of_last n keys :
  n ∉ keys → index_of n (keys ++ [n]) = length keys.
Proof.
  induction keys as [|k keys IH]; simpl.
  - intros _. now rewrite String.eqb_refl.
  - intros [Hne Hk]%not_elem_of_cons.
    destruct (String.eqb_spec n k); [done|]. now rewrite IH.
Qed.

(** X22. The table number [add_interface] registers for a new
    interface is not the one [_reconfigure_routing] uses for it: the first
    is stored under the interface name, the second is looked up under
    ["wan"] followed by the position of the interface, and falls back to
    100 when that name has no table. *)
Theorem added_interface_table_mismatch host self c n gw :
  cfg_name c = Some n → cfg_gateway c = Some gw →
  PyDict.mem (interfaces self) n = false →
  n ≠ "wan" +:+ str (Z.of_nat (length (interfaces self)) + 1) →
  let post := snd (add_interface host self c) in
  let wan := "wan" +:+ str (Z.of_nat (length (interfaces self)) + 1) in
  table_of post n = 100 + Z.of_nat (length (interfaces self)) + 1
  ∧ wan_table_name post n = wan
  ∧ table_of post (wan_table_name post n) = table_of self wan
  ∧ (PyDict.get (routing_tables self) wan = None →
     table_of post (wan_table_name post n) = 100
     ∧ table_of post n ≠ table_of post (wan_table_name post n)).
Proof.
  intros Hn Hgw Hnew Hne. cbv zeta.
  destruct (add_interface_state host self c n gw Hn Hgw Hnew) as [E1 E2].
  assert (Hwan : wan_table_name (snd (add_interface host self c)) n
                 = "wan" +:+ str (Z.of_nat (length (interfaces self)) + 1)).
  { unfold wan_table_name. rewrite E1, dict_keys_set, Hnew.
    rewrite index_of_last.
    - unfold PyDict.keys. now rewrite length_map.
    - intros Hin%dict_mem_key. congruence. }
  assert (Hn_tab : table_of (snd (add_interface host self c)) n
                   = 100 + Z.of_nat (length (interfaces self)) + 1).
  { unfold table_of. now rewrite E2, dict_get_set_eq. }
  assert (Hw_tab : table_of (snd (add_interface host self c))
                     ("wan" +:+ str (Z.of_nat (length (interfaces self)) + 1))
                   = table_of self
                       ("wan"
                        +:+ str (Z.of_nat (length (interfaces self)) + 1))).
  { unfold table_of. now rewrite E2, dict_get_set_ne. }
  rewrite Hwan, Hn_tab, Hw_tab.
  split; [done|]. split; [done|]. split; [done|].
  intros Hnone. unfold table_of. rewrite Hnone. split; [done|lia].
Qed.

Lemma added_interface_table_mismatch_witness :
  table_of
    (snd (add_interface (λ _, Some 0)
            (mkManager RouteExamples.three_uplinks initial_tables [])
            (mkInterfaceConfig (Some "eth3") (Some "10.0.3.1") None)))
    "eth3" = 100 + Z.of_nat 3 + 1.
Proof.
  refine (proj1 (added_interface_table_mismatch (λ _, Some 0)
                   (mkManager RouteExamples.three_uplinks initial_tables [])
                   (mkInterfaceConfig (Some "eth3") (Some "10.0.3.1") None)
                   "eth3" "10.0.3.1" eq_refl eq_refl eq_refl _)).
  vm_compute. discriminate.
Defined.

Lemma update_interface_state_interfaces host self n st lat loss now iface :
  PyDict.get (interfaces self) n = Some iface →
  interfaces (snd (update_interface_state host self n st lat loss now))
  = PyDict.set (interfaces self) n
      (mkWAN (name iface) (gateway iface) (weight iface) st lat loss now).
Proof.
  intros E. unfold update_interface_state. rewrite E.
  destruct (bool_decide (state iface = st)); [done|].
  now destruct (reconfigure_routing_state host
                  (mkManager
                     (PyDict.set (interfaces self) n
                        (mkWAN (name iface) (gateway iface) (weight iface)
                           st lat loss now))
                     (routing_tables self) (commands self))) as [-> _].
Qed.

(** X23. When [update_interface_state] changes the state of an
    interface and the command that adds the default route then fails, the
    call raises the error of that command; the new state stays recorded,
    and the only commands run are the removal and the failed addition of
    the default route: no table of an interface is updated or flushed. *)
Theorem update_interface_state_raises host self n st lat loss now iface rc :
  let iface' :=
    mkWAN (name iface) (gateway iface) (weight iface) st lat loss now in
  let self1 :=
    mkManager (PyDict.set (interfaces self) n iface') (routing_tables self)
      (commands self) in
  let del := ["ip"; "route"; "del"; "default"] in
  let add :=
    Monitor.add_default ++ flat_map nexthop_words (up_interfaces self1) in
  PyDict.get (interfaces self) n = Some iface →
  state iface ≠ st →
  up_interfaces self1 ≠ [] →
  host del ≠ None →
  host add = Some rc →
  rc ≠ 0 →
  let out := update_interface_state host self n st lat loss now in
  fst out = Err (CalledProcessError add rc)
  ∧ PyDict.get (interfaces (snd out)) n = Some iface'
  ∧ issued self (snd out) = [del; add].
Proof.
  cbv zeta. intros E Hst Hup Hdel Hadd Hrc.
  split; [|split].
  2: { rewrite (update_interface_state_interfaces _ _ _ _ _ _ _ _ E).
       apply dict_get_set_eq. }
  - unfold update_interface_state. rewrite E.
    rewrite (bool_decide_eq_false_2 _ Hst). unfold _reconfigure_routing.
    match goal with
    | |- context [_configure_multipath_routing host ?s] =>
        pose proof (configure_multipath_cases host s) as C; cbv zeta in C;
        destruct (host ["ip"; "route"; "del"; "default"]); [|done];
        destruct (up_interfaces s); [done|];
        rewrite Hadd in C; destruct C as [C1 C2];
        destruct (_configure_multipath_routing host s) as [[[]|e] s1]
    end; cbn [fst snd] in *;
    destruct (Z.eqb_spec rc 0); try done; congruence.
  - unfold update_interface_state. rewrite E.
    rewrite (bool_decide_eq_false_2 _ Hst). unfold _reconfigure_routing.
    match goal with
    | |- context [_configure_multipath_routing host ?s] =>
        pose proof (configure_multipath_cases host s) as C; cbv zeta in C;
        destruct (host ["ip"; "route"; "del"; "default"]); [|done];
        destruct (up_interfaces s); [done|];
        rewrite Hadd in C; destruct C as [C1 C2];
        destruct (_configure_multipath_routing host s) as [[[]|e] s1]
    end; cbn [fst snd] in *;
    destruct (Z.eqb_spec rc 0); try done; congruence.
Qed.

Lemma update_interface_state_raises_witness :
  fst (update_interface_state RouteExamples.failing_add
         (mkManager default_interfaces initial_tables []) "eth1" DOWN 0 0 5)
  = Err (CalledProcessError
           (Monitor.add_default
            ++ ["nexthop"; "via"; "192.168.100.1"; "dev"; "eth0"; "weight";
                "2"])
           2).
Proof.
  refine (proj1 (update_interface_state_raises RouteExamples.failing_add
                   (mkManager default_interfaces initial_tables [])
                   "eth1" DOWN 0 0 5
                   (mkWAN "eth1" "192.168.200.1" 1 UP 0 0 0) 2
                   eq_refl _ _ _ eq_refl _)); vm_compute; discriminate.
Defined.

(** X24. [manual_interface_control] of the route manager returns
    [False], and changes nothing, exactly when the interface is unknown or
    the action is neither "disable" nor "enable". For a known interface
    "disable" leaves it DOWN and "enable" leaves it UP, also when the call
    raises because the routes could not be rewritten. *)
Theorem route_manual_control_effect host self n action now :
  let out := manual_interface_control host self n action now in
  (fst out = Ok false
   ↔ PyDict.mem (interfaces self) n = false
     ∨ (action ≠ "disable" ∧ action ≠ "enable"))
  ∧ (fst out = Ok false → snd out = self)
  ∧ (PyDict.mem (interfaces self) n = true →
     ∀ st, (action = "disable" ∧ st = DOWN) ∨ (action = "enable" ∧ st = UP) →
       ∃ i, PyDict.get (interfaces (snd out)) n = Some i ∧ state i = st).
Proof.
  cbv zeta. unfold manual_interface_control.
  destruct (PyDict.mem (interfaces self) n) eqn:Hmem; cbn [negb].
  2: { split; [split; auto|]. split; [done|]. done. }
  assert (Hget : ∃ iface, PyDict.get (interfaces self) n = Some iface).
  { unfold PyDict.mem in Hmem.
    destruct (PyDict.get (interfaces self) n); [eauto|done]. }
  destruct Hget as [iface Hget].
  pose proof (update_interface_state_interfaces host self n DOWN 0 0 now
                iface Hget) as Hd.
  pose proof (update_interface_state_interfaces host self n UP 0 0 now
                iface Hget) as Hu.
  destruct (String.eqb_spec action "disable") as [->|Hnd].
  - destruct (update_interface_state host self n DOWN 0 0 now)
      as [[[]|e] s1]; cbn [fst snd] in *.
    + split; [split; [done|intros [|[]]; done]|]. split; [done|].
      intros _ st [[_ ->]|[? _]]; [|done]. rewrite Hd, dict_get_set_eq.
      eauto.
    + split; [split; [done|intros [|[]]; done]|]. split; [done|].
      intros _ st [[_ ->]|[? _]]; [|done]. rewrite Hd, dict_get_set_eq.
      eauto.
  - destruct (String.eqb_spec action "enable") as [->|Hne].
    + destruct (update_interface_state host self n UP 0 0 now)
        as [[[]|e] s1]; cbn [fst snd] in *.
      * split; [split; [done|intros [|[]]; done]|]. split; [done|].
        intros _ st [[? _]|[_ ->]]; [done|]. rewrite Hu, dict_get_set_eq.
        eauto.
      * split; [split; [done|intros [|[]]; done]|]. split; [done|].
        intros _ st [[? _]|[_ ->]]; [done|]. rewrite Hu, dict_get_set_eq.
        eauto.
    + split; [split; auto|]. split; [done|].
      intros _ st [[? _]|[? _]]; done.
Qed.

End RoutesFacts.

(** * Properties of the watchdog *)

Section WatchdogFacts.
Import Watchdog.

Lemma route_update_other host rm n st lat loss now k :
  k ≠ n →
  PyDict.get
    (Routes.interfaces
       (snd (Routes.update_interface_state host rm n st lat loss now))) k
  = PyDict.get (Routes.interfaces rm) k.
Proof.
  intros Hk.
  destruct (PyDict.get (Routes.interfaces rm) n) as [i|] eqn:E.
  - rewrite (update_interface_state_interfaces _ _ _ _ _ _ _ _ E).
    now apply dict_get_set_ne.
  - unfold Routes.update_interface_state. now rewrite E.
Qed.

Lemma route_update_same host rm n st lat loss now i :
  PyDict.get (Routes.interfaces rm) n = Some i →
  PyDict.get
    (Routes.interfaces
       (snd (Routes.update_interface_state host rm n st lat loss now))) n
  = Some (Routes.mkWAN (Routes.name i) (Routes.gateway i) (Routes.weight i)
            st lat loss now).
Proof.
  intros E. rewrite (update_interface_state_interfaces _ _ _ _ _ _ _ _ E).
  apply dict_get_set_eq.
Qed.

Lemma sync_states_interfaces host clock health : ∀ rm,
  NoDup (PyDict.keys health) →
  fst (sync_states host rm health clock) = Routes.Ok tt →
  (∀ k r i, (k, r) ∈ health →
     PyDict.get (Routes.interfaces rm) k = Some i →
     PyDict.get
       (Routes.interfaces (snd (sync_states host rm health clock))) k
     = Some (Routes.mkWAN (Routes.name i) (Routes.gateway i)
               (Routes.weight i) (state_of (Monitor.status r))
               (Monitor.latency r) (Monitor.packet_loss r) (clock k)))
  ∧ ∀ k, k ∉ PyDict.keys health →
      PyDict.get
        (Routes.interfaces (snd (sync_states host rm health clock))) k
      = PyDict.get (Routes.interfaces rm) k.
Proof.
  induction health as [|[k0 r0] rest IH]; intros rm Hnd Hok.
  - split; [|done]. intros k r i Hin. now apply elem_of_nil in Hin.
  - cbn [PyDict.keys map fst] in Hnd. apply NoDup_cons in Hnd as [Hk0 Hnd].
    cbn [sync_states] in Hok |- *.
    pose proof (route_update_other host rm k0 (state_of (Monitor.status r0))
                  (Monitor.latency r0) (Monitor.packet_loss r0) (clock k0))
      as Hother.
    pose proof (route_update_same host rm k0 (state_of (Monitor.status r0))
                  (Monitor.latency r0) (Monitor.packet_loss r0) (clock k0))
      as Hsame.
    destruct (Routes.update_interface_state host rm k0 _ _ _ _)
      as [[[]|e] rm1]; cbn [fst snd] in *; [|done].
    destruct (IH rm1 Hnd Hok) as [IH1 IH2]. split.
    + intros k r i [[= -> ->]|Hin]%elem_of_cons Hget.
      * rewrite (IH2 k0 Hk0). now apply Hsame.
      * apply (IH1 k r i Hin). rewrite Hother; [done|].
        intros ->. apply Hk0. eapply dict_elem_key, Hin.
    + intros k [Hne Hk]%not_elem_of_cons. rewrite (IH2 k Hk).
      now apply Hother.
Qed.

(** X25. When the loop of [integrated_reconfigure_routing] ends
    without an exception, every interface that has a health result and is
    known to the route manager carries the latency and the loss of its
    result, and is UP exactly when the result is HEALTHY and DOWN exactly
    when it is FAILED: a DEGRADED interface is not UP for the route
    manager. An interface without a health result is left as it was. *)
Theorem sync_states_follows_health host rm health clock :
  NoDup (PyDict.keys health) →
  fst (sync_states host rm health clock) = Routes.Ok tt →
  let post := snd (sync_states host rm health clock) in
  (∀ k r, (k, r) ∈ health →
     PyDict.mem (Routes.interfaces rm) k = true →
     ∃ i, PyDict.get (Routes.interfaces post) k = Some i
       ∧ Routes.latency i = Monitor.latency r
       ∧ Routes.packet_loss i = Monitor.packet_loss r
       ∧ (Routes.state i = Routes.UP ↔ Monitor.status r = Monitor.HEALTHY)
       ∧ (Routes.state i = Routes.DOWN ↔ Monitor.status r = Monitor.FAILED))
  ∧ ∀ k, k ∉ PyDict.keys health →
      PyDict.get (Routes.interfaces post) k
      = PyDict.get (Routes.interfaces rm) k.
Proof.
  intros Hnd Hok. cbv zeta.
  destruct (sync_states_interfaces host clock health rm Hnd Hok) as [H1 H2].
  split; [|done]. intros k r Hin Hmem. unfold PyDict.mem in Hmem.
  destruct (PyDict.get (Routes.interfaces rm) k) as [i|] eqn:E; [|done].
  rewrite (H1 k r i Hin E). eexists. split; [done|]. cbn.
  split; [done|]. split; [done|].
  destruct (Monitor.status r); cbn; split; split; done.
Qed.

Lemma sync_states_follows_health_witness :
  PyDict.get
    (Routes.interfaces
       (snd (sync_states Examples.host_ok
               (Routes.mkManager Routes.default_interfaces
                  Routes.initial_tables [])
               (Monitor.health_results Examples.monitor_both_healthy)
               (λ _, 6%Q))))
    "wlan0"
  = PyDict.get Routes.default_interfaces "wlan0".
Proof.
  refine (proj2 (sync_states_follows_health Examples.host_ok
                   (Routes.mkManager Routes.default_interfaces
                      Routes.initial_tables [])
                   (Monitor.health_results Examples.monitor_both_healthy)
                   (λ _, 6%Q) _ _) "wlan0" _).
  - vm_compute. repeat constructor; set_solver.
  - vm_compute. reflexivity.
  - vm_compute. set_solver.
Defined.

End WatchdogFacts.

(** * Properties of the interface detector: gateways and name servers *)

Section DetectorMoreFacts.
Import Detector DetectorMore.

Lemma fields_are_words s : Forall (λ w, is_word w = true) (fields s).
Proof.
  induction s as [|c s' IH]; [constructor|]. cbn [fields].
  destruct (is_space c) eqn:Ec; [done|].
  destruct s' as [|c' s'']; [repeat constructor; simpl; now rewrite Ec|].
  remember (fields (String c' s'')) as fs eqn:Hfs.
  destruct (is_space c').
  - constructor; [simpl; now rewrite Ec|done].
  - destruct fs as [|w ws]; [repeat constructor; simpl; now rewrite Ec|].
    apply Forall_cons in IH as [Hw Hws]. constructor; [|done].
    destruct w as [|a w]; [done|]. simpl in Hw |- *. now rewrite Ec.
Qed.

Lemma word_after_via_elem parts g :
  word_after_via parts = Some g → g ∈ parts.
Proof.
  induction parts as [|p rest IH]; simpl; [done|].
  destruct (String.eqb p "via").
  - destruct rest as [|q rest']; simpl; [done|]. intros [= ->].
    apply elem_of_cons. right. apply elem_of_cons. now left.
  - intros H. apply elem_of_cons. right. now apply IH.
Qed.

Lemma gateway_in_word lines g : gateway_in lines = Some g → is_word g = true.
Proof.
  induction lines as [|line rest IH]; simpl; [done|].
  destruct (after "default" line); [|done].
  destruct (word_after_via (fields line)) as [g'|] eqn:E; [|done].
  intros [= ->]. apply word_after_via_elem in E.
  pose proof (fields_are_words line) as Hall.
  rewrite Forall_forall in Hall. now apply Hall.
Qed.

(** X26. A gateway [_get_interface_gateway] returns is a word: it is
    not empty and holds no white space, so that a caller that tests the
    result for truth tests that there is one. *)
Theorem interface_gateway_is_word r g :
  _get_interface_gateway r = Value (Some g) →
  is_word g = true ∧ truthy (Some g) = true.
Proof.
  destruct r as [out| |]; simpl; [|done..]. intros [= H].
  apply gateway_in_word in H. split; [done|]. now destruct g.
Qed.

Lemma interface_gateway_is_word_witness :
  is_word "10.0.0.1" = true ∧ truthy (Some "10.0.0.1") = true.
Proof.
  apply (interface_gateway_is_word
           (RouteOut ("10.0.0.0/24 proto kernel" +:+ String "010"
                        "default via 10.0.0.1 proto dhcp"))).
  vm_compute. reflexivity.
Defined.

Lemma fields_space c s : is_space c = true → fields (String c s) = fields s.
Proof. intros H. cbn [fields]. now rewrite H. Qed.

Lemma fields_word_app w tail :
  w ≠ "" → no_space w = true → starts_word tail = false →
  fields (w +:+ tail) = w :: fields tail.
Proof.
  induction w as [|c w IH]; [done|]. intros _ Hns Ht.
  cbn [no_space] in Hns. apply andb_true_iff in Hns as [Hc Hw].
  apply negb_true_iff in Hc. rewrite append_cons.
  destruct w as [|c2 w2].
  - rewrite append_nil. destruct tail as [|a t].
    + cbn [fields]. now rewrite Hc.
    + cbn [starts_word] in Ht. apply negb_false_iff in Ht.
      cbn [fields]. now rewrite Hc, Ht.
  - specialize (IH ltac:(done) Hw Ht). rewrite append_cons in IH |- *.
    remember (String c2 (w2 +:+ tail)) as rest eqn:Hrest.
    cbn [fields]. rewrite Hc, IH. subst rest.
    cbn [no_space] in Hw. apply andb_true_iff in Hw as [Hc2 _].
    apply negb_true_iff in Hc2. now rewrite Hc2.
Qed.

Lemma split_char_head_not_word c s :
  starts_word s = false →
  ∃ w ws, split_char c s = w :: ws ∧ starts_word w = false.
Proof.
  destruct s as [|a t]; intros Hs; [by exists "", []|].
  cbn [split_char].
  destruct (split_char c t) as [|w ws]; [by exists (String a ""), []|].
  destruct (Ascii.eqb a c); [by exists "", (w :: ws)|].
  by exists (String a w), ws.
Qed.

Lemma split_newline_word_app a b w ws :
  no_space a = true → split_char "010" b = w :: ws →
  split_char "010" (a +:+ b) = (a +:+ w) :: ws.
Proof.
  intros Ha Hb. induction a as [|c a IH].
  - now rewrite !append_nil.
  - cbn [no_space] in Ha. apply andb_true_iff in Ha as [Hc Ha].
    rewrite !append_cons. cbn [split_char]. rewrite (IH Ha).
    destruct (Ascii.eqb_spec c "010") as [->|]; [done|]. done.
Qed.

Lemma split_newline_default_via b w ws :
  split_char "010" b = w :: ws →
  split_char "010" ("default via " +:+ b) = ("default via " +:+ w) :: ws.
Proof.
  intros Hb. rewrite !append_cons, !append_nil. cbn [split_char].
  rewrite Hb. reflexivity.
Qed.

(** X27. [_get_interface_gateway] reads the gateway of a default
    route: when the output starts with [default via G], where [G] is a
    word and what follows it is white space or nothing, the result is
    [G]. *)
Theorem interface_gateway_reads_via g tail :
  is_word g = true → starts_word tail = false →
  _get_interface_gateway (RouteOut ("default via " +:+ g +:+ tail))
  = Value (Some g).
Proof.
  intros Hg Ht. assert (Hne : g ≠ "") by (now destruct g).
  assert (Hns : no_space g = true) by (now destruct g).
  destruct (split_char_head_not_word "010" tail Ht) as (w & ws & Hsp & Hw).
  cbn [_get_interface_gateway].
  rewrite (split_newline_default_via _ _ _
             (split_newline_word_app g tail w ws Hns Hsp)).
  cbn [gateway_in].
  assert (Hafter : after "default" ("default via " +:+ (g +:+ w))
                   = Some (" via " +:+ (g +:+ w))) by reflexivity.
  rewrite Hafter.
  change ("default via " +:+ (g +:+ w))
    with ("default" +:+ String " " ("via" +:+ String " " (g +:+ w))).
  rewrite (fields_word_app "default"); [|done..].
  rewrite fields_space by reflexivity.
  rewrite (fields_word_app "via"); [|done..].
  rewrite fields_space by reflexivity.
  rewrite (fields_word_app g w Hne Hns Hw). reflexivity.
Qed.

Lemma interface_gateway_reads_via_witness :
  _get_interface_gateway
    (RouteOut ("default via " +:+ "192.168.100.1"
               +:+ (" proto dhcp metric 100 " +:+ String "010" "")))
  = Value (Some "192.168.100.1").
Proof.
  apply (interface_gateway_reads_via "192.168.100.1"
           (" proto dhcp metric 100 " +:+ String "010" ""));
    reflexivity.
Defined.

Lemma first_connected_some conn l i :
  first_connected conn l = Value (Some i) →
  i ∈ l ∧ interface_type i = "wan" ∧ conn (name i) = Some true.
Proof.
  induction l as [|j rest IH]; simpl; [done|].
  destruct (String.eqb_spec (interface_type j) "wan") as [Hw|].
  - destruct (conn (name j)) as [[]|] eqn:E; [|intros H..|done].
    + intros [= <-]. split; [apply elem_of_cons; now left|done].
    + destruct (IH H) as (? & ? & ?).
      split; [apply elem_of_cons; now right|done].
  - intros H. destruct (IH H) as (? & ? & ?).
    split; [apply elem_of_cons; now right|done].
Qed.

Lemma first_connected_none conn l j :
  first_connected conn l = Value None → j ∈ l →
  interface_type j = "wan" → conn (name j) ≠ Some true.
Proof.
  induction l as [|k rest IH]; simpl; [intros _ H; now apply elem_of_nil in H|].
  intros H [->|Hin]%elem_of_cons Hw.
  - rewrite Hw in H. cbn in H. destruct (conn (name k)) as [[]|]; done.
  - destruct (String.eqb (interface_type k) "wan");
      [destruct (conn (name k)) as [[]|]; try done|]; now apply IH.
Qed.

Lemma first_with_gateway_some rs l i :
  first_with_gateway rs l = Value (Some i) → i ∈ l.
Proof.
  induction l as [|j rest IH]; simpl; [done|].
  destruct (_get_interface_gateway (rs (name j))) as [g|e]; [|done].
  destruct (truthy g).
  - intros [= <-]. apply elem_of_cons. now left.
  - intros H. apply elem_of_cons. right. now apply IH.
Qed.

(** X28. [detect_primary_wan] returns one of the interfaces it was
    given. It returns [None] only when there is none. And when it returns
    an interface although some interface of type "wan" has connectivity,
    the one returned is of type "wan" and has connectivity. *)
Theorem detect_primary_wan_choice conn rs l :
  let out := detect_primary_wan conn rs l in
  (l = [] → out = Value None)
  ∧ (out = Value None → l = [])
  ∧ ∀ i, out = Value (Some i) →
      i ∈ l
      ∧ ((∃ j, j ∈ l ∧ interface_type j = "wan"
               ∧ conn (name j) = Some true) →
         interface_type i = "wan" ∧ conn (name i) = Some true).
Proof.
  cbv zeta. unfold detect_primary_wan. split; [now intros ->|].
  destruct (first_connected conn l) as [[i0|]|e] eqn:E1.
  - split; [done|]. intros i [= <-].
    destruct (first_connected_some conn l i0 E1) as (? & ? & ?). done.
  - assert (Hno : ∀ i, i ∈ l →
              (∃ j, j ∈ l ∧ interface_type j = "wan"
                    ∧ conn (name j) = Some true) →
              i ∈ l ∧ (interface_type i = "wan" ∧ conn (name i) = Some true)).
    { intros i Hi (j & Hj & Hw & Hc). exfalso.
      exact (first_connected_none conn l j E1 Hj Hw Hc). }
    destruct (first_with_gateway rs l) as [[i1|]|e] eqn:E2.
    + split; [done|]. intros i [= <-].
      pose proof (first_with_gateway_some rs l i1 E2) as Hin.
      split; [done|]. intros Hex. now apply (Hno i1 Hin Hex).
    + destruct (find _ l) as [i2|] eqn:E3.
      * split; [done|]. intros i [= <-].
        apply find_some in E3 as [Hin%list_elem_of_In _].
        split; [done|]. intros Hex. now apply (Hno i2 Hin Hex).
      * split; [destruct l; done|]. intros i [= Hhd].
        assert (Hin : i ∈ l).
        { destruct l as [|k rest]; [done|]. simpl in Hhd.
          injection Hhd as ->. apply elem_of_cons. now left. }
        split; [done|]. intros Hex. now apply (Hno i Hin Hex).
    + split; done.
  - split; done.
Qed.

Lemma nameservers_value is_ip lines : ∀ acc l,
  nameservers is_ip lines acc = Value l →
  ∃ extra, l = acc ++ extra
    ∧ Forall (λ d, _is_valid_dns is_ip d = true) extra.
Proof.
  induction lines as [|line rest IH]; intros acc l; simpl.
  - intros [= <-]. exists []. now rewrite app_nil_r.
  - destruct (String.prefix "nameserver" line); [|apply IH].
    destruct (fields line) as [|w0 [|dns ws]]; [done..|].
    destruct (_is_valid_dns is_ip dns) eqn:Ev; intros H.
    + destruct (IH _ _ H) as (extra & -> & Hall).
      exists (dns :: extra). rewrite <- app_assoc. split; [done|].
      now constructor.
    + now apply IH.
Qed.

Lemma nameservers_raises is_ip lines : ∀ acc,
  (∃ e, nameservers is_ip lines acc = Raised e)
  ↔ ∃ line, line ∈ lines ∧ String.prefix "nameserver" line = true
            ∧ (length (fields line) < 2)%nat.
Proof.
  induction lines as [|line rest IH]; intros acc; simpl.
  - split; [intros [e He]; done|].
    intros (line & Hin & _). now apply elem_of_nil in Hin.
  - destruct (String.prefix "nameserver" line) eqn:Ep.
    + destruct (fields line) as [|w0 [|dns ws]] eqn:Ef.
      * split; [|eauto]. intros _. exists line.
        rewrite Ef. split; [apply elem_of_cons; now left|]. split; [done|].
        simpl. lia.
      * split; [|eauto]. intros _. exists line.
        rewrite Ef. split; [apply elem_of_cons; now left|]. split; [done|].
        simpl. lia.
      * rewrite IH. split.
        -- intros (l' & Hin & Hp & Hlen). exists l'.
           split; [apply elem_of_cons; now right|done].
        -- intros (l' & [->|Hin]%elem_of_cons & Hp & Hlen).
           ++ rewrite Ef in Hlen. simpl in Hlen. lia.
           ++ eauto.
    + rewrite IH. split.
      * intros (l' & Hin & Hp & Hlen). exists l'.
        split; [apply elem_of_cons; now right|done].
      * intros (l' & [->|Hin]%elem_of_cons & Hp & Hlen).
        -- congruence.
        -- eauto.
Qed.

(** X29. [_detect_dns_servers] returns one or two servers: the
    common pair, or servers that [_is_valid_dns] accepts. It raises
    exactly when a line of the file starts with "nameserver" and has no
    second word. *)
Theorem detect_dns_servers_bounds is_ip resolv :
  (∀ l, _detect_dns_servers is_ip resolv = Value l →
     (1 <= length l <= 2)%nat
     ∧ (l = common_dns ∨ ∀ d, d ∈ l → _is_valid_dns is_ip d = true))
  ∧ ((∃ e, _detect_dns_servers is_ip resolv = Raised e)
     ↔ ∃ lines line,
         resolv = Some lines ∧ line ∈ lines
         ∧ String.prefix "nameserver" line = true
         ∧ (length (fields line) < 2)%nat).
Proof.
  unfold _detect_dns_servers. destruct resolv as [lines|].
  2: { split.
       - intros l [= <-]. split; [simpl; lia|now left].
       - split; [intros [e He]; done|]. intros (? & ? & ? & _). done. }
  pose proof (nameservers_raises is_ip lines []) as Hr.
  pose proof (nameservers_value is_ip lines []) as Hv.
  destruct (nameservers is_ip lines []) as [l0|e].
  - split.
    + destruct (Hv l0 eq_refl) as (extra & -> & Hall). simpl in *.
      destruct extra as [|d1 [|d2 rest]]; intros l [= <-].
      * split; [simpl; lia|now left].
      * split; [simpl; lia|]. right. now apply Forall_forall.
      * split; [simpl; lia|]. right. apply Forall_forall.
        apply Forall_cons in Hall as [H1 Hall].
        apply Forall_cons in Hall as [H2 _]. now repeat constructor.
    + split.
      * intros [e He]. destruct l0; done.
      * intros (lines' & line & [= <-] & Hrest).
        destruct Hr as [_ Hr]. destruct Hr as [e He]; [eauto|done].
  - split; [done|]. split; [|eauto].
    intros _. destruct Hr as [Hr _].
    destruct Hr as (line & Hrest); [eauto|]. eauto.
Qed.

Lemma detect_dns_servers_bounds_witness :
  (1 <= length ["9.9.9.9"] <= 2)%nat
  ∧ (["9.9.9.9"] = common_dns
     ∨ ∀ d, d ∈ ["9.9.9.9"] →
         _is_valid_dns DetectorExamples.dotted d = true).
Proof.
  apply (proj1 (detect_dns_servers_bounds DetectorExamples.dotted
                  (Some DetectorExamples.resolv_conf))).
  vm_compute. reflexivity.
Defined.

Lemma skipped_names_have_no_prefix n :
  is_in n ["lo"; "virbr"; "docker"; "veth"] = true →
  startswith_any ["eth"; "en"; "ens"; "wlan"] n = false.
Proof.
  unfold is_in. cbn [existsb]. rewrite !orb_true_iff.
  intros [H|[H|[H|[H|H]]]]; try done;
    apply String.eqb_eq in H; subst n; reflexivity.
Qed.

Lemma prefix_ens_en n :
  String.prefix "ens" n = true → String.prefix "en" n = true.
Proof.
  destruct n as [|a [|b n]]; cbn [String.prefix]; [done|..].
  - now destruct (ascii_dec "e" a).
  - destruct (ascii_dec "e" a); [|done].
    destruct (ascii_dec "n" b); [|done]. now destruct n.
Qed.

Lemma startswith_without_ens n :
  startswith_any ["eth"; "en"; "ens"; "wlan"] n
  = startswith_any ["eth"; "en"; "wlan"] n.
Proof.
  unfold startswith_any. cbn [existsb].
  pose proof (prefix_ens_en n) as H.
  destruct (String.prefix "eth" n), (String.prefix "en" n),
    (String.prefix "ens" n), (String.prefix "wlan" n); try done;
    now specialize (H eq_refl).
Qed.

Lemma current_wans_some wans : current_wans (map Some wans) = Value wans.
Proof. induction wans as [|n wans IH]; simpl; [done|]. now rewrite IH. Qed.

Lemma current_wans_raises current :
  current_wans current = Raised (KeyError "name") ↔ None ∈ current.
Proof.
  induction current as [|[n|] rest IH]; simpl.
  - split; [done|]. intros H. now apply elem_of_nil in H.
  - rewrite elem_of_cons, <- IH.
    destruct (current_wans rest); split; try done.
    + intros [|]; done.
    + intros [= <-]. now right.
    + intros [|[= <-]]; done.
  - split; [|done]. intros _. apply elem_of_cons. now left.
Qed.

(** X30. [get_available_wan_interfaces] raises [KeyError] exactly
    when an entry of the configuration has no name. Otherwise it keeps,
    in their order, the interfaces that are not configured and whose name
    starts with "eth", "en" or "wlan": the names it skips as loopback or
    virtual are exact names that would not be kept anyway. *)
Theorem available_wan_interfaces_filter all :
  (∀ current,
     get_available_wan_interfaces all current = Raised (KeyError "name")
     ↔ None ∈ current)
  ∧ ∀ wans,
      get_available_wan_interfaces all (map Some wans)
      = Value
          (List.filter
             (λ i, negb (is_in (name i) wans)
                   && startswith_any ["eth"; "en"; "wlan"] (name i))
             all).
Proof.
  split.
  - intros current. unfold get_available_wan_interfaces.
    rewrite <- current_wans_raises.
    destruct (current_wans current); split; intros H;
      try discriminate H; now injection H as ->.
  - intros wans. unfold get_available_wan_interfaces.
    rewrite current_wans_some. f_equal.
    induction all as [|i rest IH]; [done|]. cbn [available List.filter].
    rewrite IH, <- startswith_without_ens.
    destruct (is_in (name i) wans); [done|]. cbn [negb andb].
    destruct (is_in (name i) ["lo"; "virbr"; "docker"; "veth"]) eqn:Es;
      [|done].
    now rewrite (skipped_names_have_no_prefix _ Es).
Qed.

End DetectorMoreFacts.
